(** * BrowserFetcher: a shallow embedding of [src/deno/BrowserFetcher.ts]

    The fetcher resolves download URLs, streams an archive to disk, sniffs
    its container format, extracts it into [{downloads}/{platform}-{revision}]
    and enumerates or removes installed revisions.  Pure resolver functions
    are Rocq functions; the asynchronous methods are computations in a state
    and error monad over a world made of a file system, a log of HTTP
    requests and a log of progress-callback invocations. *)

From Stdlib Require Import ZArith Ascii String List Bool Lia.
From stdpp Require Import base option list strings gmap fin_maps.

Local Open Scope Z_scope.
Local Open Scope string_scope.

(** ** JavaScript strings and numbers

    A string is a sequence of code units; the embedding keeps the code
    units below 256, one per character, which is what the values of HTTP
    headers are made of. *)

Module Js.

(** [s.split(sep)] for a one-character separator. *)
Fixpoint split (sep : ascii) (s : string) : list string :=
  match s with
  | EmptyString => [EmptyString]
  | String a rest =>
      if Ascii.eqb a sep then EmptyString :: split sep rest
      else match split sep rest with
           | [] => [String a EmptyString]
           | w :: ws => String a w :: ws
           end
  end.

(** [parts.join(sep)], the inverse of [split]. *)
Fixpoint join (sep : ascii) (parts : list string) : string :=
  match parts with
  | [] => EmptyString
  | [w] => w
  | w :: ws => w +:+ String sep (join sep ws)
  end.

(** [s.endsWith(suffix)]. *)
Fixpoint endsWith (s suffix : string) : bool :=
  String.eqb s suffix ||
  match s with
  | EmptyString => false
  | String _ rest => endsWith rest suffix
  end.

(** [s.includes(sub)]. *)
Fixpoint includes (s sub : string) : bool :=
  String.prefix sub s ||
  match s with
  | EmptyString => false
  | String _ rest => includes rest sub
  end.

(** [s.replace(/old$/, new)] for a literal [old]: the pattern is anchored
    at the end of the input, so at most the trailing occurrence is
    replaced. *)
Fixpoint replaceSuffix (s old new : string) : string :=
  if String.eqb s old then new
  else match s with
       | EmptyString => s
       | String a rest => String a (replaceSuffix rest old new)
       end.

(** [s.split("/").pop()]: the part after the last slash. *)
Definition lastSegment (s : string) : string :=
  List.last (split "/" s) EmptyString.

(** A JavaScript number as far as this program produces them: the result
    of [parseInt] or a byte count.  It is not-a-number, an integer that a
    double holds, or an infinity.  The sign of zero is not kept: no
    operation of the program tells the two zeros apart. *)
Inductive number := NaN | Num (z : Z) | Infinity (negative : bool).

(** The double nearest to the integer [z], ties to the even significand:
    below 2^53 every integer is a double; above, the 53 leading bits are
    kept and the rest is rounded away; from 2^1024 on the result is an
    infinity. *)
Definition roundToDouble (z : Z) : number :=
  let a := Z.abs z in
  if (a <? 2 ^ 53)%Z then Num z
  else
    let e := (Z.log2 a - 52)%Z in
    let q := (a / 2 ^ e)%Z in
    let r := (a mod 2 ^ e)%Z in
    let half := (2 ^ (e - 1))%Z in
    let q' :=
      if (r <? half)%Z then q
      else if (half <? r)%Z then (q + 1)%Z
      else if Z.even q then q else (q + 1)%Z in
    let m := (q' * 2 ^ e)%Z in
    if (2 ^ 1024 <=? m)%Z then Infinity (z <? 0)%Z
    else Num (if (z <? 0)%Z then - m else m)%Z.

(** The white space [parseInt] skips, among the code units below 256: tab,
    the line terminators and form feeds 9 to 13, space, and the no-break
    space 160. *)
Definition isWhiteSpace (a : ascii) : bool :=
  let n := nat_of_ascii a in
  (Nat.eqb n 32 || (Nat.leb 9 n && Nat.leb n 13) || Nat.eqb n 160)%nat.

Fixpoint trimStart (s : string) : string :=
  match s with
  | String a rest => if isWhiteSpace a then trimStart rest else s
  | EmptyString => s
  end.

Definition digit (a : ascii) : option Z :=
  let n := nat_of_ascii a in
  if (Nat.leb 48 n && Nat.leb n 57)%nat then Some (Z.of_nat n - 48) else None.

(** The longest prefix of decimal digits, read with accumulator [acc];
    [seen] records whether any digit was consumed. *)
Fixpoint digits (s : string) (seen : bool) (acc : Z) : option Z :=
  match s with
  | String a rest =>
      match digit a with
      | Some d => digits rest true (10 * acc + d)
      | None => if seen then Some acc else None
      end
  | EmptyString => if seen then Some acc else None
  end.

(** The integer [parseInt(s, 10)] reads before it rounds: leading white
    space and one sign are skipped and the decimal digits that follow are
    read; [None] when no digit follows.  With the radix given, a prefix
    [0x] is not special. *)
Definition integerPrefix (s : string) : option Z :=
  let t := trimStart s in
  let '(neg, body) :=
    match t with
    | String "-" rest => (true, rest)
    | String "+" rest => (false, rest)
    | _ => (false, t)
    end in
  match digits body false 0 with
  | Some z => Some (if neg then - z else z)
  | None => None
  end.

(** [parseInt(s, 10)]: the integer read is rounded to a double; without a
    digit the result is [NaN]. *)
Definition parseInt (s : string) : number :=
  match integerPrefix s with
  | Some z => roundToDouble z
  | None => NaN
  end.

(** [x > y] on numbers, for an integer [y] that a double holds: every
    comparison with [NaN] is false. *)
Definition gt (x : number) (y : Z) : bool :=
  match x with
  | NaN => false
  | Num z => Z.ltb y z
  | Infinity negative => negb negative
  end.

(** The own property names of [Object.prototype], which every object
    literal inherits; reading one of them through [obj[key]] yields a
    function, a truthy value.  (Deno deletes [__proto__].) *)
Definition objectPrototypeKeys : list string :=
  [ "constructor"; "hasOwnProperty"; "isPrototypeOf";
    "propertyIsEnumerable"; "toLocaleString"; "toString"; "valueOf";
    "__defineGetter__"; "__defineSetter__";
    "__lookupGetter__"; "__lookupSetter__" ].

Definition inherited (key : string) : bool :=
  existsb (String.eqb key) objectPrototypeKeys.

End Js.

(** ** Products, platforms and the URL tables *)

Inductive Product := chrome | firefox.

Inductive Platform := linux | linux_arm64 | mac | win32 | win64.

#[export] Instance Product_eq_dec : EqDecision Product.
Proof. solve_decision. Defined.

#[export] Instance Platform_eq_dec : EqDecision Platform.
Proof. solve_decision. Defined.

(** The string a [Platform] value is at run time. *)
Definition platformName (p : Platform) : string :=
  match p with
  | linux => "linux"
  | linux_arm64 => "linux-arm64"
  | mac => "mac"
  | win32 => "win32"
  | win64 => "win64"
  end.

Definition productName (p : Product) : string :=
  match p with
  | chrome => "chrome"
  | firefox => "firefox"
  end.

Definition platformOfName (s : string) : option Platform :=
  if String.eqb s "linux" then Some linux
  else if String.eqb s "linux-arm64" then Some linux_arm64
  else if String.eqb s "mac" then Some mac
  else if String.eqb s "win32" then Some win32
  else if String.eqb s "win64" then Some win64
  else None.

Definition allPlatforms : list Platform :=
  [linux; linux_arm64; mac; win32; win64].

Definition downloadURLs (product : Product) (platform : Platform) : string :=
  match product, platform with
  | chrome, linux => "%s/chromium-browser-snapshots/Linux_x64/%d/%s.zip"
  | chrome, linux_arm64 => "%s/chromium-browser-snapshots/Linux_arm64/%d/%s.zip"
  | chrome, mac => "%s/chromium-browser-snapshots/Mac/%d/%s.zip"
  | chrome, win32 => "%s/chromium-browser-snapshots/Win/%d/%s.zip"
  | chrome, win64 => "%s/chromium-browser-snapshots/Win_x64/%d/%s.zip"
  | firefox, linux => "%s/firefox-%s.en-US.%s-x86_64.tar.bz2"
  | firefox, linux_arm64 => "%s/firefox-%s.en-US.%s-aarch64.tar.bz2"
  | firefox, mac => "%s/firefox-%s.en-US.%s.dmg"
  | firefox, win32 => "%s/firefox-%s.en-US.%s.zip"
  | firefox, win64 => "%s/firefox-%s.en-US.%s.zip"
  end.

(** [downloadURLs[product]?.[key]] read as a condition, for an arbitrary
    string key: the five own keys hold non-empty templates, and the keys of
    [Object.prototype] are found through the prototype chain. *)
Definition hasDownloadURL (product : Product) (key : string) : bool :=
  match platformOfName key with
  | Some platform => negb (String.eqb (downloadURLs product platform) EmptyString)
  | None => Js.inherited key
  end.

Record BrowserConfig := { host : string; destination : string }.

Definition browserConfig (product : Product) : BrowserConfig :=
  match product with
  | chrome =>
      {| host := "https://storage.googleapis.com"; destination := "chromium" |}
  | firefox =>
      {| host := "https://archive.mozilla.org/pub/firefox/nightly/latest-mozilla-central";
         destination := "firefox" |}
  end.

(** The [throw new Error(`Unknown product: ...`)] at the end of the source
    function is unreachable for the two products of the type. *)
Definition archiveName (product : Product) (platform : Platform)
    (revision : string) : string :=
  match product with
  | chrome =>
      match platform with
      | linux => "chrome-linux"
      | linux_arm64 => "chrome-linux"
      | mac => "chrome-mac"
      | win32 | win64 =>
          if Js.gt (Js.parseInt revision) 591479 then "chrome-win"
          else "chrome-win32"
      end
  | firefox => platformName platform
  end.

Definition firefoxLinuxArm64URL : string :=
  "https://download.mozilla.org/?product=firefox-nightly-latest-ssl&os=linux64-aarch64&lang=en-US&_gl=1*se5055*_ga*NDg5MjU3NzYxLjE3MzQ2OTg0MTQ.*_ga_MQ7767QQQW*czE3NDg3NzM0MTUkbzIkZzEkdDE3NDg3NzM4NDQkajQ3JGwwJGgw".

Definition firefoxLinuxURL : string :=
  "https://download.mozilla.org/?product=firefox-nightly-latest-ssl&os=linux64&lang=en-US&_gl=1*1lx0kac*_ga*NDg5MjU3NzYxLjE3MzQ2OTg0MTQ.*_ga_MQ7767QQQW*czE3NDg3NzM0MTUkbzIkZzEkdDE3NDg3NzM4NDQkajQ3JGwwJGgw".

(** The two combinations [downloadURL] answers without its template. *)
Definition isFirefoxLinux (product : Product) (platform : Platform) : bool :=
  match product, platform with
  | firefox, linux | firefox, linux_arm64 => true
  | _, _ => false
  end.

Section Resolver.

(** [sprintf] comes from the vendored standard library, which is not part
    of the sources at hand; it is taken as a parameter: a format and its
    three arguments, in order. *)
Variable sprintf : string -> string -> string -> string -> string.

Definition downloadURL (product : Product) (platform : Platform)
    (host revision : string) : string :=
  if bool_decide (product = firefox /\ platform = linux_arm64) then
    firefoxLinuxArm64URL
  else if bool_decide (product = firefox /\ platform = linux) then
    firefoxLinuxURL
  else
    sprintf (downloadURLs product platform) host revision
      (archiveName product platform revision).

End Resolver.

(** A reference [sprintf] for closed examples: each [%s] or [%d] is replaced
    by the next argument, written as it is. *)
Fixpoint substitute (fmt : string) (args : list string) : string :=
  match fmt with
  | EmptyString => EmptyString
  | String a rest =>
      match rest with
      | String c rest' =>
          if (Ascii.eqb a "%" && (Ascii.eqb c "s" || Ascii.eqb c "d"))%bool then
            match args with
            | arg :: args' => arg +:+ substitute rest' args'
            | [] => String a (substitute rest args)
            end
          else String a (substitute rest args)
      | EmptyString => String a EmptyString
      end
  end.

Definition sprintf3 (fmt a b c : string) : string := substitute fmt [a; b; c].

(** ** Parsing installed folder names *)

Record ParsedName := {
  parsedProduct : Product;
  parsedPlatform : string;
  parsedRevision : string;
}.

Definition parseName (product : Product) (name : string) : option ParsedName :=
  let splits := Js.split "-" name in
  let parts :=
    match splits with
    | [platform; revision] => Some (platform, revision)
    | [s0; s1; s2] =>
        if (String.eqb s0 "linux" && String.eqb s1 "arm64")%bool
        then Some ("linux-arm64", s2)
        else None
    | _ => None
    end in
  match parts with
  | Some (platform, revision) =>
      if negb (hasDownloadURL product platform) then None
      else Some {| parsedProduct := product;
                   parsedPlatform := platform;
                   parsedRevision := revision |}
  | None => None
  end.

(** ** Paths and the file system *)

(** Modelled from the spec: [pathJoin] is the [join] of the standard
    library, which is not part of the sources at hand; the spec calls it a
    deterministic join of its segments.  Here the segments are put together
    with the separator [/].  The library's join also normalises the result:
    it drops empty and [.] segments and resolves [..]; so the model is
    exact for segments that are normal already, and the statements that
    tell the folders of two revisions apart are made for revisions without
    a separator (see [plainSegment]). *)
Definition pathJoin (segments : list string) : string := Js.join "/" segments.

Fixpoint stripPrefix (p s : string) : option string :=
  match p, s with
  | EmptyString, _ => Some s
  | String a p', String b s' => if Ascii.eqb a b then stripPrefix p' s' else None
  | String _ _, EmptyString => None
  end.

(** A byte is a [Z] in [0, 256). *)
Definition bytes := list Z.

Inductive Node := File (content : bytes) | Dir.

(** The file system maps every existing path to what is there.  A path
    exists when it is a key; mode bits are not tracked. *)
Abbreviation FileSystem := (gmap string Node).

(** [path] is [dir] itself or lies below it. *)
Definition isWithin (dir path : string) : bool :=
  (String.eqb path dir || String.prefix (dir +:+ "/") path)%bool.

(** The name of [path] as a direct entry of [dir], if it is one. *)
Definition childName (dir path : string) : option string :=
  match stripPrefix (dir +:+ "/") path with
  | Some name =>
      if (String.eqb name EmptyString || Js.includes name "/")%bool then None
      else Some name
  | None => None
  end.

Definition removeTree (dir : string) (fs : FileSystem) : FileSystem :=
  filter (fun entry => isWithin dir entry.1 = false) fs.

Definition listDir (dir : string) (fs : FileSystem) : list string :=
  omap (childName dir) (map fst (map_to_list fs)).

(** Entries given relative to [dir] are written below it. *)
Definition writeEntries (dir : string) (entries : list (string * Node))
    (fs : FileSystem) : FileSystem :=
  foldr (fun entry acc => <[pathJoin [dir; entry.1] := entry.2]> acc) fs entries.

(** ** The environment of a run *)

Inductive Method := GET | HEAD.

#[export] Instance Method_eq_dec : EqDecision Method.
Proof. solve_decision. Defined.

(** What [fetch] resolves to.  The body arrives as a sequence of chunks;
    [bodyFails] says that the stream breaks off after them. *)
Record Response := {
  status : Z;
  contentDisposition : option string;
  contentLength : option string;
  body : list bytes;
  bodyFails : bool;
}.

Inductive TarFlags := xvf | xzf | xJf.

(** Everything the program obtains from outside itself: the runtime's build
    constants, the HTTP server, the external commands and the vendored
    helpers whose sources are not at hand. *)
Record Env := {
  sprintf : string -> string -> string -> string -> string;
  build_os : string;
  build_arch : string;
  (** [fetch(url, {method})]; [None] when the promise rejects. *)
  fetch : Method -> string -> option Response;
  (** [file <path>]: its standard output, [None] when it cannot be run. *)
  fileCommand : string -> bytes -> option string;
  (** [readZip] then [unzip]: the entries of the archive, [None] on failure. *)
  unzipEntries : bytes -> option (list (string * Node));
  (** [bzcat <path>]: exit status and standard output. *)
  bzcat : bytes -> bool * bytes;
  (** [tar -C <folder> <flags> <path>]: the entries written, [None] on a
      non-zero exit status. *)
  tarEntries : TarFlags -> bytes -> option (list (string * Node));
  (** [Deno.makeTempFile()]. *)
  tempFile : string;
  (** [hdiutil attach]: its standard output and the listing of the mounted
      volume (entry name and the files below it). *)
  hdiutilAttach : bytes -> string * list (string * list (string * Node));
  (** [hdiutil detach]: its exit status. *)
  hdiutilDetach : string -> bool;
}.

(** ** Worlds, errors and the monad of asynchronous methods *)

Record World := {
  fs : FileSystem;
  (** HTTP requests issued so far, oldest first. *)
  requests : list (Method * string);
  (** Invocations of the progress callback so far, oldest first. *)
  progress : list (Z * Js.number);
}.

Definition setFs (f : FileSystem -> FileSystem) (w : World) : World :=
  {| fs := f (fs w); requests := requests w; progress := progress w |}.

(** The exceptions of the program, one constructor per [throw] or [assert]
    site, and [RuntimeError] for a rejected runtime call. *)
Inductive Error :=
  (** [Error(`Unsupported archive format: ${archivePath}`)] *)
  | UnsupportedArchiveFormat (archivePath : string)
  (** [assert(..., `Failed to remove: revision ${revision} is not downloaded`)] *)
  | NotDownloaded (revision : string)
  (** [Error(`Download failed: server returned code ${status}. URL: ${url}`)] *)
  | DownloadFailed (code : Z) (url : string)
  (** the bare [throw new Error()] that refuses Chrome on arm64 *)
  | UnsupportedArchitecture
  (** [assert(status.success, message)] after an external command *)
  | AssertionFailed (message : string)
  (** [Error(`Could not find volume path ...`)], [Error(`Cannot find app ...`)] *)
  | ExtractionFailed (message : string)
  (** a rejected call into the runtime, named by the operation *)
  | RuntimeError (operation : string).

Inductive Result (A : Type) :=
  | Ok (value : A)
  | Err (error : Error).

Arguments Ok {A} value.
Arguments Err {A} error.

Definition M (A : Type) : Type := World -> Result A * World.

Definition ret {A} (a : A) : M A := fun w => (Ok a, w).

Definition throw {A} (e : Error) : M A := fun w => (Err e, w).

Definition bind {A B} (m : M A) (k : A -> M B) : M B :=
  fun w =>
    match m w with
    | (Ok a, w') => k a w'
    | (Err e, w') => (Err e, w')
    end.

(** [try { body } finally { cleanup }]: the cleanup runs on both paths, and
    an exception of the cleanup replaces the outcome of the body. *)
Definition tryFinally {A} (body : M A) (cleanup : M unit) : M A :=
  fun w =>
    let '(r, w1) := body w in
    match cleanup w1 with
    | (Ok _, w2) => (r, w2)
    | (Err e, w2) => (Err e, w2)
    end.

(** [try { body } catch { handler }]. *)
Definition tryCatch {A} (body : M A) (handler : M A) : M A :=
  fun w =>
    match body w with
    | (Ok a, w1) => (Ok a, w1)
    | (Err _, w1) => handler w1
    end.

Definition gets {A} (f : World -> A) : M A := fun w => (Ok (f w), w).

Definition modify (f : World -> World) : M unit := fun w => (Ok tt, f w).

Declare Scope fetcher_scope.
Delimit Scope fetcher_scope with fetcher.
Notation "x <- m ;; k" := (bind m (fun x => k))
  (at level 100, m at next level, right associativity) : fetcher_scope.
Notation "m ;; k" := (bind m (fun _ => k))
  (at level 100, right associativity) : fetcher_scope.
Local Open Scope fetcher_scope.

(** ** The runtime's file operations *)

(** The directory a path lies in: what comes before its last slash.  A
    path without a slash names an entry of the working directory. *)
Definition parentOf (path : string) : option string :=
  match rev (Js.split "/" path) with
  | _ :: (_ :: _) as init => Some (Js.join "/" (rev init))
  | _ => None
  end.

(** Whether a new entry can be made at [path]: the working directory and
    the root are always there, any other parent has to be a directory of
    the file system. *)
Definition parentIsDirectory (fs : FileSystem) (path : string) : bool :=
  match parentOf path with
  | Some dir =>
      String.eqb dir EmptyString ||
      match fs !! dir with
      | Some Dir => true
      | _ => false
      end
  | None => true
  end.

(** Whether [Deno.create] can open [path]: it is a file already, or it is
    not there and its directory is. *)
Definition creatable (fs : FileSystem) (path : string) : bool :=
  match fs !! path with
  | Some Dir => false
  | Some (File _) => true
  | None => parentIsDirectory fs path
  end.

(** [exists(path)] and [existsSync(path)] of the standard library. *)
Definition existsSync (fs : FileSystem) (path : string) : bool :=
  match fs !! path with
  | Some _ => true
  | None => false
  end.

Definition exists_ (path : string) : M bool :=
  gets (fun w => existsSync (fs w) path).

Module Deno.

(** [Deno.mkdir(path, {recursive: true})]: no error for a directory that
    is already there. *)
Definition mkdir (path : string) : M unit := fun w =>
  match fs w !! path with
  | Some Dir => (Ok tt, w)
  | Some (File _) => (Err (RuntimeError "mkdir"), w)
  | None => (Ok tt, setFs (insert path Dir) w)
  end.

(** [Deno.remove(path, {recursive: true})]. *)
Definition remove (path : string) : M unit := fun w =>
  match fs w !! path with
  | Some _ => (Ok tt, setFs (removeTree path) w)
  | None => (Err (RuntimeError "remove"), w)
  end.

(** [Deno.create(path)]: an existing file is truncated; a new file is
    created when the directory it goes into is there, and the call is
    rejected otherwise, as it is for a directory. *)
Definition create (path : string) : M unit := fun w =>
  match fs w !! path with
  | Some Dir => (Err (RuntimeError "create"), w)
  | Some (File _) => (Ok tt, setFs (insert path (File [])) w)
  | None =>
      if parentIsDirectory (fs w) path
      then (Ok tt, setFs (insert path (File [])) w)
      else (Err (RuntimeError "create"), w)
  end.

(** [Deno.makeTempFile()]: an empty file is created under the name the
    runtime picks, which the environment supplies as [path]. *)
Definition makeTempFile (path : string) : M string := fun w =>
  match fs w !! path with
  | Some Dir => (Err (RuntimeError "makeTempFile"), w)
  | _ => (Ok path, setFs (insert path (File [])) w)
  end.

(** [file.write(chunk)] on a file opened by [create]. *)
Definition write (path : string) (chunk : bytes) : M unit := fun w =>
  match fs w !! path with
  | Some (File content) =>
      (Ok tt, setFs (insert path (File (content ++ chunk)%list)) w)
  | _ => (Err (RuntimeError "write"), w)
  end.

(** [Deno.open(path, {read: true})] followed by reading the whole file. *)
Definition readFile (path : string) : M bytes := fun w =>
  match fs w !! path with
  | Some (File content) => (Ok content, w)
  | _ => (Err (RuntimeError "open"), w)
  end.

(** [Deno.rename(oldpath, newpath)]: a regular file replaces what is at
    [newpath], unless a directory is there. *)
Definition rename (oldpath newpath : string) : M unit := fun w =>
  match fs w !! oldpath with
  | Some node =>
      if String.eqb oldpath newpath then (Ok tt, w)
      else match fs w !! newpath with
           | Some Dir => (Err (RuntimeError "rename"), w)
           | _ => (Ok tt, setFs (fun m => <[newpath := node]> (delete oldpath m)) w)
           end
  | None => (Err (RuntimeError "rename"), w)
  end.

(** [Deno.chmod(path, 0o755)]: fails for a missing path. *)
Definition chmod (path : string) : M unit := fun w =>
  if existsSync (fs w) path then (Ok tt, w)
  else (Err (RuntimeError "chmod"), w).

(** [Deno.readDir(path)], collected into the list of entry names. *)
Definition readDir (path : string) : M (list string) := fun w =>
  match fs w !! path with
  | Some Dir => (Ok (listDir path (fs w)), w)
  | _ => (Err (RuntimeError "readDir"), w)
  end.

End Deno.

(** ** Reading the file name out of a [content-disposition] header *)

Module Disposition.

(** The character class of the two quote characters, codes 39 and 34. *)
Definition isQuote (a : ascii) : bool :=
  (Nat.eqb (nat_of_ascii a) 39 || Nat.eqb (nat_of_ascii a) 34)%bool.

Definition isNewline (a : ascii) : bool := Nat.eqb (nat_of_ascii a) 10.

(** [.] of a regular expression matches no line terminator. *)
Definition isLineTerminator (a : ascii) : bool :=
  (Nat.eqb (nat_of_ascii a) 10 || Nat.eqb (nat_of_ascii a) 13)%bool.

(** The longest prefix without a character of [stop], and what follows. *)
Fixpoint span (stop : ascii -> bool) (s : string) : string * string :=
  match s with
  | String a rest =>
      if stop a then (EmptyString, s)
      else let '(taken, remaining) := span stop rest in (String a taken, remaining)
  | EmptyString => (EmptyString, EmptyString)
  end.

(** [.*?] followed by the closing quote [q]: the text up to the first [q],
    provided no line terminator comes before it. *)
Fixpoint untilQuote (q : ascii) (s : string) : option string :=
  match s with
  | String a rest =>
      if Ascii.eqb a q then Some EmptyString
      else if isLineTerminator a then None
      else option_map (String a) (untilQuote q rest)
  | EmptyString => None
  end.

(** Group 1 of the pattern matched at the start of [s]: a quoted text
    closed by the quote that opened it, or else the run up to the next
    semicolon or newline. *)
Definition group (s : string) : string :=
  let unquoted :=
    fst (span (fun a => (Ascii.eqb a ";" || isNewline a)%bool) s) in
  match s with
  | String q rest =>
      if isQuote q then
        match untilQuote q rest with
        | Some inner => String q (inner +:+ String q EmptyString)
        | None => unquoted
        end
      else unquoted
  | EmptyString => unquoted
  end.

(** The whole pattern, [filename[^;=\n]*=] and group 1, matched at the start of
    [s]: the run [[^;=\n]*] cannot step over an [=], so it has to end
    right before one. *)
Definition matchHere (s : string) : option string :=
  match stripPrefix "filename" s with
  | Some rest =>
      let stop a := (Ascii.eqb a ";" || Ascii.eqb a "=" || isNewline a)%bool in
      match snd (span stop rest) with
      | String "=" value => Some (group value)
      | _ => None
      end
  | None => None
  end.

(** [s.match(...)], group 1 of the leftmost match. *)
Fixpoint matchFilename (s : string) : option string :=
  match matchHere s with
  | Some g => Some g
  | None =>
      match s with
      | String _ rest => matchFilename rest
      | EmptyString => None
      end
  end.

(** [s.replace(quotes, empty)] with the global flag: every quote
    character is dropped. *)
Fixpoint stripQuotes (s : string) : string :=
  match s with
  | String a rest =>
      if isQuote a then stripQuotes rest else String a (stripQuotes rest)
  | EmptyString => EmptyString
  end.

(** The value [actualFileName] ends with: [None] stands for both [null]
    and the empty string, which the caller treats alike. *)
Definition actualFileName (header : option string) : option string :=
  match header with
  | Some contentDisposition =>
      if String.eqb contentDisposition EmptyString then None
      else match matchFilename contentDisposition with
           | Some g =>
               if String.eqb g EmptyString then None
               else let name := stripQuotes g in
                    if String.eqb name EmptyString then None else Some name
           | None => None
           end
  | None => None
  end.

End Disposition.

(** ** The fetcher *)

Record BrowserFetcher := {
  _product : Product;
  _downloadsFolder : string;
  _downloadHost : string;
  _platform : Platform;
}.

Record BrowserFetcherRevisionInfo := {
  folderPath : string;
  executablePath : string;
  url : string;
  local : bool;
  revision : string;
  product : Product;
}.

(** The archive formats the spec's sniffer distinguishes. *)
Inductive ArchiveFormat := tar_xz | tar_gzip | tar_bzip2 | zip | unknown.

Section Fetcher.

Variable env : Env.

(** *** Downloading *)

Definition fetchWith (method : Method) (url : string) : M Response := fun w =>
  let w' := {| fs := fs w;
               requests := (requests w ++ [(method, url)])%list;
               progress := progress w |} in
  match fetch env method url with
  | Some response => (Ok response, w')
  | None => (Err (RuntimeError "fetch"), w')
  end.

(** [progressCallback?.(downloadedBytes, totalBytes)]. *)
Definition progressCallback (downloadedBytes : Z) (totalBytes : Js.number)
    : M unit :=
  modify (fun w =>
    {| fs := fs w;
       requests := requests w;
       progress := (progress w ++ [(downloadedBytes, totalBytes)])%list |}).

(** The [for await (const chunk of response.body)] loop. *)
Fixpoint writeChunks (destinationPath : string) (totalBytes : Js.number)
    (chunks : list bytes) (downloadedBytes : Z) : M unit :=
  match chunks with
  | [] => ret tt
  | chunk :: rest =>
      let downloadedBytes := (downloadedBytes + Z.of_nat (length chunk))%Z in
      progressCallback downloadedBytes totalBytes ;;
      Deno.write destinationPath chunk ;;
      writeChunks destinationPath totalBytes rest downloadedBytes
  end.

Definition downloadFile (url destinationPath : string) : M unit :=
  response <- fetchWith GET url ;;
  if negb (status response =? 200)%Z then
    throw (DownloadFailed (status response) url)
  else
    let totalBytes :=
      Js.parseInt (default EmptyString (contentLength response)) in
    Deno.create destinationPath ;;
    writeChunks destinationPath totalBytes (body response) 0 ;;
    if bodyFails response then throw (RuntimeError "read") else ret tt.

(** *** Extraction *)

Definition extractInto (folderPath : string) (entries : list (string * Node))
    : M unit :=
  modify (setFs (writeEntries folderPath entries)).

(** Modelled from the spec: [readZip] and [unzip] of the vendored zip
    module are not part of the sources at hand; the archive is opened as a
    zip container and all its entries are extracted, with their relative
    paths, into the destination folder. *)
Definition extractZip (zipPath folderPath : string) : M unit :=
  content <- Deno.readFile zipPath ;;
  match unzipEntries env content with
  | Some entries =>
      modify (setFs (insert folderPath Dir)) ;;
      extractInto folderPath entries
  | None => throw (RuntimeError "unzip")
  end.

Definition untar (flags : TarFlags) (content : bytes) (folderPath : string)
    : M unit :=
  match tarEntries env flags content with
  | Some entries => extractInto folderPath entries
  | None => throw (AssertionFailed "failed untar")
  end.

Definition extractTarBz2 (tarPath folderPath : string) : M unit :=
  Deno.mkdir folderPath ;;
  content <- Deno.readFile tarPath ;;
  let '(success, output) := bzcat env content in
  tmp <- Deno.makeTempFile (tempFile env) ;;
  Deno.create tmp ;;
  Deno.write tmp output ;;
  if negb success then throw (AssertionFailed "failed bzcat")
  else untar xvf output folderPath.

Definition extractTarGz (tarPath folderPath : string) : M unit :=
  Deno.mkdir folderPath ;;
  content <- Deno.readFile tarPath ;;
  untar xzf content folderPath.

Definition extractTarXz (tarPath folderPath : string) : M unit :=
  Deno.mkdir folderPath ;;
  content <- Deno.readFile tarPath ;;
  untar xJf content folderPath.

(** Element 0 of matching [stdout] against the volume pattern: from the
    first [/Volumes/] to the end of its line. *)
Fixpoint matchVolumes (stdout : string) : option string :=
  if String.prefix "/Volumes/" stdout then
    Some (fst (Disposition.span Disposition.isLineTerminator stdout))
  else match stdout with
       | String _ rest => matchVolumes rest
       | EmptyString => None
       end.

(** Modelled from the spec: [copyDir] of the vendored standard library is
    not part of the sources at hand; the application bundle is copied
    recursively into the destination folder.  The mounted volume is not
    part of the tracked file system: its listing comes from the
    environment. *)
Definition installDMG (dmgPath folderPath : string) : M unit :=
  content <- Deno.readFile dmgPath ;;
  let '(stdout, volume) := hdiutilAttach env content in
  match matchVolumes stdout with
  | None => throw (ExtractionFailed "Could not find volume path")
  | Some mountPath =>
      tryFinally
        (match List.find (fun entry => Js.endsWith entry.1 ".app") volume with
         | Some (appName, files) => extractInto folderPath files
         | None => throw (ExtractionFailed "Cannot find app")
         end)
        (if hdiutilDetach env mountPath then ret tt
         else throw (AssertionFailed "unmounting failed"))
  end.

Definition install (archivePath folderPath : string) : M unit :=
  if Js.endsWith archivePath ".zip" then extractZip archivePath folderPath
  else if Js.endsWith archivePath ".tar.bz2" then
    extractTarBz2 archivePath folderPath
  else if Js.endsWith archivePath ".tar.gz" then
    extractTarGz archivePath folderPath
  else if Js.endsWith archivePath ".tar.xz" then
    extractTarXz archivePath folderPath
  else if Js.endsWith archivePath ".dmg" then
    Deno.mkdir folderPath ;; installDMG archivePath folderPath
  else throw (UnsupportedArchiveFormat archivePath).

(** *** Sniffing the archive format *)

(** The 20-byte buffer after [file.read(buffer)]: zero wherever the file
    has no byte. *)
Definition readHeader (content : bytes) : list Z :=
  take 20 (content ++ repeat 0%Z 20)%list.

Definition byteAt (buffer : list Z) (i : nat) : Z := nth i buffer 0%Z.

(** [archivePath.replace(/\.tar\.bz2$/, extension)], then the rename. *)
Definition renameTo (archivePath extension : string) : M string :=
  let newPath := Js.replaceSuffix archivePath ".tar.bz2" extension in
  Deno.rename archivePath newPath ;;
  ret newPath.

Definition detectAndRenameArchive (archivePath : string) : M string :=
  content <- Deno.readFile archivePath ;;
  let buffer := readHeader content in
  if ((byteAt buffer 0 =? 0xfd) && (byteAt buffer 1 =? 0x37) &&
      (byteAt buffer 2 =? 0x7a) && (byteAt buffer 3 =? 0x58) &&
      (byteAt buffer 4 =? 0x5a) && (byteAt buffer 5 =? 0x00))%Z
  then renameTo archivePath ".tar.xz"
  else if ((byteAt buffer 0 =? 0x1f) && (byteAt buffer 1 =? 0x8b))%Z
  then renameTo archivePath ".tar.gz"
  else if ((byteAt buffer 0 =? 0x42) && (byteAt buffer 1 =? 0x5a))%Z
  then ret archivePath
  else if ((byteAt buffer 0 =? 0x50) && (byteAt buffer 1 =? 0x4b))%Z
  then renameTo archivePath ".zip"
  else
    detected <-
      tryCatch
        (match fileCommand env archivePath content with
         | Some output =>
             if Js.includes output "gzip" then
               newPath <- renameTo archivePath ".tar.gz" ;; ret (Some newPath)
             else if Js.includes output "bzip2" then ret (Some archivePath)
             else if Js.includes output "Zip" then
               newPath <- renameTo archivePath ".zip" ;; ret (Some newPath)
             else ret None
         | None => throw (RuntimeError "file")
         end)
        (ret None) ;;
    ret (default archivePath detected).

(** *** The methods of a fetcher *)

Variable this : BrowserFetcher.

Definition _getFolderPath (revision : string) : string :=
  pathJoin [_downloadsFolder this;
            platformName (_platform this) +:+ "-" +:+ revision].

(** The two [throw]s for an unsupported platform or product are
    unreachable for the values of the two types. *)
Definition revisionInfo (fs : FileSystem) (revision : string)
    : BrowserFetcherRevisionInfo :=
  let folderPath := _getFolderPath revision in
  let executablePath :=
    match _product this with
    | chrome =>
        match _platform this with
        | mac =>
            pathJoin [folderPath;
                      archiveName (_product this) (_platform this) revision;
                      "Chromium.app"; "Contents"; "MacOS"; "Chromium"]
        | linux | linux_arm64 =>
            pathJoin [folderPath;
                      archiveName (_product this) (_platform this) revision;
                      "chrome"]
        | win32 | win64 =>
            pathJoin [folderPath;
                      archiveName (_product this) (_platform this) revision;
                      "chrome.exe"]
        end
    | firefox =>
        match _platform this with
        | mac =>
            pathJoin [folderPath; "Firefox Nightly.app"; "Contents";
                      "MacOS"; "firefox"]
        | linux | linux_arm64 => pathJoin [folderPath; "firefox"; "firefox"]
        | win32 | win64 => pathJoin [folderPath; "firefox"; "firefox.exe"]
        end
    end in
  let url :=
    downloadURL (sprintf env) (_product this) (_platform this)
      (_downloadHost this) revision in
  let local := existsSync fs folderPath in
  {| folderPath := folderPath;
     executablePath := executablePath;
     url := url;
     local := local;
     revision := revision;
     product := _product this |}.

(** Every failure inside the helper fix-up is caught and logged, and mode
    bits are not part of the world: the call leaves the world as it is. *)
Definition macOSMakeChromiumHelpersExecutable (executablePath : string)
    : M unit :=
  ret tt.

(** The file name of the archive: for Firefox on the two Linux platforms a
    HEAD request is sent and the [content-disposition] header, if it names
    a file, replaces the default name. *)
Definition archiveFileName (url revision : string) : M string :=
  if bool_decide (_product this = firefox /\
                  (_platform this = linux \/ _platform this = linux_arm64))
  then
    let arch :=
      if bool_decide (_platform this = linux_arm64) then "aarch64"
      else "x86_64" in
    let fileName :=
      "firefox-" +:+ revision +:+ ".en-US.linux-" +:+ arch +:+ ".tar.bz2" in
    response <- fetchWith HEAD url ;;
    match Disposition.actualFileName (contentDisposition response) with
    | Some actualFileName => ret actualFileName
    | None => ret fileName
    end
  else ret (Js.lastSegment url).

Definition download (revision : string) : M BrowserFetcherRevisionInfo :=
  let url :=
    downloadURL (sprintf env) (_product this) (_platform this)
      (_downloadHost this) revision in
  fileName <- archiveFileName url revision ;;
  let archivePath := pathJoin [_downloadsFolder this; fileName] in
  let outputPath := _getFolderPath revision in
  installed <- exists_ outputPath ;;
  if installed then gets (fun w => revisionInfo (fs w) revision)
  else
    haveFolder <- exists_ (_downloadsFolder this) ;;
    (if negb haveFolder then Deno.mkdir (_downloadsFolder this) else ret tt) ;;
    if (String.eqb (build_arch env) "arm64" &&
        bool_decide (_product this = chrome))%bool
    then throw UnsupportedArchitecture
    else
      tryFinally
        (downloadFile url archivePath ;;
         if bool_decide (_product this = firefox /\
                         (_platform this = linux \/
                          _platform this = linux_arm64))
         then
           actualArchivePath <- detectAndRenameArchive archivePath ;;
           install actualArchivePath outputPath
         else install archivePath outputPath)
        (leftover <- exists_ archivePath ;;
         if leftover then Deno.remove archivePath else ret tt) ;;
      info <- gets (fun w => revisionInfo (fs w) revision) ;;
      (if negb (String.eqb (build_os env) "windows") then
         Deno.chmod (executablePath info) ;;
         if (String.eqb (build_os env) "darwin" &&
             bool_decide (_product this = chrome))%bool
         then macOSMakeChromiumHelpersExecutable (executablePath info)
         else ret tt
       else ret tt) ;;
      ret info.

Definition localRevisions : M (list string) :=
  haveFolder <- exists_ (_downloadsFolder this) ;;
  if negb haveFolder then ret []
  else
    fileNames <- Deno.readDir (_downloadsFolder this) ;;
    ret (map (fun entry =>
                match entry with
                | Some e => parsedRevision e
                | None => EmptyString
                end)
           (List.filter
              (fun entry =>
                 match entry with
                 | Some e =>
                     String.eqb (parsedPlatform e)
                       (platformName (_platform this))
                 | None => false
                 end)
              (map (parseName (_product this)) fileNames))).

Definition remove (revision : string) : M unit :=
  let folderPath := _getFolderPath revision in
  installed <- exists_ folderPath ;;
  if negb installed then throw (NotDownloaded revision)
  else Deno.remove folderPath.

End Fetcher.

(** ** Notions used to state the properties *)

(** The cumulative byte counts after each chunk, starting from
    [downloadedBytes]. *)
Fixpoint runningTotals (downloadedBytes : Z) (chunks : list bytes) : list Z :=
  match chunks with
  | [] => []
  | chunk :: rest =>
      let downloadedBytes := (downloadedBytes + Z.of_nat (length chunk))%Z in
      downloadedBytes :: runningTotals downloadedBytes rest
  end.

(** The sniffer as the spec words it: a classification of the leading bytes
    in the order XZ, gzip, bzip2, ZIP, then of the output of the file-type
    command in the order gzip, bzip2, Zip. *)
Module Sniffer.

Fixpoint startsWith (magic buffer : list Z) : bool :=
  match magic, buffer with
  | [], _ => true
  | m :: magic', b :: buffer' => ((b =? m)%Z && startsWith magic' buffer')%bool
  | _ :: _, [] => false
  end.

Definition classifyMagic (buffer : list Z) : ArchiveFormat :=
  if startsWith [0xfd; 0x37; 0x7a; 0x58; 0x5a; 0x00]%Z buffer then tar_xz
  else if startsWith [0x1f; 0x8b]%Z buffer then tar_gzip
  else if startsWith [0x42; 0x5a]%Z buffer then tar_bzip2
  else if startsWith [0x50; 0x4b]%Z buffer then zip
  else unknown.

Definition classifyOutput (output : string) : ArchiveFormat :=
  if Js.includes output "gzip" then tar_gzip
  else if Js.includes output "bzip2" then tar_bzip2
  else if Js.includes output "Zip" then zip
  else unknown.

Definition classify (env : Env) (path : string) (content : bytes)
    : ArchiveFormat :=
  match classifyMagic (readHeader content) with
  | unknown =>
      match fileCommand env path content with
      | Some output => classifyOutput output
      | None => unknown
      end
  | format => format
  end.

(** The extension that goes with a format. *)
Definition extension (format : ArchiveFormat) : option string :=
  match format with
  | tar_xz => Some ".tar.xz"
  | tar_gzip => Some ".tar.gz"
  | tar_bzip2 => Some ".tar.bz2"
  | zip => Some ".zip"
  | unknown => None
  end.

End Sniffer.

(** The path a file sniffed as [format] ends up under: the trailing
    [.tar.bz2] of the name, if there is one, gives way to the extension of
    an XZ, gzip or ZIP payload. *)
Definition renamedPath (archivePath : string) (format : ArchiveFormat) : string :=
  match format with
  | tar_xz => Js.replaceSuffix archivePath ".tar.bz2" ".tar.xz"
  | tar_gzip => Js.replaceSuffix archivePath ".tar.bz2" ".tar.gz"
  | zip => Js.replaceSuffix archivePath ".tar.bz2" ".zip"
  | tar_bzip2 | unknown => archivePath
  end.

(** The world after renaming the file at [oldpath] to [newpath]. *)
Definition moved (oldpath newpath : string) (node : Node) (w : World) : World :=
  setFs (fun m => <[newpath := node]> (delete oldpath m)) w.


(** The request log of [w'] extends that of [w] without a GET. *)
Definition noNewGet (w w' : World) : Prop :=
  exists new, requests w' = (requests w ++ new)%list /\
              Forall (fun request => request.1 <> GET) new.

(** Every exception [m] can raise satisfies [P]. *)
Definition raisesOnly {A} (P : Error -> Prop) (m : M A) : Prop :=
  forall w e, (m w).1 = Err e -> P e.


Definition notUnsupportedArchitecture (e : Error) : Prop :=
  e <> UnsupportedArchitecture.

(** ** Closed scenarios *)

Module Scenario.

Definition ok (bodyChunks : list bytes) : Response :=
  {| status := 200;
     contentDisposition := None;
     contentLength := None;
     body := bodyChunks;
     bodyFails := false |}.

(** A payload that starts with the XZ magic number. *)
Definition xzPayload : list bytes :=
  [[0xfd; 0x37; 0x7a; 0x58; 0x5a; 0x00; 0x01; 0x02]; [0x03; 0x04]]%Z.

(** A Linux x86_64 host whose server answers every request with status
    200 and no [content-disposition] or [content-length] header; the GET
    response carries the XZ payload, which [tar -xJf] unpacks into the
    file [firefox/firefox]. *)
Definition env : Env :=
  {| sprintf := sprintf3;
     build_os := "linux";
     build_arch := "x86_64";
     fetch := fun method _ =>
                match method with
                | HEAD => Some (ok [])
                | GET => Some (ok xzPayload)
                end;
     fileCommand := fun _ _ => None;
     unzipEntries := fun _ => Some [("chrome-linux/chrome", File [0x07%Z])];
     bzcat := fun content => (true, content);
     tarEntries := fun _ _ => Some [("firefox/firefox", File [0x07%Z])];
     tempFile := "/tmp/archive.tar";
     hdiutilAttach := fun _ => (EmptyString, []);
     hdiutilDetach := fun _ => true |}.

Definition firefoxLinux : BrowserFetcher :=
  {| _product := firefox;
     _downloadsFolder := "/cache/firefox";
     _downloadHost := host (browserConfig firefox);
     _platform := linux |}.

Definition chromeLinux : BrowserFetcher :=
  {| _product := chrome;
     _downloadsFolder := "/cache/chromium";
     _downloadHost := host (browserConfig chrome);
     _platform := linux |}.

Definition emptyWorld : World :=
  {| fs := ∅; requests := []; progress := [] |}.

(** A world whose disk holds the empty downloads folder of Chromium. *)
Definition chromiumFolder : World :=
  {| fs := <["/cache/chromium" := Dir]> ∅; requests := []; progress := [] |}.

(** A world in which revision 141.0a1 of Firefox is installed. *)
Definition firefoxInstalled : World :=
  {| fs := <["/cache/firefox/linux-141.0a1/firefox/firefox" := File [0x07%Z]]>
           (<["/cache/firefox/linux-141.0a1" := Dir]>
            (<["/cache/firefox" := Dir]> ∅));
     requests := [];
     progress := [] |}.

(** A world in which revision 1000 of Chromium is installed. *)
Definition chromeInstalled : World :=
  {| fs := <["/cache/chromium/linux-1000/chrome-linux/chrome" := File [0x07%Z]]>
           (<["/cache/chromium/linux-1000" := Dir]>
            (<["/cache/chromium" := Dir]> ∅));
     requests := [];
     progress := [] |}.

(** A world holding an XZ payload under a name that ends in [.tar.gz]. *)
Definition misnamed : World :=
  {| fs := <["/cache/firefox/nightly.tar.gz" := File (concat xzPayload)]>
           (<["/cache/firefox" := Dir]> ∅);
     requests := [];
     progress := [] |}.

(** A world holding an XZ payload under a name that ends in [.tar.bz2]. *)
Definition defaultNamed : World :=
  {| fs := <["/cache/firefox/nightly.tar.bz2" := File (concat xzPayload)]>
           (<["/cache/firefox" := Dir]> ∅);
     requests := [];
     progress := [] |}.

End Scenario.

(** ** Construction, availability check and the install script *)

(** [s.toLowerCase()] on the ASCII letters; no string with a byte outside
    ASCII lowers to one of the two product names. *)
Definition toLowerCase (s : string) : string :=
  string_of_list_ascii
    (map (fun a =>
            let n := nat_of_ascii a in
            if (Nat.leb 65 n && Nat.leb n 90)%bool then ascii_of_nat (n + 32)
            else a)
       (list_ascii_of_string s)).

(** [value || fallback] for an optional string: [undefined] and the empty
    string are falsy. *)
Definition orElse (value : option string) (fallback : string) : string :=
  match value with
  | Some s => if String.eqb s EmptyString then fallback else s
  | None => fallback
  end.

Definition productOfName (s : string) : option Product :=
  if String.eqb s "chrome" then Some chrome
  else if String.eqb s "firefox" then Some firefox
  else None.

Module Options.

(** [BrowserFetcherOptions]: every field is optional. *)
Record t := {
  platform : option Platform;
  product : option string;
  path : option string;
  host : option string;
}.

End Options.

Section Construction.

Variable env : Env.

(** [cachedir()] of the vendored cache module, not part of the sources at
    hand: the directory it returns is a parameter. *)
Variable cachedir : string.

(** [setPlatform]: an explicit platform wins; otherwise the platform follows
    [Deno.build.os], and on an unknown system the closing [assert] fails
    because no platform was set. *)
Definition setPlatform (platformFromOptions : option Platform) : Result Platform :=
  match platformFromOptions with
  | Some platform => Ok platform
  | None =>
      let platform := build_os env in
      if String.eqb platform "darwin" then Ok mac
      else if String.eqb platform "linux" then Ok linux
      else if String.eqb platform "windows" then
        Ok (if String.eqb (build_arch env) "x86_64" then win64 else win32)
      else Err (AssertionFailed ("Unsupported platform: " +:+ build_os env))
  end.

(** The constructor of [BrowserFetcher]. *)
Definition newBrowserFetcher (options : Options.t) : Result BrowserFetcher :=
  match productOfName (toLowerCase (orElse (Options.product options) "chrome")) with
  | None =>
      Err (AssertionFailed
             ("Unknown product: " +:+
              String (ascii_of_nat 34)
                (default "undefined" (Options.product options) +:+
                 String (ascii_of_nat 34) EmptyString)))
  | Some product =>
      let downloadsFolder :=
        orElse (Options.path options)
          (pathJoin [cachedir; "deno_puppeteer";
                     destination (browserConfig product)]) in
      let downloadHost :=
        orElse (Options.host options) (host (browserConfig product)) in
      match setPlatform (Options.platform options) with
      | Err e => Err e
      | Ok platform =>
          if hasDownloadURL product (platformName platform) then
            Ok {| _product := product;
                  _downloadsFolder := downloadsFolder;
                  _downloadHost := downloadHost;
                  _platform := platform |}
          else
            Err (AssertionFailed
                   ("Unsupported platform: " +:+ platformName platform))
      end
  end.

Variable this : BrowserFetcher.

Definition canDownload (revision : string) : M bool :=
  let url :=
    downloadURL (sprintf env) (_product this) (_platform this)
      (_downloadHost this) revision in
  req <- fetchWith env HEAD url ;;
  ret (status req =? 200)%Z.

End Construction.

(** The install script: it picks product and architecture from the command
    line, builds a fetcher and downloads the revision unless it is there. *)
Module InstallScript.

(** How a run of the script ends before or at the creation of the fetcher. *)
Inductive Setup :=
  | Usage
  | Failure (message : string)
  | Ready (fetcher : BrowserFetcher).

(** What the progress callback of the script prints. *)
Inductive Message :=
  | Starting
  | Complete
  | Percent (current : Z) (total : Js.number).

(** [current === total] for a count and a JavaScript number. *)
Definition strictEq (current : Z) (total : Js.number) : bool :=
  match total with
  | Js.NaN => false
  | Js.Num z => (current =? z)%Z
  | Js.Infinity _ => false
  end.

Definition progressMessage (current : Z) (total : Js.number) : Message :=
  if (current =? 0)%Z then Starting
  else if strictEq current total then Complete
  else Percent current total.

Definition versionsURL : string :=
  "https://product-details.mozilla.org/1.0/firefox_versions.json".

Section Script.

Variable env : Env.
Variable cachedir : string.

(** [Deno.args] and the two environment variables the script reads. *)
Variable args : list string.
Variable PUPPETEER_PRODUCT : option string.
Variable PUPPETEER_CHROMIUM_REVISION : option string.

(** [PUPPETEER_REVISIONS.chromium] of the vendored revisions module, and the
    [FIREFOX_NIGHTLY] member of the JSON document a response carries. *)
Variable bundledChromium : string.
Variable firefoxNightly : Response -> option string.

(** [getPlatform]; [None] stands for its [throw] on an unsupported
    system. *)
Definition getPlatform (arch : string) : option Platform :=
  let os := build_os env in
  if String.eqb os "linux" then
    Some (if String.eqb arch "arm64" then linux_arm64 else linux)
  else if String.eqb os "darwin" then Some mac
  else if String.eqb os "windows" then
    Some (if String.eqb (build_arch env) "x86_64" then win64 else win32)
  else None.

(** The product after validation: anything but the two names, also no name
    at all, falls back to Chrome. *)
Definition chosenProduct : Product :=
  let product :=
    match nth_error args 0 with
    | Some a => if String.eqb a EmptyString then PUPPETEER_PRODUCT else Some a
    | None => PUPPETEER_PRODUCT
    end in
  match product with
  | Some name => if String.eqb name "firefox" then firefox else chrome
  | None => chrome
  end.

(** The architecture after validation. *)
Definition chosenArch : string :=
  let arch := orElse (nth_error args 1) "x86_64" in
  if (negb (String.eqb arch "x86_64") && negb (String.eqb arch "arm64"))%bool
  then "x86_64" else arch.

Definition wantsHelp : bool :=
  (existsb (String.eqb "--help") args || existsb (String.eqb "-h") args)%bool.

Definition setup : Setup :=
  if wantsHelp then Usage
  else if (bool_decide (chosenProduct = chrome) &&
           String.eqb chosenArch "arm64")%bool
  then Failure "Chrome does not support arm64 on Linux. Please use Firefox or x86_64 architecture."
  else
    match getPlatform chosenArch with
    | None => Failure ("Unsupported platform: " +:+ build_os env)
    | Some platform =>
        match newBrowserFetcher env cachedir
                {| Options.platform := Some platform;
                   Options.product := Some (productName chosenProduct);
                   Options.path := None;
                   Options.host := None |} with
        | Ok fetcher => Ready fetcher
        | Err _ => Failure "BrowserFetcher"
        end
    end.

(** The revision the script asks for; [None] stands for its
    [throw] for a Firefox version that was not found.  For Firefox the
    nightly version is read from a JSON document fetched first. *)
Definition chosenRevision (product : Product) : M (option string) :=
  match product with
  | chrome => ret (Some (orElse PUPPETEER_CHROMIUM_REVISION bundledChromium))
  | firefox =>
      req <- fetchWith env GET versionsURL ;;
      match firefoxNightly req with
      | Some version =>
          if String.eqb version EmptyString then ret None
          else ret (Some version)
      | None => ret None
      end
  end.

(** The rest of the script, once the fetcher is there: the revision is
    downloaded unless its info says it is on disk. *)
Definition run (fetcher : BrowserFetcher)
    : M (option BrowserFetcherRevisionInfo) :=
  chosen <- chosenRevision (_product fetcher) ;;
  match chosen with
  | None => ret None
  | Some version =>
      info <- gets (fun w => revisionInfo env fetcher (fs w) version) ;;
      if local info then ret (Some info)
      else
        newRevisionInfo <- download env fetcher (revision info) ;;
        ret (Some newRevisionInfo)
  end.

End Script.

End InstallScript.

(** [m] leaves the observation [f] of the world as it was. *)
Definition keeps {A X} (f : World -> X) (m : M A) : Prop :=
  forall w, f (m w).2 = f w.

(** The observation [f] does not look at the file system. *)
Definition ignoresFs {X} (f : World -> X) : Prop :=
  forall g w, f (setFs g w) = f w.

(** [m] sends at most one request, a GET to [url]. *)
Definition atMostOneGet {A} (url : string) (m : M A) : Prop :=
  forall w, requests (m w).2 = requests w \/
            requests (m w).2 = (requests w ++ [(GET, url)])%list.

(** A character of an ordinary file name: no quote, no semicolon, no line
    terminator. *)
Definition plainChar (a : ascii) : bool :=
  negb (Disposition.isQuote a || Ascii.eqb a ";" ||
        Disposition.isLineTerminator a).

(** The two blocks of the [try] statement of [download], named to state
    lemmas about them. *)
Definition tryBlock (env : Env) (this : BrowserFetcher)
    (url archivePath revision : string) : M unit :=
  downloadFile env url archivePath ;;
  if bool_decide (_product this = firefox /\
                  (_platform this = linux \/ _platform this = linux_arm64))
  then
    actualArchivePath <- detectAndRenameArchive env archivePath ;;
    install env actualArchivePath (_getFolderPath this revision)
  else install env archivePath (_getFolderPath this revision).

Definition finallyBlock (archivePath : string) : M unit :=
  leftover <- exists_ archivePath ;;
  if leftover then Deno.remove archivePath else ret tt.

(** Something exists at [path] in the world. *)
Definition there (path : string) (w : World) : Prop :=
  existsSync (fs w) path = true.

(** A revision that stays one path segment when it is joined to a folder:
    it holds no separator, neither the slash nor the backslash of Windows
    paths. *)
Definition plainSegment (s : string) : bool :=
  (negb (Js.includes s "/") && negb (Js.includes s "\"))%bool.

(** [m] never destroys the property [P] of the world. *)
Definition preserves {A} (P : World -> Prop) (m : M A) : Prop :=
  forall w, P w -> P (m w).2.

(** ** Further closed scenarios *)

Module Cases.

(** The host of [Scenario.env] with a server that answers every request
    with status 404. *)
Definition notFound : Env :=
  {| sprintf := sprintf3;
     build_os := "linux";
     build_arch := "x86_64";
     fetch := fun _ _ =>
                Some {| status := 404;
                        contentDisposition := None;
                        contentLength := None;
                        body := [];
                        bodyFails := false |};
     fileCommand := fileCommand Scenario.env;
     unzipEntries := unzipEntries Scenario.env;
     bzcat := bzcat Scenario.env;
     tarEntries := tarEntries Scenario.env;
     tempFile := tempFile Scenario.env;
     hdiutilAttach := hdiutilAttach Scenario.env;
     hdiutilDetach := hdiutilDetach Scenario.env |}.

(** A Linux host on which the runtime reports the architecture aarch64. *)
Definition arm64Linux : Env :=
  {| sprintf := sprintf3;
     build_os := "linux";
     build_arch := "aarch64";
     fetch := fetch Scenario.env;
     fileCommand := fileCommand Scenario.env;
     unzipEntries := unzipEntries Scenario.env;
     bzcat := bzcat Scenario.env;
     tarEntries := tarEntries Scenario.env;
     tempFile := tempFile Scenario.env;
     hdiutilAttach := hdiutilAttach Scenario.env;
     hdiutilDetach := hdiutilDetach Scenario.env |}.

(** The host of [Scenario.env] on which [tar] fails. *)
Definition brokenTar : Env :=
  {| sprintf := sprintf3;
     build_os := "linux";
     build_arch := "x86_64";
     fetch := fetch Scenario.env;
     fileCommand := fileCommand Scenario.env;
     unzipEntries := unzipEntries Scenario.env;
     bzcat := bzcat Scenario.env;
     tarEntries := fun _ _ => None;
     tempFile := tempFile Scenario.env;
     hdiutilAttach := hdiutilAttach Scenario.env;
     hdiutilDetach := hdiutilDetach Scenario.env |}.

(** A world holding an archive named [nightly.tar.xz]. *)
Definition xzNamed : World :=
  {| fs := <["/cache/firefox/nightly.tar.xz" := File (concat Scenario.xzPayload)]>
           (<["/cache/firefox" := Dir]> ∅);
     requests := [];
     progress := [] |}.

End Cases.

(** * Properties *)

(** ** Strings *)

Lemma append_cons (a : ascii) (s t : string) :
  String a s +:+ t = String a (s +:+ t).
Proof. reflexivity. Qed.

Lemma append_empty (t : string) : EmptyString +:+ t = t.
Proof. reflexivity. Qed.

Lemma append_assoc (s t u : string) : (s +:+ t) +:+ u = s +:+ (t +:+ u).
Proof.
  induction s as [|a s IH]; [reflexivity|].
  rewrite !append_cons. now rewrite IH.
Qed.

Lemma split_nonempty (sep : ascii) (s : string) : Js.split sep s <> [].
Proof.
  destruct s as [|a s]; simpl; [discriminate|].
  destruct (Ascii.eqb a sep); [discriminate|].
  destruct (Js.split sep s); discriminate.
Qed.

Lemma split_append (sep : ascii) (s t : string) :
  Js.split sep (s +:+ String sep t) = (Js.split sep s ++ Js.split sep t)%list.
Proof.
  induction s as [|a s IH].
  - rewrite append_empty. simpl. now rewrite Ascii.eqb_refl.
  - rewrite append_cons. simpl. rewrite IH.
    destruct (Ascii.eqb a sep); [reflexivity|].
    destruct (Js.split sep s) as [|w ws] eqn:E; [|reflexivity].
    now apply split_nonempty in E.
Qed.

Lemma includes_cons (a : ascii) (s : string) (sep : ascii) :
  Js.includes (String a s) (String sep EmptyString) =
  (Ascii.eqb a sep || Js.includes s (String sep EmptyString))%bool.
Proof.
  simpl. destruct (ascii_dec sep a) as [->|Hne].
  - rewrite Ascii.eqb_refl. now destruct s.
  - assert (Ascii.eqb a sep = false) as ->; [|reflexivity].
    apply Ascii.eqb_neq. congruence.
Qed.

Lemma split_without_separator (sep : ascii) (s : string) :
  Js.includes s (String sep EmptyString) = false -> Js.split sep s = [s].
Proof.
  induction s as [|a s IH]; [reflexivity|].
  rewrite includes_cons. intros [Ha Hs]%orb_false_elim.
  simpl. rewrite Ha, (IH Hs). reflexivity.
Qed.

Lemma join_split (sep : ascii) (s : string) : Js.join sep (Js.split sep s) = s.
Proof.
  induction s as [|a s IH]; [reflexivity|].
  simpl. destruct (Ascii.eqb a sep) eqn:E.
  - apply Ascii.eqb_eq in E as ->.
    destruct (Js.split sep s) as [|w ws] eqn:Es.
    + now apply split_nonempty in Es.
    + change (Js.join sep (EmptyString :: w :: ws))
        with (EmptyString +:+ String sep (Js.join sep (w :: ws))).
      now rewrite IH.
  - destruct (Js.split sep s) as [|w ws] eqn:Es.
    + now apply split_nonempty in Es.
    + destruct ws as [|w' ws].
      * simpl in *. now rewrite IH.
      * change (Js.join sep (String a w :: w' :: ws))
          with (String a w +:+ String sep (Js.join sep (w' :: ws))).
        change (Js.join sep (w :: w' :: ws))
          with (w +:+ String sep (Js.join sep (w' :: ws))) in IH.
        rewrite append_cons. now rewrite IH.
Qed.

Lemma endsWith_append (p suffix : string) : Js.endsWith (p +:+ suffix) suffix = true.
Proof.
  induction p as [|a p IH].
  - rewrite append_empty.
    destruct suffix; unfold Js.endsWith; fold Js.endsWith;
      now rewrite String.eqb_refl.
  - rewrite append_cons. cbn [Js.endsWith]. rewrite IH. apply orb_true_r.
Qed.

Lemma endsWith_inv (s suffix : string) :
  Js.endsWith s suffix = true -> exists p, s = p +:+ suffix.
Proof.
  induction s as [|a s IH]; cbn [Js.endsWith].
  - rewrite orb_false_r. intros ->%String.eqb_eq. now exists EmptyString.
  - intros [->%String.eqb_eq | H]%orb_true_elim.
    + now exists EmptyString.
    + destruct (IH H) as [p ->]. now exists (String a p).
Qed.

(** Two suffixes of one string: one of them is a suffix of the other. *)
Lemma endsWith_comparable (s a b : string) :
  Js.endsWith s a = true -> Js.endsWith s b = true ->
  Js.endsWith a b = true \/ Js.endsWith b a = true.
Proof.
  induction s as [|c s IH]; cbn [Js.endsWith].
  - rewrite !orb_false_r. intros <-%String.eqb_eq <-%String.eqb_eq. now left.
  - intros [<-%String.eqb_eq | Ha]%orb_true_elim Hb.
    + left. exact Hb.
    + apply orb_true_elim in Hb as [<-%String.eqb_eq | Hb].
      * right. cbn [Js.endsWith]. rewrite Ha. apply orb_true_r.
      * now apply IH.
Qed.

(** ** Folder names *)

(** [parseInt] on a few inputs: digits up to the first other character, a
    sign, white space with the no-break space, no hexadecimal prefix, and
    rounding to a double from 2^53 on. *)
Example parseInt_examples :
  Js.parseInt "1000" = Js.Num 1000 /\
  Js.parseInt " -12px" = Js.Num (-12) /\
  Js.parseInt "0x10" = Js.Num 0 /\
  Js.parseInt "px" = Js.NaN /\
  Js.parseInt (String (ascii_of_nat 160) "7") = Js.Num 7 /\
  Js.parseInt "9007199254740993" = Js.Num 9007199254740992 /\
  Js.parseInt "9007199254740995" = Js.Num 9007199254740996 /\
  Js.parseInt (string_of_list_ascii (repeat "9"%char 400)) = Js.Infinity false.
Proof. repeat (split; [vm_compute; reflexivity|]). vm_compute. reflexivity. Qed.

(** Below 2^53 nothing is rounded. *)
Lemma roundToDouble_exact (z : Z) :
  (Z.abs z < 2 ^ 53)%Z -> Js.roundToDouble z = Js.Num z.
Proof.
  intros Hz. unfold Js.roundToDouble.
  now destruct (Z.ltb_spec (Z.abs z) (2 ^ 53)); [|lia].
Qed.

(** From 2^53 on the rounded value stays on its side of 2^53. *)
Lemma roundToDouble_large (z : Z) :
  (2 ^ 53 <= Z.abs z)%Z ->
  match Js.roundToDouble z with
  | Js.Num m => if (z <? 0)%Z then (m <= - 2 ^ 53)%Z else (2 ^ 53 <= m)%Z
  | Js.Infinity negative => negative = (z <? 0)%Z
  | Js.NaN => False
  end.
Proof.
  intros Hz. unfold Js.roundToDouble.
  destruct (Z.ltb_spec (Z.abs z) (2 ^ 53)) as [Hlt|_]; [lia|].
  set (a := Z.abs z) in *.
  set (e := (Z.log2 a - 52)%Z).
  assert (0 < a)%Z as Ha by (assert (0 < 2 ^ 53)%Z by reflexivity; lia).
  assert (53 <= Z.log2 a)%Z as Hlog by (apply Z.log2_le_pow2; lia).
  assert (1 <= e)%Z as He by (subst e; lia).
  assert (2 ^ 52 * 2 ^ e <= a)%Z as Hlow.
  { rewrite <- Z.pow_add_r by lia.
    replace (52 + e)%Z with (Z.log2 a) by (subst e; lia).
    apply Z.log2_spec. exact Ha. }
  assert (2 <= 2 ^ e)%Z as Hpow.
  { change 2%Z with (2 ^ 1)%Z at 1. apply Z.pow_le_mono_r; lia. }
  assert (2 ^ 52 <= a / 2 ^ e)%Z as Hq.
  { apply Z.div_le_lower_bound; lia. }
  set (q := (a / 2 ^ e)%Z) in *.
  set (q' := if (a mod 2 ^ e <? 2 ^ (e - 1))%Z then q
             else if (2 ^ (e - 1) <? a mod 2 ^ e)%Z then (q + 1)%Z
             else if Z.even q then q else (q + 1)%Z).
  assert (q <= q')%Z as Hq'.
  { subst q'.
    repeat match goal with
           | |- context [if ?b then _ else _] => destruct b
           end; lia. }
  assert (2 ^ 53 <= q' * 2 ^ e)%Z as Hm.
  { change (2 ^ 53)%Z with (2 ^ 52 * 2)%Z.
    assert (0 < 2 ^ 52)%Z by reflexivity. nia. }
  destruct (2 ^ 1024 <=? q' * 2 ^ e)%Z; [reflexivity|].
  destruct (z <? 0)%Z; lia.
Qed.

(** Comparing with an integer below 2^53 gives the same answer before and
    after the rounding. *)
Lemma gt_roundToDouble (z y : Z) :
  (Z.abs y < 2 ^ 53)%Z -> Js.gt (Js.roundToDouble z) y = Z.ltb y z.
Proof.
  intros Hy.
  destruct (Z.lt_ge_cases (Z.abs z) (2 ^ 53)) as [Hz|Hz].
  - now rewrite roundToDouble_exact.
  - pose proof (roundToDouble_large z Hz) as Hlarge.
    destruct (Js.roundToDouble z) as [|m|negative]; [contradiction| |];
      cbn [Js.gt].
    + destruct (Z.ltb_spec z 0); destruct (Z.ltb_spec y m);
        destruct (Z.ltb_spec y z); try reflexivity; lia.
    + subst negative.
      destruct (Z.ltb_spec z 0); destruct (Z.ltb_spec y z); try reflexivity;
        cbn [negb]; lia.
Qed.

(** X28: for Chrome on the two Windows platforms the archive is named
    [chrome-win] exactly when the revision begins, after white space and
    a sign, with decimal digits whose value is above 591479, and
    [chrome-win32] otherwise, also for a revision that is no number; the
    rounding of [parseInt] to a double never changes the answer. *)
Theorem archiveName_windows (platform : Platform) (revision : string) :
  platform = win32 \/ platform = win64 ->
  archiveName chrome platform revision =
  match Js.integerPrefix revision with
  | Some z => if (591479 <? z)%Z then "chrome-win" else "chrome-win32"
  | None => "chrome-win32"
  end.
Proof.
  intros [-> | ->]; cbn [archiveName]; unfold Js.parseInt;
    (destruct (Js.integerPrefix revision) as [z|]; [|reflexivity]);
    now rewrite gt_roundToDouble.
Qed.

Lemma archiveName_windows_witness :
  archiveName chrome win64 "1000" = "chrome-win32" /\
  archiveName chrome win64 "600000-beta" = "chrome-win" /\
  archiveName chrome win32 "latest" = "chrome-win32".
Proof.
  split; [|split].
  - now rewrite (archiveName_windows win64 "1000") by (right; reflexivity).
  - now rewrite (archiveName_windows win64 "600000-beta") by (right; reflexivity).
  - now rewrite (archiveName_windows win32 "latest") by (left; reflexivity).
Defined.

Lemma platformOfName_inv (s : string) (platform : Platform) :
  platformOfName s = Some platform -> s = platformName platform.
Proof.
  unfold platformOfName.
  destruct (String.eqb_spec s "linux") as [->|_]; [now intros [= <-]|].
  destruct (String.eqb_spec s "linux-arm64") as [->|_]; [now intros [= <-]|].
  destruct (String.eqb_spec s "mac") as [->|_]; [now intros [= <-]|].
  destruct (String.eqb_spec s "win32") as [->|_]; [now intros [= <-]|].
  destruct (String.eqb_spec s "win64") as [->|_]; [now intros [= <-]|].
  discriminate.
Qed.

Lemma platformOfName_platformName (platform : Platform) :
  platformOfName (platformName platform) = Some platform.
Proof. now destruct platform. Qed.

Lemma hasDownloadURL_platformName (product : Product) (platform : Platform) :
  hasDownloadURL product (platformName platform) = true.
Proof. now destruct product, platform. Qed.

(** Whatever [parseName] accepts is its platform part, a hyphen and its
    revision part. *)
Lemma parseName_inv (product : Product) (name : string) (parsed : ParsedName) :
  parseName product name = Some parsed ->
  name = parsedPlatform parsed +:+ "-" +:+ parsedRevision parsed /\
  parsedProduct parsed = product /\
  hasDownloadURL product (parsedPlatform parsed) = true.
Proof.
  unfold parseName. intros H.
  pose proof (join_split "-" name) as Hjoin.
  destruct (Js.split "-" name) as [|s0 [|s1 [|s2 [|s3 rest]]]]; try discriminate.
  - destruct (hasDownloadURL product s0) eqn:Hurl; [|discriminate].
    injection H as <-. simpl in *. auto.
  - destruct (String.eqb_spec s0 "linux") as [->|]; [|discriminate].
    destruct (String.eqb_spec s1 "arm64") as [->|]; [|discriminate].
    simpl in H.
    destruct (hasDownloadURL product "linux-arm64") eqn:Hurl; [|discriminate].
    injection H as <-. simpl in *. auto.
Qed.

Lemma parseName_folder (product : Product) (platform : Platform)
    (revision : string) :
  Js.includes revision "-" = false ->
  parseName product (platformName platform +:+ "-" +:+ revision) =
  Some {| parsedProduct := product;
          parsedPlatform := platformName platform;
          parsedRevision := revision |}.
Proof.
  intros Hrev. unfold parseName.
  change ("-" +:+ revision) with (String "-" revision).
  rewrite split_append, (split_without_separator _ _ Hrev).
  destruct product, platform; reflexivity.
Qed.

(** The parts [split] returns are free of the separator. *)
Lemma split_parts (sep : ascii) (s : string) :
  Forall (fun part => Js.includes part (String sep EmptyString) = false)
    (Js.split sep s).
Proof.
  induction s as [|a s IH]; [repeat constructor|].
  simpl. destruct (Ascii.eqb a sep) eqn:E.
  - constructor; [reflexivity|exact IH].
  - destruct (Js.split sep s) as [|w ws]; [repeat constructor|].
    + rewrite includes_cons, E. reflexivity.
    + inversion IH as [|? ? Hw Hws]; subst. constructor; [|exact Hws].
      now rewrite includes_cons, E.
Qed.

(** The revision part of an accepted name has no hyphen. *)
Lemma parseName_revision (product : Product) (name : string)
    (parsed : ParsedName) :
  parseName product name = Some parsed ->
  Js.includes (parsedRevision parsed) "-" = false.
Proof.
  unfold parseName. intros H. pose proof (split_parts "-" name) as Hparts.
  destruct (Js.split "-" name) as [|s0 [|s1 [|s2 [|s3 rest]]]]; try discriminate.
  - destruct (hasDownloadURL product s0); [|discriminate].
    injection H as <-. cbn [parsedRevision].
    inversion Hparts as [|? ? _ Hrest]; subst.
    now inversion Hrest.
  - destruct (String.eqb s0 "linux" && String.eqb s1 "arm64")%bool;
      [|discriminate].
    destruct (hasDownloadURL product "linux-arm64"); [|discriminate].
    injection H as <-. cbn [parsedRevision].
    inversion Hparts as [|? ? _ Hrest]; subst.
    inversion Hrest as [|? ? _ Hrest']; subst.
    now inversion Hrest'.
Qed.

(** The platform check is a property lookup on the URL table, and a lookup
    also finds what the table inherits from its prototype: the name
    [constructor-5] is accepted although [constructor] is no platform. *)
Example parseName_inherited_member :
  parseName chrome "constructor-5" =
    Some {| parsedProduct := chrome;
            parsedPlatform := "constructor";
            parsedRevision := "5" |} /\
  platformOfName "constructor" = None.
Proof. split; reflexivity. Qed.

(** A name whose platform part is unknown is rejected, unless that part
    names a member that the URL table inherits. *)
Lemma parseName_unknown (product : Product) (platform revision : string) :
  platformOfName platform = None ->
  Js.inherited platform = false ->
  parseName product (platform +:+ "-" +:+ revision) = None.
Proof.
  intros Hunknown Hown.
  assert (hasDownloadURL product platform = false) as Hkey
    by (unfold hasDownloadURL; now rewrite Hunknown).
  destruct (parseName product (platform +:+ "-" +:+ revision)) as [parsed|] eqn:E;
    [exfalso|reflexivity].
  unfold parseName in E.
  change ("-" +:+ revision) with (String "-" revision) in E.
  rewrite split_append in E.
  pose proof (join_split "-" platform) as Hp.
  destruct (Js.split "-" platform) as [|p0 [|p1 [|p2 [|p3 ps]]]] eqn:Ep;
    destruct (Js.split "-" revision) as [|r0 [|r1 [|r2 rs]]] eqn:Er;
    cbn [app] in E; try discriminate E;
    try (now apply split_nonempty in Ep); try (now apply split_nonempty in Er).
  - cbn [Js.join] in Hp. subst p0. rewrite Hkey in E. discriminate E.
  - cbn [Js.join] in Hp. subst p0.
    destruct (String.eqb_spec platform "linux") as [->|]; [|discriminate E].
    discriminate Hunknown.
  - destruct (String.eqb_spec p0 "linux") as [->|]; [|discriminate E].
    destruct (String.eqb_spec p1 "arm64") as [->|]; [|discriminate E].
    cbn [Js.join] in Hp. subst platform. discriminate Hunknown.
Qed.

(** C3, as amended: for every known platform, the hyphenated [linux-arm64]
    included, and every revision string without a hyphen, parsing the folder
    name [{platform}-{revision}] recovers exactly the platform and the
    revision; a revision with a hyphen is never recovered, because the name
    is split at every hyphen; and a name whose platform part is not a known
    platform yields none.  The last part is stated for platform parts that
    are own keys of the URL table or no keys at all; nothing is said about
    the names of inherited members. *)
Theorem parseName_roundtrip :
  (forall (product : Product) (platform : Platform) (revision : string),
      Js.includes revision "-" = false ->
      parseName product (platformName platform +:+ "-" +:+ revision) =
      Some {| parsedProduct := product;
              parsedPlatform := platformName platform;
              parsedRevision := revision |}) /\
  (forall (product : Product) (platform : Platform) (revision : string),
      Js.includes revision "-" = true ->
      parseName product (platformName platform +:+ "-" +:+ revision) <>
      Some {| parsedProduct := product;
              parsedPlatform := platformName platform;
              parsedRevision := revision |}) /\
  (forall (product : Product) (platform revision : string),
      platformOfName platform = None ->
      Js.inherited platform = false ->
      parseName product (platform +:+ "-" +:+ revision) = None).
Proof.
  split; [|split].
  - apply parseName_folder.
  - intros product platform revision Hrev Hparse.
    pose proof (parseName_revision _ _ _ Hparse) as Hplain.
    cbn [parsedRevision] in Hplain. congruence.
  - apply parseName_unknown.
Qed.

Lemma parseName_roundtrip_witness :
  parseName firefox "linux-arm64-141.0a1" =
  Some {| parsedProduct := firefox;
          parsedPlatform := "linux-arm64";
          parsedRevision := "141.0a1" |} /\
  parseName firefox "solaris-141.0a1" = None.
Proof.
  split.
  - apply (proj1 parseName_roundtrip firefox linux_arm64 "141.0a1").
    reflexivity.
  - apply (proj2 (proj2 parseName_roundtrip) firefox "solaris" "141.0a1");
      reflexivity.
Defined.

(** C3 as stated fails: the folder name of platform [linux] and revision
    [1-2] does not parse back. *)
Lemma parseName_roundtrip_counterexample :
  parseName chrome (platformName linux +:+ "-" +:+ "1-2") = None.
Proof. reflexivity. Qed.

(** ** Download URLs *)

(** C6: for Firefox on [linux] and [linux-arm64] the URL is a fixed
    string, the same for every host and every revision; for every other
    pair of product and platform it is [sprintf] applied to the template of
    the pair and to host, revision and archive name, in this order. *)
Theorem downloadURL_cases (sprintf : string -> string -> string -> string -> string)
    (product : Product) (platform : Platform) (host revision : string) :
  (isFirefoxLinux product platform = true ->
     downloadURL sprintf product platform host revision =
       (if bool_decide (platform = linux) then firefoxLinuxURL
        else firefoxLinuxArm64URL) /\
     forall host' revision' : string,
       downloadURL sprintf product platform host' revision' =
       downloadURL sprintf product platform host revision) /\
  (isFirefoxLinux product platform = false ->
     downloadURL sprintf product platform host revision =
       sprintf (downloadURLs product platform) host revision
         (archiveName product platform revision)).
Proof.
  split; intros H; destruct product, platform; try discriminate H;
    try (split; [|intros]); reflexivity.
Qed.

Lemma downloadURL_cases_witness :
  downloadURL sprintf3 firefox linux_arm64
    "https://archive.mozilla.org" "141.0a1" = firefoxLinuxArm64URL /\
  downloadURL sprintf3 chrome win64 "https://storage.googleapis.com" "1000" =
    "https://storage.googleapis.com/chromium-browser-snapshots/Win_x64/1000/chrome-win32.zip".
Proof.
  split.
  - apply (proj1 (downloadURL_cases sprintf3 firefox linux_arm64
                    "https://archive.mozilla.org" "141.0a1")).
    reflexivity.
  - rewrite (proj2 (downloadURL_cases sprintf3 chrome win64
                      "https://storage.googleapis.com" "1000"));
      reflexivity.
Defined.

(** ** Which exceptions a computation can raise *)

Section RaisesOnly.

Variable P : Error -> Prop.

Lemma raisesOnly_ret {A} (a : A) : raisesOnly P (ret a).
Proof. intros w e. discriminate. Qed.

Lemma raisesOnly_gets {A} (f : World -> A) : raisesOnly P (gets f).
Proof. intros w e. discriminate. Qed.

Lemma raisesOnly_modify (f : World -> World) : raisesOnly P (modify f).
Proof. intros w e. discriminate. Qed.

Lemma raisesOnly_throw {A} (e : Error) : P e -> raisesOnly P (@throw A e).
Proof. intros He w e' [= <-]. exact He. Qed.

Lemma raisesOnly_bind {A B} (m : M A) (k : A -> M B) :
  raisesOnly P m -> (forall a, raisesOnly P (k a)) -> raisesOnly P (bind m k).
Proof.
  intros Hm Hk w e. unfold bind.
  destruct (m w) as [[a|e'] w'] eqn:E.
  - apply Hk.
  - intros [= <-]. apply (Hm w). now rewrite E.
Qed.

Lemma raisesOnly_tryFinally {A} (body : M A) (cleanup : M unit) :
  raisesOnly P body -> raisesOnly P cleanup ->
  raisesOnly P (tryFinally body cleanup).
Proof.
  intros Hb Hc w e. unfold tryFinally.
  destruct (body w) as [r w1] eqn:Eb.
  destruct (cleanup w1) as [[[]|e'] w2] eqn:Ec; simpl.
  - intros ->. apply (Hb w). now rewrite Eb.
  - intros [= <-]. apply (Hc w1). now rewrite Ec.
Qed.

Lemma raisesOnly_tryCatch {A} (body handler : M A) :
  raisesOnly P handler -> raisesOnly P (tryCatch body handler).
Proof.
  intros Hh w e. unfold tryCatch.
  destruct (body w) as [[a|e'] w1]; [discriminate|]. apply Hh.
Qed.

Hypothesis runtime : forall operation, P (RuntimeError operation).

Ltac runtime_op :=
  intros ? w e; cbv beta delta [Deno.mkdir Deno.remove Deno.create
    Deno.makeTempFile Deno.write Deno.readFile Deno.rename Deno.chmod
    Deno.readDir];
  repeat match goal with
         | |- context [match ?x with _ => _ end] => destruct x
         end;
  simpl; try discriminate; intros [= <-]; apply runtime.

Lemma raisesOnly_mkdir path : raisesOnly P (Deno.mkdir path).
Proof. revert path. runtime_op. Qed.

Lemma raisesOnly_remove path : raisesOnly P (Deno.remove path).
Proof. revert path. runtime_op. Qed.

Lemma raisesOnly_create path : raisesOnly P (Deno.create path).
Proof. revert path. runtime_op. Qed.

Lemma raisesOnly_makeTempFile path : raisesOnly P (Deno.makeTempFile path).
Proof. revert path. runtime_op. Qed.

Lemma raisesOnly_write path chunk : raisesOnly P (Deno.write path chunk).
Proof. revert chunk. runtime_op. Qed.

Lemma raisesOnly_readFile path : raisesOnly P (Deno.readFile path).
Proof. revert path. runtime_op. Qed.

Lemma raisesOnly_rename oldpath newpath :
  raisesOnly P (Deno.rename oldpath newpath).
Proof. revert newpath. runtime_op. Qed.

Lemma raisesOnly_chmod path : raisesOnly P (Deno.chmod path).
Proof. revert path. runtime_op. Qed.

Lemma raisesOnly_fetchWith env method url :
  raisesOnly P (fetchWith env method url).
Proof.
  intros w e. unfold fetchWith.
  destruct (fetch env method url); [discriminate|].
  intros [= <-]. apply runtime.
Qed.

End RaisesOnly.

(** One step of a syntax-directed proof of [raisesOnly]. *)
Ltac raises_step :=
  first
    [ apply raisesOnly_ret
    | apply raisesOnly_gets
    | apply raisesOnly_modify
    | apply raisesOnly_mkdir; solve [auto]
    | apply raisesOnly_remove; solve [auto]
    | apply raisesOnly_create; solve [auto]
    | apply raisesOnly_makeTempFile; solve [auto]
    | apply raisesOnly_write; solve [auto]
    | apply raisesOnly_readFile; solve [auto]
    | apply raisesOnly_rename; solve [auto]
    | apply raisesOnly_chmod; solve [auto]
    | apply raisesOnly_fetchWith; solve [auto]
    | apply raisesOnly_throw; solve [auto]
    | apply raisesOnly_bind; [|intros ?]
    | apply raisesOnly_tryFinally
    | apply raisesOnly_tryCatch
    | match goal with
      | |- raisesOnly _ (if ?b then _ else _) => destruct b
      | |- raisesOnly _ (match ?x with _ => _ end) => destruct x
      end ].

Ltac raises := repeat raises_step.

Section RaisesOnlyFetcher.

Variable P : Error -> Prop.
Variable env : Env.
Hypothesis runtime : forall operation, P (RuntimeError operation).
Hypothesis assertion : forall message, P (AssertionFailed message).
Hypothesis extraction : forall message, P (ExtractionFailed message).
Hypothesis failed : forall code url, P (DownloadFailed code url).

Lemma raisesOnly_writeChunks dest total chunks acc :
  raisesOnly P (writeChunks dest total chunks acc).
Proof.
  revert acc. induction chunks as [|chunk rest IH]; intros acc; simpl.
  - raises.
  - unfold progressCallback. raises. apply IH.
Qed.

Lemma raisesOnly_downloadFile url dest :
  raisesOnly P (downloadFile env url dest).
Proof.
  unfold downloadFile. raises. apply raisesOnly_writeChunks.
Qed.

Lemma raisesOnly_detectAndRenameArchive path :
  raisesOnly P (detectAndRenameArchive env path).
Proof. unfold detectAndRenameArchive, renameTo. raises. Qed.

Lemma raisesOnly_extractZip zipPath folder :
  raisesOnly P (extractZip env zipPath folder).
Proof. unfold extractZip, extractInto. raises. Qed.

Lemma raisesOnly_extractTarBz2 tarPath folder :
  raisesOnly P (extractTarBz2 env tarPath folder).
Proof. unfold extractTarBz2, untar, extractInto. raises. Qed.

Lemma raisesOnly_extractTarGz tarPath folder :
  raisesOnly P (extractTarGz env tarPath folder).
Proof. unfold extractTarGz, untar, extractInto. raises. Qed.

Lemma raisesOnly_extractTarXz tarPath folder :
  raisesOnly P (extractTarXz env tarPath folder).
Proof. unfold extractTarXz, untar, extractInto. raises. Qed.

Lemma raisesOnly_installDMG dmgPath folder :
  raisesOnly P (installDMG env dmgPath folder).
Proof. unfold installDMG, extractInto. raises. Qed.

Lemma raisesOnly_install archivePath folder :
  (forall path, P (UnsupportedArchiveFormat path)) ->
  raisesOnly P (install env archivePath folder).
Proof.
  intros Hformat. unfold install.
  repeat match goal with
         | |- raisesOnly _ (if ?b then _ else _) => destruct b
         end;
    auto using raisesOnly_extractZip, raisesOnly_extractTarBz2,
      raisesOnly_extractTarGz, raisesOnly_extractTarXz, raisesOnly_throw.
  apply raisesOnly_bind; [now apply raisesOnly_mkdir|intros _].
  apply raisesOnly_installDMG.
Qed.

End RaisesOnlyFetcher.

(** ** The installer's dispatch *)

Lemma endsWith_exclusive (s a b : string) :
  Js.endsWith a b = false -> Js.endsWith b a = false ->
  Js.endsWith s a = true -> Js.endsWith s b = false.
Proof.
  intros Hab Hba Ha. destruct (Js.endsWith s b) eqn:Hb; [|reflexivity].
  destruct (endsWith_comparable s a b Ha Hb); congruence.
Qed.


(** ** Progress reporting *)

Lemma writeChunks_run (dest : string) (total : Js.number) (chunks : list bytes) :
  forall (acc : Z) (w : World) (content : bytes),
    fs w !! dest = Some (File content) ->
    writeChunks dest total chunks acc w =
    (Ok tt,
     {| fs := <[dest := File (content ++ concat chunks)%list]> (fs w);
        requests := requests w;
        progress := (progress w ++
                     map (fun n => (n, total)) (runningTotals acc chunks))%list |}).
Proof.
  induction chunks as [|chunk rest IH]; intros acc w content Hfile.
  - simpl. unfold ret. rewrite !app_nil_r.
    rewrite (insert_id _ _ _ Hfile). now destruct w.
  - cbn [writeChunks runningTotals concat map].
    unfold bind at 1. unfold progressCallback at 1. unfold modify.
    unfold bind at 1. unfold Deno.write at 1. cbn [fs].
    rewrite Hfile.
    erewrite IH by (cbn [setFs fs]; apply lookup_insert_eq).
    cbn [setFs fs requests progress].
    rewrite insert_insert_eq, <- !app_assoc. reflexivity.
Qed.

Lemma create_run (path : string) (w : World) :
  creatable (fs w) path = true ->
  Deno.create path w = (Ok tt, setFs (insert path (File [])) w).
Proof.
  unfold creatable, Deno.create.
  destruct (fs w !! path) as [[content|]|]; try discriminate; [reflexivity|].
  now intros ->.
Qed.

Lemma create_rejected (path : string) (w : World) :
  creatable (fs w) path = false ->
  Deno.create path w = (Err (RuntimeError "create"), w).
Proof.
  unfold creatable, Deno.create.
  destruct (fs w !! path) as [[content|]|]; try discriminate; [reflexivity|].
  now intros ->.
Qed.

(** The directory of an entry joined to a folder is the folder. *)
Lemma parentOf_pathJoin (dir name : string) :
  Js.includes name "/" = false ->
  parentOf (pathJoin [dir; name]) = Some dir.
Proof.
  intros Hname. unfold parentOf, pathJoin. cbn [Js.join].
  rewrite split_append, (split_without_separator _ _ Hname).
  rewrite rev_app_distr. cbn [rev app].
  destruct (rev (Js.split "/" dir)) as [|last init] eqn:E.
  - apply (f_equal (@rev string)) in E. rewrite rev_involutive in E.
    now apply split_nonempty in E.
  - rewrite <- E, rev_involutive. now rewrite join_split.
Qed.

(** A new file can be created in a directory that is there. *)
Lemma creatable_pathJoin (fs : FileSystem) (dir name : string) :
  Js.includes name "/" = false ->
  fs !! dir = Some Dir ->
  fs !! pathJoin [dir; name] <> Some Dir ->
  creatable fs (pathJoin [dir; name]) = true.
Proof.
  intros Hname Hdir Hfile. unfold creatable, parentIsDirectory.
  destruct (fs !! pathJoin [dir; name]) as [[content|]|]; try congruence.
  rewrite (parentOf_pathJoin _ _ Hname), Hdir. apply orb_true_r.
Qed.

(** C5, as amended: when the GET response has status 200 and no
    [content-length] header, and the destination file can be created, the
    progress callback is invoked once per chunk, in order, with the
    cumulative number of bytes received and with [NaN] as the total: the
    value [parseInt] gives for the empty string. *)
Theorem downloadFile_progress (env : Env) (url destinationPath : string)
    (w : World) (response : Response) :
  fetch env GET url = Some response ->
  status response = 200%Z ->
  contentLength response = None ->
  creatable (fs w) destinationPath = true ->
  progress (downloadFile env url destinationPath w).2 =
  (progress w ++
   map (fun n => (n, Js.NaN)) (runningTotals 0 (body response)))%list.
Proof.
  intros Hfetch Hstatus Hlength Hdest.
  unfold downloadFile, bind at 1, fetchWith. rewrite Hfetch, Hstatus, Hlength.
  cbn [Z.eqb Pos.eqb negb default].
  change (Js.parseInt EmptyString) with Js.NaN.
  unfold bind at 1.
  set (w1 := {| fs := fs w; requests := _; progress := progress w |}).
  rewrite (create_run destinationPath w1 Hdest).
  unfold bind at 1.
  rewrite (writeChunks_run _ _ _ _ _ []) by (cbn [setFs fs]; apply lookup_insert_eq).
  now destruct (bodyFails response).
Qed.

Lemma downloadFile_progress_witness :
  progress (downloadFile Scenario.env "https://example.org/a.zip"
              "/cache/chromium/a.zip" Scenario.chromiumFolder).2 =
  [(8%Z, Js.NaN); (10%Z, Js.NaN)].
Proof.
  rewrite (downloadFile_progress Scenario.env "https://example.org/a.zip"
             "/cache/chromium/a.zip" Scenario.chromiumFolder
             (Scenario.ok Scenario.xzPayload));
    reflexivity.
Defined.

(** C5 as stated fails: without a [content-length] header the totals passed
    to the callback are not 0, here for a download into a folder that is
    there. *)
Lemma downloadFile_progress_counterexample :
  fetch Scenario.env GET "https://example.org/a.zip" =
    Some (Scenario.ok Scenario.xzPayload) /\
  contentLength (Scenario.ok Scenario.xzPayload) = None /\
  creatable (fs Scenario.chromiumFolder) "/cache/chromium/a.zip" = true /\
  progress (downloadFile Scenario.env "https://example.org/a.zip"
              "/cache/chromium/a.zip" Scenario.chromiumFolder).2 <>
  map (fun n => (n, Js.Num 0)) (runningTotals 0 Scenario.xzPayload).
Proof.
  split; [reflexivity|]. split; [reflexivity|]. split; [reflexivity|].
  vm_compute. discriminate.
Qed.

(** ** The format sniffer *)

Lemma string_length_append (s t : string) :
  String.length (s +:+ t) = (String.length s + String.length t)%nat.
Proof. induction s as [|a s IH]; [reflexivity|]. rewrite append_cons. simpl. lia. Qed.

Lemma replaceSuffix_append (p old new : string) :
  Js.replaceSuffix (p +:+ old) old new = p +:+ new.
Proof.
  induction p as [|a p IH].
  - rewrite !append_empty.
    destruct old; unfold Js.replaceSuffix; fold Js.replaceSuffix;
      now rewrite String.eqb_refl.
  - rewrite !append_cons. cbn [Js.replaceSuffix].
    destruct (String.eqb_spec (String a (p +:+ old)) old) as [Heq|_].
    + apply (f_equal String.length) in Heq. simpl in Heq.
      rewrite string_length_append in Heq. lia.
    + now rewrite IH.
Qed.

Lemma replaceSuffix_absent (s old new : string) :
  Js.endsWith s old = false -> Js.replaceSuffix s old new = s.
Proof.
  induction s as [|a s IH]; cbn [Js.endsWith Js.replaceSuffix].
  - rewrite orb_false_r. now intros ->.
  - intros [-> Hs]%orb_false_elim. now rewrite (IH Hs).
Qed.

Lemma readHeader_length (content : bytes) : length (readHeader content) = 20%nat.
Proof.
  unfold readHeader. rewrite length_take, length_app, repeat_length. lia.
Qed.

(** On the 20-byte buffer the byte tests of the source are the spec's
    classification of the magic number. *)
Lemma magic_tests (buffer : list Z) :
  length buffer = 20%nat ->
  ((byteAt buffer 0 =? 0xfd) && (byteAt buffer 1 =? 0x37) &&
   (byteAt buffer 2 =? 0x7a) && (byteAt buffer 3 =? 0x58) &&
   (byteAt buffer 4 =? 0x5a) && (byteAt buffer 5 =? 0x00))%Z =
    Sniffer.startsWith [0xfd; 0x37; 0x7a; 0x58; 0x5a; 0x00]%Z buffer /\
  ((byteAt buffer 0 =? 0x1f) && (byteAt buffer 1 =? 0x8b))%Z =
    Sniffer.startsWith [0x1f; 0x8b]%Z buffer /\
  ((byteAt buffer 0 =? 0x42) && (byteAt buffer 1 =? 0x5a))%Z =
    Sniffer.startsWith [0x42; 0x5a]%Z buffer /\
  ((byteAt buffer 0 =? 0x50) && (byteAt buffer 1 =? 0x4b))%Z =
    Sniffer.startsWith [0x50; 0x4b]%Z buffer.
Proof.
  intros Hlen.
  destruct buffer as [|b0 [|b1 [|b2 [|b3 [|b4 [|b5 rest]]]]]]; try discriminate.
  unfold byteAt. cbn [nth Sniffer.startsWith].
  rewrite !andb_true_r, <- !andb_assoc. auto.
Qed.

Lemma rename_run (oldpath newpath : string) (node : Node) (w : World) :
  fs w !! oldpath = Some node ->
  fs w !! newpath <> Some Dir ->
  Deno.rename oldpath newpath w =
  (Ok tt, if String.eqb oldpath newpath then w else moved oldpath newpath node w).
Proof.
  intros Hold Hnew. unfold Deno.rename. rewrite Hold.
  destruct (String.eqb oldpath newpath); [reflexivity|].
  destruct (fs w !! newpath) as [[content|]|]; try reflexivity. congruence.
Qed.

Lemma renameTo_run (archivePath extension : string) (node : Node) (w : World) :
  let newPath := Js.replaceSuffix archivePath ".tar.bz2" extension in
  fs w !! archivePath = Some node ->
  fs w !! newPath <> Some Dir ->
  renameTo archivePath extension w =
  (Ok newPath,
   if String.eqb archivePath newPath then w
   else moved archivePath newPath node w).
Proof.
  intros newPath Hold Hnew. subst newPath. unfold renameTo, bind.
  now rewrite (rename_run _ _ _ _ Hold Hnew).
Qed.

(** C4, as amended: the sniffer classifies by the leading bytes in the
    order XZ, gzip, bzip2, ZIP and then by the output of the file-type
    command in the order gzip, bzip2, Zip.  For XZ, gzip and ZIP the file is
    renamed by replacing a trailing [.tar.bz2] of its name with the
    extension of the format, so a name that ends in [.tar.bz2] ends in the
    matching extension afterwards, while a name that does not end in
    [.tar.bz2] is kept whatever was sniffed; for bzip2, and when nothing
    matches, the original path is returned and nothing is renamed. *)
Theorem detectAndRenameArchive_spec (env : Env) (archivePath : string)
    (content : bytes) (w : World) :
  let format := Sniffer.classify env archivePath content in
  let newPath := renamedPath archivePath format in
  fs w !! archivePath = Some (File content) ->
  fs w !! newPath <> Some Dir ->
  detectAndRenameArchive env archivePath w =
    (Ok newPath,
     if String.eqb archivePath newPath then w
     else moved archivePath newPath (File content) w) /\
  (Js.endsWith archivePath ".tar.bz2" = true ->
     forall extension, Sniffer.extension format = Some extension ->
       Js.endsWith newPath extension = true) /\
  (Js.endsWith archivePath ".tar.bz2" = false -> newPath = archivePath) /\
  (format = tar_bzip2 \/ format = unknown -> newPath = archivePath).
Proof.
  intros format newPath Hfile Hnew. repeat split.
  - unfold detectAndRenameArchive, bind at 1, Deno.readFile. rewrite Hfile.
    subst format newPath. unfold Sniffer.classify, Sniffer.classifyMagic in *.
    destruct (magic_tests _ (readHeader_length content))
      as (-> & -> & -> & ->).
    destruct (Sniffer.startsWith _ (readHeader content));
      [now apply renameTo_run|].
    destruct (Sniffer.startsWith _ (readHeader content));
      [now apply renameTo_run|].
    destruct (Sniffer.startsWith _ (readHeader content)).
    { unfold ret. now rewrite String.eqb_refl. }
    destruct (Sniffer.startsWith _ (readHeader content));
      [now apply renameTo_run|].
    unfold bind, tryCatch, Sniffer.classifyOutput in *.
    destruct (fileCommand env archivePath content) as [output|].
    + destruct (Js.includes output "gzip").
      { rewrite (renameTo_run _ _ _ _ Hfile Hnew). reflexivity. }
      destruct (Js.includes output "bzip2").
      { unfold ret. cbn [default renamedPath]. now rewrite String.eqb_refl. }
      destruct (Js.includes output "Zip").
      { rewrite (renameTo_run _ _ _ _ Hfile Hnew). reflexivity. }
      unfold ret. cbn [default renamedPath]. now rewrite String.eqb_refl.
    + unfold throw, ret. cbn [default renamedPath].
      now rewrite String.eqb_refl.
  - intros [p ->]%endsWith_inv extension Hext. subst newPath.
    destruct format; simpl in Hext; try discriminate Hext;
      injection Hext as <-; cbn [renamedPath];
      rewrite ?replaceSuffix_append; apply endsWith_append.
  - intros Hname. subst newPath.
    destruct format; cbn [renamedPath];
      now rewrite ?(replaceSuffix_absent _ _ _ Hname).
  - subst newPath. now intros [-> | ->].
Qed.

Lemma detectAndRenameArchive_spec_witness :
  detectAndRenameArchive Scenario.env "/cache/firefox/nightly.tar.bz2"
    Scenario.defaultNamed =
  (Ok "/cache/firefox/nightly.tar.xz",
   moved "/cache/firefox/nightly.tar.bz2" "/cache/firefox/nightly.tar.xz"
     (File (concat Scenario.xzPayload)) Scenario.defaultNamed).
Proof.
  apply (proj1 (detectAndRenameArchive_spec Scenario.env
                  "/cache/firefox/nightly.tar.bz2"
                  (concat Scenario.xzPayload) Scenario.defaultNamed
                  eq_refl ltac:(vm_compute; discriminate))).
Defined.

(** C4 as stated fails: a file named [nightly.tar.gz] whose bytes start
    with the XZ magic number is sniffed as XZ, yet it keeps its name, which
    does not end in [.tar.xz]. *)
Lemma detectAndRenameArchive_counterexample :
  Sniffer.classify Scenario.env "/cache/firefox/nightly.tar.gz"
    (concat Scenario.xzPayload) = tar_xz /\
  Js.endsWith "/cache/firefox/nightly.tar.gz" ".tar.xz" = false /\
  detectAndRenameArchive Scenario.env "/cache/firefox/nightly.tar.gz"
    Scenario.misnamed =
  (Ok "/cache/firefox/nightly.tar.gz", Scenario.misnamed).
Proof. repeat split; reflexivity. Qed.

(** ** Enumerating and removing installed revisions *)

Lemma stripPrefix_inv (p s r : string) : stripPrefix p s = Some r -> s = p +:+ r.
Proof.
  revert s. induction p as [|a p IH]; intros s; simpl.
  - now intros [= ->].
  - destruct s as [|b s]; [discriminate|].
    destruct (Ascii.eqb_spec a b) as [->|]; [|discriminate].
    intros H%IH. rewrite append_cons. now subst.
Qed.

Lemma childName_inv (dir path name : string) :
  childName dir path = Some name -> path = pathJoin [dir; name].
Proof.
  unfold childName.
  destruct (stripPrefix (dir +:+ "/") path) as [rest|] eqn:E; [|discriminate].
  destruct (_ || _)%bool; [discriminate|]. intros [= ->].
  apply stripPrefix_inv in E. rewrite E. unfold pathJoin. cbn [Js.join].
  now rewrite append_assoc.
Qed.

Lemma lookup_removeTree (dir path : string) (fs : FileSystem) :
  removeTree dir fs !! path = if isWithin dir path then None else fs !! path.
Proof.
  unfold removeTree. destruct (isWithin dir path) eqn:E.
  - apply map_lookup_filter_None. right. intros node _. simpl. congruence.
  - destruct (fs !! path) as [node|] eqn:Hpath.
    + apply map_lookup_filter_Some. now split.
    + apply map_lookup_filter_None. now left.
Qed.

Lemma isWithin_refl (dir : string) : isWithin dir dir = true.
Proof. unfold isWithin. now rewrite String.eqb_refl. Qed.

Lemma elem_of_listDir (dir name : string) (fs : FileSystem) :
  In name (listDir dir fs) -> is_Some (fs !! pathJoin [dir; name]).
Proof.
  unfold listDir. intros Hin%list_elem_of_In.
  apply list_elem_of_omap in Hin as (path & Hpath & Hchild).
  apply childName_inv in Hchild as <-.
  apply list_elem_of_In, in_map_iff in Hpath as ([path' node] & <- & Hin).
  apply list_elem_of_In, elem_of_map_to_list in Hin. simpl. eauto.
Qed.

(** A revision that [localRevisions] reports has its folder on disk. *)
Lemma localRevisions_installed (this : BrowserFetcher) (w : World)
    (revisions : list string) (revision : string) :
  (localRevisions this w).1 = Ok revisions ->
  In revision revisions ->
  existsSync (fs w) (_getFolderPath this revision) = true.
Proof.
  unfold localRevisions, bind, exists_, gets.
  destruct (existsSync (fs w) (_downloadsFolder this)); cbn [negb].
  - unfold Deno.readDir.
    destruct (fs w !! _downloadsFolder this) as [[content|]|];
      try discriminate.
    unfold ret. cbn [fst]. intros [= <-] Hin.
    apply in_map_iff in Hin as ([parsed|] & Hrev & Hin);
      apply filter_In in Hin as [Hin Hplatform]; [|discriminate].
    apply String.eqb_eq in Hplatform.
    apply in_map_iff in Hin as (name & Hparse & Hname).
    apply parseName_inv in Hparse as (-> & _ & _).
    apply elem_of_listDir in Hname as [node Hnode].
    unfold existsSync, _getFolderPath. subst revision.
    rewrite <- Hplatform. now rewrite Hnode.
  - unfold ret. cbn [fst]. now intros [= <-] [].
Qed.

(** C9: when the downloads folder does not exist, [localRevisions] returns
    the empty list and raises nothing. *)
Theorem localRevisions_without_folder (this : BrowserFetcher) (w : World) :
  existsSync (fs w) (_downloadsFolder this) = false ->
  localRevisions this w = (Ok [], w).
Proof.
  intros H. unfold localRevisions, bind, exists_, gets. now rewrite H.
Qed.

Lemma localRevisions_without_folder_witness :
  localRevisions Scenario.chromeLinux Scenario.emptyWorld =
  (Ok [], Scenario.emptyWorld).
Proof.
  apply (localRevisions_without_folder Scenario.chromeLinux Scenario.emptyWorld).
  reflexivity.
Defined.

(** C8: [remove] raises the not-installed exception exactly when the folder
    of the revision does not exist; otherwise it succeeds, nothing is left
    at or below the folder, and the revision is not among
    [localRevisions] afterwards. *)
Theorem remove_spec (this : BrowserFetcher) (revision : string) (w : World) :
  let folder := _getFolderPath this revision in
  ((remove this revision w).1 = Err (NotDownloaded revision) <->
   existsSync (fs w) folder = false) /\
  (existsSync (fs w) folder = true ->
     remove this revision w = (Ok tt, setFs (removeTree folder) w) /\
     (forall path, isWithin folder path = true ->
        fs (remove this revision w).2 !! path = None) /\
     (forall revisions,
        (localRevisions this (remove this revision w).2).1 = Ok revisions ->
        ~ In revision revisions)).
Proof.
  intros folder.
  assert (existsSync (fs w) folder = true ->
          remove this revision w = (Ok tt, setFs (removeTree folder) w)) as Hrun.
  { intros H. unfold remove, bind, exists_, gets. fold folder. rewrite H.
    cbn [negb]. unfold Deno.remove, existsSync in *.
    now destruct (fs w !! folder). }
  split; [split|].
  - destruct (existsSync (fs w) folder) eqn:E; [|reflexivity].
    rewrite (Hrun eq_refl). discriminate.
  - intros H. unfold remove, bind, exists_, gets. fold folder. now rewrite H.
  - intros H. rewrite (Hrun H). cbn [snd setFs fs]. repeat split.
    + intros path Hwithin. now rewrite lookup_removeTree, Hwithin.
    + intros revisions Hlist Hin.
      pose proof (localRevisions_installed _ _ _ _ Hlist Hin) as Hthere.
      fold folder in Hthere. unfold existsSync in Hthere. cbn [setFs fs] in Hthere.
      now rewrite lookup_removeTree, isWithin_refl in Hthere.
Qed.

Lemma remove_spec_witness :
  (localRevisions Scenario.chromeLinux Scenario.chromeInstalled).1 = Ok ["1000"] /\
  (remove Scenario.chromeLinux "1000" Scenario.chromeInstalled).1 = Ok tt /\
  (localRevisions Scenario.chromeLinux
     (remove Scenario.chromeLinux "1000" Scenario.chromeInstalled).2).1 = Ok [] /\
  ~ In "1000" [].
Proof.
  destruct (proj2 (remove_spec Scenario.chromeLinux "1000" Scenario.chromeInstalled)
              eq_refl) as (Hrun & _ & Hgone).
  split; [reflexivity|]. split; [now rewrite Hrun|].
  split; [reflexivity|]. apply Hgone. reflexivity.
Defined.

(** ** Downloading *)

(** Off the refused combination, [download] never raises the exception
    that refuses Chrome on arm64. *)
Lemma download_raisesOnly (env : Env) (this : BrowserFetcher) (revision : string) :
  (String.eqb (build_arch env) "arm64" &&
   bool_decide (_product this = chrome))%bool = false ->
  raisesOnly notUnsupportedArchitecture (download env this revision).
Proof.
  intros Hcond.
  assert (forall operation, notUnsupportedArchitecture (RuntimeError operation))
    as Hr by (intros ?; discriminate).
  assert (forall message, notUnsupportedArchitecture (AssertionFailed message))
    as Ha by (intros ?; discriminate).
  assert (forall message, notUnsupportedArchitecture (ExtractionFailed message))
    as He by (intros ?; discriminate).
  assert (forall code url, notUnsupportedArchitecture (DownloadFailed code url))
    as Hd by (intros ? ?; discriminate).
  assert (forall path, notUnsupportedArchitecture (UnsupportedArchiveFormat path))
    as Hf by (intros ?; discriminate).
  unfold download. rewrite Hcond. cbv iota.
  unfold archiveFileName, exists_, macOSMakeChromiumHelpersExecutable.
  repeat first
    [ apply raisesOnly_downloadFile; solve [auto]
    | apply raisesOnly_detectAndRenameArchive; solve [auto]
    | apply raisesOnly_install; solve [auto]
    | raises_step ].
Qed.

(** What the refusal is keyed on: [download] raises the
    unsupported-architecture exception exactly when the architecture string
    of the runtime is [arm64], the product is Chrome and the folder of the
    revision does not exist; the configured platform plays no part.  With
    the folder in place the installed revision is returned, and a refusal
    comes before any network request. *)
Lemma download_refusal_condition (env : Env) (this : BrowserFetcher)
    (revision : string) (w : World) :
  let folder := _getFolderPath this revision in
  ((download env this revision w).1 = Err UnsupportedArchitecture <->
   build_arch env = "arm64" /\ _product this = chrome /\
   existsSync (fs w) folder = false) /\
  (build_arch env = "arm64" -> _product this = chrome ->
   existsSync (fs w) folder = true ->
   download env this revision w =
   (Ok (revisionInfo env this (fs w) revision), w)) /\
  ((download env this revision w).1 = Err UnsupportedArchitecture ->
   requests (download env this revision w).2 = requests w).
Proof.
  intros folder.
  assert (_product this = chrome ->
          existsSync (fs w) folder = true ->
          download env this revision w =
          (Ok (revisionInfo env this (fs w) revision), w)) as Hinstalled.
  { intros Hproduct Hthere. subst folder. unfold download, archiveFileName.
    rewrite !bool_decide_eq_false_2 by (rewrite Hproduct; now intros [? _]).
    cbv beta iota delta [bind ret exists_ gets]. now rewrite Hthere. }
  assert (build_arch env = "arm64" -> _product this = chrome ->
          existsSync (fs w) folder = false ->
          download env this revision w =
          (Err UnsupportedArchitecture,
           if existsSync (fs w) (_downloadsFolder this) then w
           else setFs (insert (_downloadsFolder this) Dir) w)) as Hrefused.
  { intros Harch Hproduct Hmissing. subst folder.
    unfold download, archiveFileName.
    rewrite !bool_decide_eq_false_2 by (rewrite Hproduct; now intros [? _]).
    rewrite Harch, (bool_decide_eq_true_2 _ Hproduct).
    cbv beta iota delta [bind ret exists_ gets]. rewrite Hmissing.
    cbn [String.eqb Ascii.eqb Bool.eqb andb].
    unfold existsSync, Deno.mkdir.
    destruct (fs w !! _downloadsFolder this) eqn:Hroot; cbn [negb];
      now rewrite ?Hroot. }
  split; [split|split].
  - intros Hraise.
    destruct (String.eqb_spec (build_arch env) "arm64") as [Harch|Harch].
    + destruct (decide (_product this = chrome)) as [Hproduct|Hproduct].
      * repeat split; try assumption.
        destruct (existsSync (fs w) folder) eqn:Hthere; [|reflexivity].
        rewrite (Hinstalled Hproduct eq_refl) in Hraise. discriminate.
      * exfalso. eapply (download_raisesOnly env this revision);
          [|exact Hraise|reflexivity].
        rewrite bool_decide_eq_false_2 by assumption. apply andb_false_r.
    + exfalso. eapply (download_raisesOnly env this revision);
        [|exact Hraise|reflexivity].
      apply andb_false_iff. left. now apply String.eqb_neq.
  - intros (Harch & Hproduct & Hmissing).
    now rewrite (Hrefused Harch Hproduct Hmissing).
  - intros _. apply Hinstalled.
  - intros Hraise.
    destruct (String.eqb_spec (build_arch env) "arm64") as [Harch|Harch].
    + destruct (decide (_product this = chrome)) as [Hproduct|Hproduct].
      * destruct (existsSync (fs w) folder) eqn:Hthere.
        -- rewrite (Hinstalled Hproduct eq_refl) in Hraise. discriminate.
        -- rewrite (Hrefused Harch Hproduct eq_refl). cbn [snd].
           now destruct (existsSync (fs w) (_downloadsFolder this)).
      * exfalso. eapply (download_raisesOnly env this revision);
          [|exact Hraise|reflexivity].
        rewrite bool_decide_eq_false_2 by assumption. apply andb_false_r.
    + exfalso. eapply (download_raisesOnly env this revision);
        [|exact Hraise|reflexivity].
      apply andb_false_iff. left. now apply String.eqb_neq.
Qed.

Lemma isFirefoxLinux_decide (product : Product) (platform : Platform) :
  bool_decide (product = firefox /\ (platform = linux \/ platform = linux_arm64)) =
  isFirefoxLinux product platform.
Proof. now destruct product, platform. Qed.

Lemma bind_Ok {A B} (m : M A) (k : A -> M B) (w w' : World) (b : B) :
  bind m k w = (Ok b, w') ->
  exists a w1, m w = (Ok a, w1) /\ k a w1 = (Ok b, w').
Proof.
  unfold bind. destruct (m w) as [[a|e] w1]; [eauto|discriminate].
Qed.

(** With the folder of the revision in place, [download] returns right
    after the file name of the archive is known. *)
Lemma download_installed (env : Env) (this : BrowserFetcher)
    (revision : string) (w : World) :
  existsSync (fs w) (_getFolderPath this revision) = true ->
  download env this revision w =
  if isFirefoxLinux (_product this) (_platform this) then
    let url := downloadURL (sprintf env) (_product this) (_platform this)
                 (_downloadHost this) revision in
    let w' := {| fs := fs w;
                 requests := (requests w ++ [(HEAD, url)])%list;
                 progress := progress w |} in
    match fetch env HEAD url with
    | Some _ => (Ok (revisionInfo env this (fs w) revision), w')
    | None => (Err (RuntimeError "fetch"), w')
    end
  else (Ok (revisionInfo env this (fs w) revision), w).
Proof.
  intros Hthere. unfold download, archiveFileName.
  rewrite !isFirefoxLinux_decide.
  destruct (isFirefoxLinux (_product this) (_platform this)).
  - cbv beta iota zeta delta [bind fetchWith].
    destruct (fetch env HEAD _) as [response|]; [|reflexivity].
    destruct (Disposition.actualFileName _);
      cbv beta iota delta [ret exists_ gets]; cbn [fs]; now rewrite Hthere.
  - cbv beta iota delta [bind ret exists_ gets]. now rewrite Hthere.
Qed.

(** C2, as amended: when the folder of the revision already exists,
    [download] issues no GET request, leaves the file system and the
    progress log as they are, and returns nothing but the revision info
    computed from the unchanged disk; and for every product and platform
    other than Firefox on [linux] and [linux-arm64] it issues no network
    request at all and returns that revision info. *)
Theorem download_short_circuit (env : Env) (this : BrowserFetcher)
    (revision : string) (w : World) :
  let result := download env this revision w in
  existsSync (fs w) (_getFolderPath this revision) = true ->
  fs result.2 = fs w /\
  progress result.2 = progress w /\
  noNewGet w result.2 /\
  (forall info, result.1 = Ok info ->
     info = revisionInfo env this (fs w) revision) /\
  (isFirefoxLinux (_product this) (_platform this) = false ->
     result = (Ok (revisionInfo env this (fs w) revision), w)).
Proof.
  intros result Hthere. subst result.
  rewrite (download_installed env this revision w Hthere).
  destruct (isFirefoxLinux (_product this) (_platform this)).
  - cbv zeta.
    assert (noNewGet w
              {| fs := fs w;
                 requests := (requests w ++
                   [(HEAD, downloadURL (sprintf env) (_product this)
                             (_platform this) (_downloadHost this) revision)])%list;
                 progress := progress w |}) as Hget.
    { eexists. split; [reflexivity|]. repeat constructor. discriminate. }
    destruct (fetch env HEAD _); cbn [fst snd fs progress];
      repeat split; try assumption; try discriminate; congruence.
  - cbn [fst snd]. repeat split.
    + exists []. split; [now rewrite app_nil_r|constructor].
    + congruence.
Qed.

Lemma download_short_circuit_witness :
  download Scenario.env Scenario.chromeLinux "1000" Scenario.chromeInstalled =
  (Ok (revisionInfo Scenario.env Scenario.chromeLinux
         (fs Scenario.chromeInstalled) "1000"),
   Scenario.chromeInstalled).
Proof.
  apply (download_short_circuit Scenario.env Scenario.chromeLinux "1000"
           Scenario.chromeInstalled eq_refl).
  reflexivity.
Defined.

(** C2 as stated fails: for Firefox on [linux], a second [download] of an
    installed revision still sends a HEAD request before it looks at the
    disk. *)
Lemma download_short_circuit_counterexample :
  existsSync (fs Scenario.firefoxInstalled)
    (_getFolderPath Scenario.firefoxLinux "141.0a1") = true /\
  requests Scenario.firefoxInstalled = [] /\
  requests (download Scenario.env Scenario.firefoxLinux "141.0a1"
              Scenario.firefoxInstalled).2 = [(HEAD, firefoxLinuxURL)].
Proof. split; [|split]; vm_compute; reflexivity. Qed.

(** What a successful [download] returns is the revision info of the disk
    it leaves behind. *)
Lemma download_result (env : Env) (this : BrowserFetcher) (revision : string)
    (w w1 : World) (info : BrowserFetcherRevisionInfo) :
  download env this revision w = (Ok info, w1) ->
  info = revisionInfo env this (fs w1) revision.
Proof.
  unfold download. intros H.
  apply bind_Ok in H as (fileName & wa & _ & H).
  apply bind_Ok in H as (installed & wb & _ & H).
  destruct installed.
  { unfold gets in H. now injection H as <- <-. }
  apply bind_Ok in H as (haveFolder & wc & _ & H).
  apply bind_Ok in H as ([] & wd & _ & H).
  destruct (_ && _)%bool; [discriminate|].
  apply bind_Ok in H as ([] & we & _ & H).
  apply bind_Ok in H as (info' & wf & Hinfo & H).
  unfold gets in Hinfo. injection Hinfo as <- <-.
  apply bind_Ok in H as ([] & wg & Hchmod & H).
  unfold ret in H. injection H as <- <-.
  assert (wg = we) as ->; [|reflexivity].
  destruct (negb _).
  - apply bind_Ok in Hchmod as ([] & wh & Hmode & Hhelpers).
    unfold Deno.chmod in Hmode.
    destruct (existsSync _ _); [|discriminate]. injection Hmode as <-.
    unfold macOSMakeChromiumHelpersExecutable, ret in Hhelpers.
    destruct (_ && _)%bool; now injection Hhelpers as <-.
  - unfold ret in Hchmod. now injection Hchmod as <-.
Qed.

(** Calling [download] twice: once a call has returned a revision info that
    says the revision is on disk, a second call with the same revision
    returns the same info and changes nothing, without any network request
    (Firefox on the two Linux platforms aside). *)
Lemma download_twice (env : Env) (this : BrowserFetcher) (revision : string)
    (w w1 : World) (info : BrowserFetcherRevisionInfo) :
  isFirefoxLinux (_product this) (_platform this) = false ->
  download env this revision w = (Ok info, w1) ->
  local info = true ->
  download env this revision w1 = (Ok info, w1).
Proof.
  intros Hpair Hfirst Hlocal.
  apply download_result in Hfirst as ->. cbn [local revisionInfo] in Hlocal.
  rewrite (download_installed env this revision w1 Hlocal). now rewrite Hpair.
Qed.

(** The cleanup of [download] leaves nothing at the archive path, whatever
    the body of the [try] did. *)
Lemma cleanup_removes_archivePath {A} (body : M A) (archivePath : string)
    (w : World) :
  existsSync
    (fs (tryFinally body
           (leftover <- exists_ archivePath ;;
            if leftover then Deno.remove archivePath else ret tt) w).2)
    archivePath = false.
Proof.
  unfold tryFinally. destruct (body w) as [r w1].
  cbv beta iota delta [bind exists_ gets].
  destruct (existsSync (fs w1) archivePath) eqn:E.
  - unfold Deno.remove. unfold existsSync in E.
    destruct (fs w1 !! archivePath) as [node|]; [|discriminate].
    cbn [snd setFs fs]. unfold existsSync.
    now rewrite lookup_removeTree, isWithin_refl.
  - unfold ret. cbn [snd]. exact E.
Qed.

(** C1 fails on the code.  Firefox on [linux], no [content-disposition]
    header, a payload that starts with the XZ magic number: the archive is
    written as [firefox-141.0a1.en-US.linux-x86_64.tar.bz2], renamed to end
    in [.tar.xz] and unpacked; the cleanup looks for the old name only, so
    [download] succeeds and the renamed archive stays in the downloads
    folder next to the extracted folder. *)
Theorem download_leaves_renamed_archive :
  let result :=
    download Scenario.env Scenario.firefoxLinux "141.0a1" Scenario.emptyWorld in
  result.1 =
    Ok (revisionInfo Scenario.env Scenario.firefoxLinux (fs result.2) "141.0a1") /\
  existsSync (fs result.2) "/cache/firefox/linux-141.0a1" = true /\
  existsSync (fs result.2)
    "/cache/firefox/firefox-141.0a1.en-US.linux-x86_64.tar.bz2" = false /\
  fs result.2 !! "/cache/firefox/firefox-141.0a1.en-US.linux-x86_64.tar.xz" =
    Some (File (concat Scenario.xzPayload)).
Proof.
  cbv zeta. split; [|split; [|split]]; vm_compute; reflexivity.
Qed.

(** * Further properties *)

(** ** Folder names, once more *)

Lemma includes_append (s t : string) (sep : ascii) :
  Js.includes (s +:+ t) (String sep EmptyString) =
  (Js.includes s (String sep EmptyString) ||
   Js.includes t (String sep EmptyString))%bool.
Proof.
  induction s as [|a s IH].
  - rewrite append_empty. reflexivity.
  - rewrite append_cons, !includes_cons, IH. now rewrite orb_assoc.
Qed.

Lemma append_inv_l (p a b : string) : p +:+ a = p +:+ b -> a = b.
Proof.
  induction p as [|c p IH]; [now rewrite !append_empty|].
  rewrite !append_cons. intros [= H]. now apply IH.
Qed.

Lemma platformName_inj (p q : Platform) : platformName p = platformName q -> p = q.
Proof. destruct p, q; (reflexivity || discriminate). Qed.

(** X1: whatever name [parseName] accepts is exactly its platform part, a
    hyphen and its revision part, so two names never parse to the same
    result; the revision part contains no hyphen, and a platform part with a
    hyphen can only be [linux-arm64]. *)
Theorem parseName_accepts (product : Product) (name : string)
    (parsed : ParsedName) :
  parseName product name = Some parsed ->
  name = parsedPlatform parsed +:+ "-" +:+ parsedRevision parsed /\
  parsedProduct parsed = product /\
  Js.includes (parsedRevision parsed) "-" = false /\
  (Js.includes (parsedPlatform parsed) "-" = true ->
   parsedPlatform parsed = "linux-arm64").
Proof.
  intros H. destruct (parseName_inv _ _ _ H) as (Hname & Hproduct & _).
  split; [exact Hname|]. split; [exact Hproduct|].
  unfold parseName in H. pose proof (split_parts "-" name) as Hparts.
  destruct (Js.split "-" name) as [|s0 [|s1 [|s2 [|s3 rest]]]]; try discriminate.
  - destruct (hasDownloadURL product s0); [|discriminate].
    injection H as <-. cbn [parsedRevision parsedPlatform].
    inversion Hparts as [|? ? H0 Hrest]; subst.
    inversion Hrest as [|? ? H1 _]; subst.
    split; [exact H1|]. intros Hhyphen. congruence.
  - destruct (String.eqb s0 "linux" && String.eqb s1 "arm64")%bool;
      [|discriminate].
    destruct (hasDownloadURL product "linux-arm64"); [|discriminate].
    injection H as <-. cbn [parsedRevision parsedPlatform].
    inversion Hparts as [|? ? _ Hrest]; subst.
    inversion Hrest as [|? ? _ Hrest']; subst.
    inversion Hrest' as [|? ? H2 _]; subst.
    split; [exact H2|reflexivity].
Qed.

Lemma parseName_accepts_witness :
  "linux-arm64-141.0a1" = "linux-arm64" +:+ "-" +:+ "141.0a1" /\
  Js.includes "141.0a1" "-" = false.
Proof.
  destruct (parseName_accepts firefox "linux-arm64-141.0a1"
              {| parsedProduct := firefox;
                 parsedPlatform := "linux-arm64";
                 parsedRevision := "141.0a1" |} eq_refl)
    as (Hname & _ & Hrevision & _).
  split; [exact Hname|exact Hrevision].
Defined.

Lemma pathJoin_two (dir name : string) :
  pathJoin [dir; name] = dir +:+ String "/" name.
Proof. reflexivity. Qed.

(** ** Revision info *)

Lemma prefix_append (p s : string) : String.prefix p (p +:+ s) = true.
Proof.
  induction p as [|a p IH]; [now destruct s|].
  rewrite append_cons. simpl. destruct (ascii_dec a a); [exact IH|congruence].
Qed.

Lemma isWithin_below (dir rest : string) :
  isWithin dir (dir +:+ String "/" rest) = true.
Proof.
  unfold isWithin.
  replace (dir +:+ String "/" rest) with ((dir +:+ "/") +:+ rest)
    by now rewrite append_assoc.
  rewrite prefix_append. apply orb_true_r.
Qed.

Lemma append_longer (s : string) (a : ascii) (t : string) : s +:+ String a t <> s.
Proof.
  intros H. apply (f_equal String.length) in H.
  rewrite string_length_append in H. simpl in H. lia.
Qed.

Lemma executablePath_below (env : Env) (this : BrowserFetcher)
    (fs : FileSystem) (revision : string) :
  exists rest,
    executablePath (revisionInfo env this fs revision) =
    _getFolderPath this revision +:+ String "/" rest.
Proof.
  unfold revisionInfo. cbn [executablePath].
  destruct (_product this), (_platform this); eexists; reflexivity.
Qed.

(** X3: for every product and platform, the executable path of a revision
    info lies strictly below its folder path, which is the folder of the
    revision, and [local] says whether that folder exists. *)
Theorem revisionInfo_paths (env : Env) (this : BrowserFetcher)
    (fs : FileSystem) (revision : string) :
  let info := revisionInfo env this fs revision in
  folderPath info = _getFolderPath this revision /\
  isWithin (folderPath info) (executablePath info) = true /\
  executablePath info <> folderPath info /\
  local info = existsSync fs (folderPath info).
Proof.
  intros info. subst info.
  destruct (executablePath_below env this fs revision) as [rest Hrest].
  rewrite Hrest. cbn [folderPath local revisionInfo].
  repeat split.
  - apply isWithin_below.
  - apply append_longer.
Qed.

(** ** The [content-disposition] header *)

Lemma stripQuotes_clean (s : string) :
  existsb Disposition.isQuote (list_ascii_of_string (Disposition.stripQuotes s)) = false.
Proof.
  induction s as [|a s IH]; [reflexivity|].
  simpl. destruct (Disposition.isQuote a) eqn:E; [exact IH|].
  simpl. now rewrite E.
Qed.

(** X4: a file name taken from the header is never empty and holds no
    quote character. *)
Theorem actualFileName_clean (header : option string) (name : string) :
  Disposition.actualFileName header = Some name ->
  name <> EmptyString /\
  existsb Disposition.isQuote (list_ascii_of_string name) = false.
Proof.
  unfold Disposition.actualFileName.
  destruct header as [contentDisposition|]; [|discriminate].
  destruct (String.eqb contentDisposition EmptyString); [discriminate|].
  destruct (Disposition.matchFilename contentDisposition) as [g|];
    [|discriminate].
  destruct (String.eqb g EmptyString); [discriminate|].
  destruct (String.eqb_spec (Disposition.stripQuotes g) EmptyString) as [|Hne];
    [discriminate|].
  intros [= <-]. split; [exact Hne|apply stripQuotes_clean].
Qed.

Lemma actualFileName_clean_witness :
  "nightly.tar.xz" <> EmptyString /\
  existsb Disposition.isQuote (list_ascii_of_string "nightly.tar.xz") = false.
Proof.
  apply (actualFileName_clean
           (Some "attachment; filename='nightly.tar.xz'") "nightly.tar.xz").
  reflexivity.
Defined.

Lemma stripPrefix_prefix (p s : string) :
  String.prefix p s = false -> stripPrefix p s = None.
Proof.
  revert s. induction p as [|a p IH]; intros s; [now destruct s|].
  destruct s as [|b s]; [reflexivity|]. simpl.
  destruct (ascii_dec a b) as [->|Hne].
  - rewrite Ascii.eqb_refl. apply IH.
  - intros _. now apply Ascii.eqb_neq in Hne as ->.
Qed.

Lemma matchFilename_absent (s : string) :
  Js.includes s "filename" = false -> Disposition.matchFilename s = None.
Proof.
  induction s as [|a s IH]; cbn [Js.includes Disposition.matchFilename].
  - intros _. reflexivity.
  - intros [Hhere Hrest]%orb_false_elim.
    unfold Disposition.matchHere. rewrite (stripPrefix_prefix _ _ Hhere).
    now apply IH.
Qed.

(** X5: without a header, or with a header that does not contain the word
    [filename], no file name is taken from the response, so [download]
    keeps its default archive name. *)
Theorem actualFileName_absent (header : option string) :
  match header with
  | Some contentDisposition => Js.includes contentDisposition "filename" = false
  | None => True
  end ->
  Disposition.actualFileName header = None.
Proof.
  destruct header as [contentDisposition|]; [|reflexivity].
  intros H. unfold Disposition.actualFileName.
  destruct (String.eqb contentDisposition EmptyString); [reflexivity|].
  now rewrite (matchFilename_absent _ H).
Qed.

Lemma actualFileName_absent_witness :
  Disposition.actualFileName (Some "attachment") = None.
Proof. apply (actualFileName_absent (Some "attachment")). reflexivity. Defined.


Lemma stripPrefix_append (p s : string) : stripPrefix p (p +:+ s) = Some s.
Proof.
  induction p as [|a p IH]; [reflexivity|].
  rewrite append_cons. simpl. now rewrite Ascii.eqb_refl.
Qed.

(** An occurrence of the word [filename] cannot begin inside a text that
    does not contain the word and end inside a text that begins with its
    first letter. *)
Lemma stripPrefix_straddle (p s : string) :
  p <> EmptyString ->
  String.prefix "filename" p = false ->
  stripPrefix "filename" (p +:+ String "f" s) = None.
Proof.
  intros Hne Hpre.
  destruct p as [|a p]; [congruence|]. clear Hne.
  rewrite append_cons. cbn [stripPrefix].
  destruct (Ascii.eqb_spec "f" a) as [<-|]; [simpl in Hpre|reflexivity].
  repeat (destruct p as [|? p];
          [reflexivity
          |rewrite append_cons; cbn [stripPrefix];
           match goal with
           | |- context [Ascii.eqb ?c ?x] =>
               destruct (Ascii.eqb_spec c x) as [<-|]; [simpl in Hpre|reflexivity]
           end]).
  destruct p; discriminate Hpre.
Qed.

(** The leftmost match is not before the first occurrence of the word
    [filename]. *)
Lemma matchFilename_first (p s : string) :
  Js.includes p "filename" = false ->
  Disposition.matchFilename (p +:+ String "f" s) =
  Disposition.matchFilename (String "f" s).
Proof.
  induction p as [|a p IH]; [reflexivity|].
  cbn [Js.includes]. intros [Hpre Hp]%orb_false_elim.
  rewrite <- (IH Hp). rewrite append_cons.
  cbn [Disposition.matchFilename].
  unfold Disposition.matchHere at 1.
  rewrite <- append_cons, stripPrefix_straddle by (discriminate || exact Hpre).
  reflexivity.
Qed.

Lemma span_all (stop : ascii -> bool) (s : string) :
  existsb stop (list_ascii_of_string s) = false ->
  Disposition.span stop s = (s, EmptyString).
Proof.
  induction s as [|a s IH]; [reflexivity|].
  simpl. intros [-> Hs]%orb_false_elim. now rewrite (IH Hs).
Qed.

Lemma span_until (stop : ascii -> bool) (s : string) (a : ascii) (t : string) :
  existsb stop (list_ascii_of_string s) = false ->
  stop a = true ->
  Disposition.span stop (s +:+ String a t) = (s, String a t).
Proof.
  intros Hs Ha. induction s as [|b s IH].
  - rewrite append_empty. simpl. now rewrite Ha.
  - rewrite append_cons. simpl in *.
    apply orb_false_elim in Hs as [-> Hs]. now rewrite (IH Hs).
Qed.

Lemma stripQuotes_plain (s : string) :
  existsb Disposition.isQuote (list_ascii_of_string s) = false ->
  Disposition.stripQuotes s = s.
Proof.
  induction s as [|a s IH]; [reflexivity|].
  simpl. intros [-> Hs]%orb_false_elim. now rewrite (IH Hs).
Qed.

Lemma untilQuote_closing (q : ascii) (s t : string) :
  existsb (fun a => Ascii.eqb a q || Disposition.isLineTerminator a)%bool
    (list_ascii_of_string s) = false ->
  Disposition.untilQuote q (s +:+ String q t) = Some s.
Proof.
  induction s as [|a s IH].
  - intros _. rewrite append_empty. simpl. now rewrite Ascii.eqb_refl.
  - rewrite append_cons. simpl.
    intros [[-> ->]%orb_false_elim Hs]%orb_false_elim. now rewrite (IH Hs).
Qed.

Lemma existsb_weaken {A} (p q : A -> bool) (l : list A) :
  (forall a, q a = true -> p a = true) ->
  existsb p l = false -> existsb q l = false.
Proof.
  intros Hpq. induction l as [|a l IH]; [reflexivity|].
  simpl. intros [Ha Hl]%orb_false_elim. rewrite (IH Hl), orb_false_r.
  destruct (q a) eqn:E; [|reflexivity]. now rewrite (Hpq a E) in Ha.
Qed.

Lemma matchFilename_parameter (mid value : string) :
  existsb (fun a => Ascii.eqb a ";" || Ascii.eqb a "=" || Disposition.isNewline a)%bool
    (list_ascii_of_string mid) = false ->
  Disposition.matchFilename ("filename" +:+ mid +:+ String "=" value) =
  Some (Disposition.group value).
Proof.
  intros Hmid.
  change ("filename" +:+ mid +:+ String "=" value)
    with (String "f" ("ilename" +:+ mid +:+ String "=" value)).
  cbn [Disposition.matchFilename]. unfold Disposition.matchHere.
  change (String "f" ("ilename" +:+ mid +:+ String "=" value))
    with ("filename" +:+ mid +:+ String "=" value).
  rewrite stripPrefix_append, (span_until _ _ _ _ Hmid) by reflexivity.
  reflexivity.
Qed.

(** The value [actualFileName] is computed from, when the header has a
    parameter whose name starts with [filename], after a text without the
    word [filename]. *)
Lemma actualFileName_value (before mid value : string) :
  Js.includes before "filename" = false ->
  existsb (fun a => Ascii.eqb a ";" || Ascii.eqb a "=" || Disposition.isNewline a)%bool
    (list_ascii_of_string mid) = false ->
  Disposition.actualFileName
    (Some (before +:+ "filename" +:+ mid +:+ String "=" value)) =
  let g := Disposition.group value in
  if String.eqb g EmptyString then None
  else if String.eqb (Disposition.stripQuotes g) EmptyString then None
       else Some (Disposition.stripQuotes g).
Proof.
  intros Hbefore Hmid. unfold Disposition.actualFileName.
  destruct (String.eqb_spec
              (before +:+ "filename" +:+ mid +:+ String "=" value) EmptyString)
    as [Hempty|_].
  { apply (f_equal String.length) in Hempty.
    rewrite string_length_append in Hempty.
    change ("filename" +:+ mid +:+ String "=" value)
      with (String "f" ("ilename" +:+ mid +:+ String "=" value)) in Hempty.
    simpl in Hempty. lia. }
  change ("filename" +:+ mid +:+ String "=" value)
    with (String "f" ("ilename" +:+ mid +:+ String "=" value)).
  rewrite (matchFilename_first _ _ Hbefore).
  change (String "f" ("ilename" +:+ mid +:+ String "=" value))
    with ("filename" +:+ mid +:+ String "=" value).
  now rewrite (matchFilename_parameter _ _ Hmid).
Qed.

Lemma span_append (stop : ascii -> bool) (p s : string) :
  existsb stop (list_ascii_of_string p) = false ->
  Disposition.span stop (p +:+ s) =
  (p +:+ fst (Disposition.span stop s), snd (Disposition.span stop s)).
Proof.
  induction p as [|a p IH].
  - intros _. rewrite !append_empty. now destruct (Disposition.span stop s).
  - simpl. intros [Ha Hp]%orb_false_elim. rewrite !append_cons. simpl.
    now rewrite Ha, (IH Hp).
Qed.

Lemma stripQuotes_append (s t : string) :
  Disposition.stripQuotes (s +:+ t) =
  Disposition.stripQuotes s +:+ Disposition.stripQuotes t.
Proof.
  induction s as [|a s IH]; [reflexivity|].
  rewrite append_cons. simpl. rewrite IH.
  now destruct (Disposition.isQuote a).
Qed.

Lemma plain_no_quote (name : string) :
  forallb plainChar (list_ascii_of_string name) = true ->
  existsb Disposition.isQuote (list_ascii_of_string name) = false /\
  existsb (fun a => Ascii.eqb a ";" || Disposition.isNewline a)%bool
    (list_ascii_of_string name) = false.
Proof.
  induction (list_ascii_of_string name) as [|a l IH]; [now split|].
  simpl. intros [Ha Hl]%andb_true_iff. destruct (IH Hl) as [-> ->].
  unfold plainChar, Disposition.isLineTerminator, Disposition.isNewline in *.
  apply negb_true_iff in Ha.
  apply orb_false_elim in Ha as [[-> ->]%orb_false_elim [-> _]%orb_false_elim].
  now split.
Qed.

(** X6: when the word [filename] does not occur in the header before
    the parameter, a header of the form [...filename=NAME], with or
    without a further parameter after a semicolon, yields NAME, for NAME a
    non-empty run of characters other than quotes, semicolon and line
    terminators; and [...filename=] followed by NAME between two double
    quotes yields NAME without the quotes, semicolons inside it included,
    for a non-empty NAME without quotes and line terminators. *)
Theorem actualFileName_roundtrip (before name rest : string) :
  Js.includes before "filename" = false ->
  name <> EmptyString ->
  (forallb plainChar (list_ascii_of_string name) = true ->
     Disposition.actualFileName (Some (before +:+ "filename=" +:+ name)) =
       Some name /\
     Disposition.actualFileName
       (Some (before +:+ "filename=" +:+ name +:+ String ";" rest)) =
       Some name) /\
  (existsb (fun a => Disposition.isQuote a || Disposition.isLineTerminator a)%bool
     (list_ascii_of_string name) = false ->
     Disposition.actualFileName
       (Some (before +:+ "filename=" +:+
              String (ascii_of_nat 34)
                (name +:+ String (ascii_of_nat 34) rest))) = Some name).
Proof.
  intros Hbefore Hname.
  assert (forall value, Disposition.group value = name ->
            Disposition.actualFileName
              (Some (before +:+ "filename=" +:+ value)) =
            (if String.eqb (Disposition.stripQuotes name) EmptyString
             then None else Some (Disposition.stripQuotes name))) as Hgroup.
  { intros value Hg.
    change (before +:+ "filename=" +:+ value)
      with (before +:+ "filename" +:+ EmptyString +:+ String "=" value).
    rewrite (actualFileName_value before EmptyString _ Hbefore eq_refl).
    cbv zeta. rewrite Hg. now destruct (String.eqb_spec name EmptyString). }
  split.
  - intros Hplain. destruct (plain_no_quote _ Hplain) as [Hquotes Hstops].
    assert (forall value,
              fst (Disposition.span
                     (fun a => Ascii.eqb a ";" || Disposition.isNewline a)%bool
                     value) = name ->
              (exists tail, value = name +:+ tail) ->
              Disposition.group value = name) as Hunquoted.
    { intros value Hspan [tail ->]. unfold Disposition.group. rewrite Hspan.
      destruct name as [|q name']; [congruence|].
      rewrite append_cons. simpl in Hquotes.
      now apply orb_false_elim in Hquotes as [-> _]. }
    rewrite (stripQuotes_plain _ Hquotes) in Hgroup.
    assert (String.eqb name EmptyString = false) as Hne
      by now apply String.eqb_neq.
    rewrite Hne in Hgroup. split.
    + apply Hgroup, Hunquoted.
      * now rewrite (span_all _ _ Hstops).
      * exists EmptyString. clear. induction name as [|a n IH];
          [reflexivity|]. rewrite append_cons. now rewrite <- IH.
    + apply Hgroup, Hunquoted; [|now eexists].
      now rewrite (span_until _ _ _ _ Hstops).
  - intros Hquoted.
    assert (existsb Disposition.isQuote (list_ascii_of_string name) = false)
      as Hquotes.
    { revert Hquoted. apply existsb_weaken. now intros a ->. }
    change (before +:+ "filename=" +:+
            String (ascii_of_nat 34) (name +:+ String (ascii_of_nat 34) rest))
      with (before +:+ "filename" +:+ EmptyString +:+
            String "=" (String (ascii_of_nat 34)
                          (name +:+ String (ascii_of_nat 34) rest))).
    rewrite (actualFileName_value before EmptyString _ Hbefore eq_refl).
    cbv zeta. unfold Disposition.group.
    change (Disposition.isQuote (ascii_of_nat 34)) with true. cbv iota.
    rewrite untilQuote_closing.
    2:{ revert Hquoted. apply existsb_weaken. intros a Ha.
        apply orb_true_iff in Ha as [Ha | ->]; [|apply orb_true_r].
        apply Ascii.eqb_eq in Ha as ->. reflexivity. }
    set (g := String (ascii_of_nat 34) (name +:+ String (ascii_of_nat 34) EmptyString)).
    assert (Disposition.stripQuotes g = name) as Hg.
    { subst g. cbn [Disposition.stripQuotes].
      change (Disposition.isQuote (ascii_of_nat 34)) with true. cbv iota.
      clear -Hquotes. induction name as [|a n IH]; [reflexivity|].
      rewrite append_cons. simpl in *.
      apply orb_false_elim in Hquotes as [-> Hn]. now rewrite (IH Hn). }
    rewrite Hg. change (String.eqb g EmptyString) with false. cbv iota.
    now destruct (String.eqb_spec name EmptyString).
Qed.

Lemma actualFileName_roundtrip_witness :
  Disposition.actualFileName
    (Some ("form-data; name=file; " +:+ "filename=" +:+ "nightly.tar.xz" +:+
           String ";" " size=5")) = Some "nightly.tar.xz".
Proof.
  apply (actualFileName_roundtrip "form-data; name=file; " "nightly.tar.xz"
           " size=5");
    try reflexivity. discriminate.
Defined.

(** X7: when the word [filename] does not occur in the header before
    it, the extended parameter [filename*=UTF-8''NAME] is matched by the
    pattern, and since only the quote characters are dropped from its
    value, the file name taken from it is NAME behind the charset label,
    for NAME a run of characters other than quotes, semicolon and line
    terminators. *)
Theorem actualFileName_extended (before name : string) :
  Js.includes before "filename" = false ->
  forallb plainChar (list_ascii_of_string name) = true ->
  Disposition.actualFileName
    (Some (before +:+ "filename*=UTF-8''" +:+ name)) =
  Some ("UTF-8" +:+ name).
Proof.
  intros Hbefore Hplain. destruct (plain_no_quote _ Hplain) as [Hquotes Hstops].
  change (before +:+ "filename*=UTF-8''" +:+ name)
    with (before +:+ "filename" +:+ "*" +:+ String "=" ("UTF-8''" +:+ name)).
  rewrite (actualFileName_value before "*" _ Hbefore eq_refl). cbv zeta.
  assert (Disposition.group ("UTF-8''" +:+ name) = "UTF-8''" +:+ name) as ->.
  { unfold Disposition.group.
    rewrite span_append, (span_all _ _ Hstops) by reflexivity. cbn [fst].
    change ("UTF-8''" +:+ name) with (String "U" ("TF-8''" +:+ name)) at 1.
    cbv iota. change (Disposition.isQuote "U") with false. cbv iota.
    reflexivity. }
  rewrite stripQuotes_append, (stripQuotes_plain _ Hquotes).
  change (Disposition.stripQuotes "UTF-8''") with "UTF-8".
  change ("UTF-8''" +:+ name) with (String "U" ("TF-8''" +:+ name)).
  change ("UTF-8" +:+ name) with (String "U" ("TF-8" +:+ name)).
  reflexivity.
Qed.

Lemma actualFileName_extended_witness :
  Disposition.actualFileName
    (Some ("attachment; file; " +:+ "filename*=UTF-8''" +:+ "nightly.tar.xz")) =
  Some "UTF-8nightly.tar.xz".
Proof.
  apply (actualFileName_extended "attachment; file; " "nightly.tar.xz");
    reflexivity.
Defined.

(** ** The volume line of [hdiutil attach] *)

Lemma span_fst_clean (stop : ascii -> bool) (s : string) :
  existsb stop (list_ascii_of_string (fst (Disposition.span stop s))) = false.
Proof.
  induction s as [|a s IH]; [reflexivity|].
  simpl. destruct (stop a) eqn:E; [reflexivity|].
  destruct (Disposition.span stop s) as [taken remaining]. simpl in *.
  now rewrite E.
Qed.

Lemma prefix_inv (p s : string) :
  String.prefix p s = true -> exists rest, s = p +:+ rest.
Proof.
  revert s. induction p as [|a p IH]; intros s; [now exists s|].
  destruct s as [|b s]; [discriminate|]. simpl.
  destruct (ascii_dec a b) as [->|]; [|discriminate].
  intros [rest ->]%IH. now exists rest.
Qed.

(** X8: the mount path read from the output of [hdiutil attach] is absent
    exactly when the output does not contain [/Volumes/]; otherwise it
    starts with [/Volumes/] and stops before the end of its line. *)
Theorem matchVolumes_spec (stdout : string) :
  (matchVolumes stdout = None <-> Js.includes stdout "/Volumes/" = false) /\
  (forall mountPath, matchVolumes stdout = Some mountPath ->
     String.prefix "/Volumes/" mountPath = true /\
     existsb Disposition.isLineTerminator (list_ascii_of_string mountPath) = false).
Proof.
  split.
  - induction stdout as [|a s IH].
    + now split.
    + cbn [matchVolumes Js.includes].
      destruct (String.prefix "/Volumes/" (String a s)); [now split|].
      exact IH.
  - induction stdout as [|a s IH]; intros mountPath.
    + discriminate.
    + cbn [matchVolumes].
      destruct (String.prefix "/Volumes/" (String a s)) eqn:E; [|apply IH].
      intros [= <-].
      change (String.prefix "/Volumes/"
                (fst (Disposition.span Disposition.isLineTerminator (String a s)))
              = true /\
              existsb Disposition.isLineTerminator
                (list_ascii_of_string
                   (fst (Disposition.span Disposition.isLineTerminator
                           (String a s)))) = false).
      split; [|apply span_fst_clean].
      apply prefix_inv in E as [rest ->].
      rewrite span_append by reflexivity. cbn [fst]. apply prefix_append.
Qed.

Lemma matchVolumes_spec_witness :
  String.prefix "/Volumes/" "/Volumes/Firefox Nightly" = true /\
  existsb Disposition.isLineTerminator
    (list_ascii_of_string "/Volumes/Firefox Nightly") = false.
Proof.
  apply (proj2 (matchVolumes_spec
                  (String.concat (String (ascii_of_nat 10) EmptyString)
                     ["/dev/disk4s1  Apple_HFS  /Volumes/Firefox Nightly";
                      "done"]))).
  reflexivity.
Defined.

(** ** Streaming the archive to disk *)

Lemma runningTotals_last (chunks : list bytes) :
  forall acc d : Z,
    List.last (runningTotals acc chunks) d =
    match chunks with
    | [] => d
    | _ :: _ => (acc + Z.of_nat (length (concat chunks)))%Z
    end.
Proof.
  induction chunks as [|chunk rest IH]; intros acc d; [reflexivity|].
  cbn [runningTotals concat]. rewrite length_app.
  destruct rest as [|chunk' rest'].
  - simpl. lia.
  - specialize (IH (acc + Z.of_nat (length chunk))%Z d).
    cbn [runningTotals] in *. cbn [List.last] in *. rewrite IH. lia.
Qed.

(** When the server answers the GET with a status other than 200, or
    the request is rejected, [downloadFile] raises, having created no file
    and reported no progress: only the request log has grown. *)
Theorem downloadFile_rejected (env : Env) (url destinationPath : string)
    (w : World) :
  match fetch env GET url with
  | Some response => status response <> 200%Z
  | None => True
  end ->
  downloadFile env url destinationPath w =
  (Err (match fetch env GET url with
        | Some response => DownloadFailed (status response) url
        | None => RuntimeError "fetch"
        end),
   {| fs := fs w;
      requests := (requests w ++ [(GET, url)])%list;
      progress := progress w |}).
Proof.
  unfold downloadFile, bind, fetchWith.
  destruct (fetch env GET url) as [response|]; [|reflexivity].
  intros Hstatus. apply Z.eqb_neq in Hstatus. now rewrite Hstatus.
Qed.

(** What [downloadFile] does once the server has answered with status
    200 and the destination file can be created. *)
Lemma downloadFile_run (env : Env) (url destinationPath : string)
    (w : World) (response : Response) :
  fetch env GET url = Some response ->
  status response = 200%Z ->
  creatable (fs w) destinationPath = true ->
  downloadFile env url destinationPath w =
  (if bodyFails response then Err (RuntimeError "read") else Ok tt,
   {| fs := <[destinationPath := File (concat (body response))]> (fs w);
      requests := (requests w ++ [(GET, url)])%list;
      progress :=
        (progress w ++
         map (fun n => (n, Js.parseInt (default EmptyString (contentLength response))))
           (runningTotals 0 (body response)))%list |}).
Proof.
  intros Hfetch Hstatus Hdest.
  unfold downloadFile, bind at 1, fetchWith. rewrite Hfetch, Hstatus.
  cbn [Z.eqb Pos.eqb negb]. unfold bind at 1.
  set (w1 := {| fs := fs w; requests := _; progress := progress w |}).
  rewrite (create_run destinationPath w1 Hdest).
  unfold bind at 1.
  rewrite (writeChunks_run _ _ _ _ _ [])
    by (cbn [setFs fs]; apply lookup_insert_eq).
  cbn [setFs fs requests progress app]. rewrite insert_insert_eq.
  now destruct (bodyFails response).
Qed.

(** What [downloadFile] does when the server has answered with status 200
    and the destination file cannot be created. *)
Lemma downloadFile_uncreatable (env : Env) (url destinationPath : string)
    (w : World) (response : Response) :
  fetch env GET url = Some response ->
  status response = 200%Z ->
  creatable (fs w) destinationPath = false ->
  downloadFile env url destinationPath w =
  (Err (RuntimeError "create"),
   {| fs := fs w;
      requests := (requests w ++ [(GET, url)])%list;
      progress := progress w |}).
Proof.
  intros Hfetch Hstatus Hdest.
  unfold downloadFile, bind at 1, fetchWith. rewrite Hfetch, Hstatus.
  cbn [Z.eqb Pos.eqb negb]. unfold bind at 1.
  set (w1 := {| fs := fs w; requests := _; progress := progress w |}).
  now rewrite (create_rejected destinationPath w1 Hdest).
Qed.

(** X9: when the server answers the GET with status 200 and the
    destination file can be created, because it is a file already or
    because it is absent and its directory is there, the destination
    afterwards holds exactly the chunks of the body in order, also when the
    stream breaks off; the call succeeds exactly when the stream does not
    break off; every callback receives [parseInt] of the [content-length]
    header as the total; and the last cumulative count is the size of the
    file.  When the file cannot be created, the call raises before the
    first callback and leaves the disk as it was. *)
Theorem downloadFile_written (env : Env) (url destinationPath : string)
    (w : World) (response : Response) :
  fetch env GET url = Some response ->
  status response = 200%Z ->
  let result := downloadFile env url destinationPath w in
  let totalBytes := Js.parseInt (default EmptyString (contentLength response)) in
  requests result.2 = (requests w ++ [(GET, url)])%list /\
  (creatable (fs w) destinationPath = true ->
   fs result.2 = <[destinationPath := File (concat (body response))]> (fs w) /\
   (result.1 = Ok tt <-> bodyFails response = false) /\
   progress result.2 =
     (progress w ++
      map (fun n => (n, totalBytes)) (runningTotals 0 (body response)))%list /\
   (body response <> [] ->
    List.last (runningTotals 0 (body response)) 0%Z =
    Z.of_nat (length (concat (body response))))) /\
  (creatable (fs w) destinationPath = false ->
   result.1 = Err (RuntimeError "create") /\
   fs result.2 = fs w /\
   progress result.2 = progress w).
Proof.
  intros Hfetch Hstatus result totalBytes. subst result totalBytes.
  destruct (creatable (fs w) destinationPath) eqn:Hdest.
  - rewrite (downloadFile_run env url destinationPath w response Hfetch Hstatus Hdest).
    cbn [fst snd fs requests progress].
    split; [reflexivity|]. split; [|discriminate]. intros _.
    split; [reflexivity|]. split.
    { destruct (bodyFails response); split; congruence. }
    split; [reflexivity|].
    intros Hbody. rewrite runningTotals_last.
    destruct (body response); [congruence|lia].
  - rewrite (downloadFile_uncreatable env url destinationPath w response
               Hfetch Hstatus Hdest).
    cbn [fst snd fs requests progress].
    split; [reflexivity|]. split; [discriminate|]. intros _.
    split; [reflexivity|]. split; reflexivity.
Qed.

Lemma downloadFile_written_witness :
  fs (downloadFile Scenario.env "https://example.org/a.zip"
        "/cache/chromium/a.zip" Scenario.chromiumFolder).2 =
  <["/cache/chromium/a.zip" := File (concat Scenario.xzPayload)]>
    (fs Scenario.chromiumFolder) /\
  (downloadFile Scenario.env "https://example.org/a.zip"
     "/cache/chromium/a.zip" Scenario.emptyWorld).1 =
  Err (RuntimeError "create").
Proof.
  split.
  - apply (downloadFile_written Scenario.env "https://example.org/a.zip"
             "/cache/chromium/a.zip" Scenario.chromiumFolder
             (Scenario.ok Scenario.xzPayload)); reflexivity.
  - apply (downloadFile_written Scenario.env "https://example.org/a.zip"
             "/cache/chromium/a.zip" Scenario.emptyWorld
             (Scenario.ok Scenario.xzPayload)); reflexivity.
Defined.

Lemma downloadFile_rejected_witness :
  downloadFile Cases.notFound "https://example.org/a.zip"
    "/cache/chromium/a.zip" Scenario.emptyWorld =
  (Err (DownloadFailed 404 "https://example.org/a.zip"),
   {| fs := ∅;
      requests := [(GET, "https://example.org/a.zip")];
      progress := [] |}).
Proof.
  apply (downloadFile_rejected Cases.notFound "https://example.org/a.zip"
           "/cache/chromium/a.zip" Scenario.emptyWorld).
  discriminate.
Defined.

(** ** Availability *)

Lemma canDownload_run (env : Env) (this : BrowserFetcher) (revision : string)
    (w : World) :
  let url := downloadURL (sprintf env) (_product this) (_platform this)
               (_downloadHost this) revision in
  canDownload env this revision w =
  (match fetch env HEAD url with
   | Some response => Ok (status response =? 200)%Z
   | None => Err (RuntimeError "fetch")
   end,
   {| fs := fs w;
      requests := (requests w ++ [(HEAD, url)])%list;
      progress := progress w |}).
Proof.
  unfold canDownload, bind, fetchWith.
  now destruct (fetch env HEAD _).
Qed.

(** X10: [canDownload] sends one HEAD request and touches neither the disk
    nor the progress log; and for Firefox on [linux] and [linux-arm64] its
    whole outcome is the same for every revision and every configured host,
    so it cannot tell whether a particular revision is available. *)
Theorem canDownload_frame (env : Env) (this : BrowserFetcher)
    (revision : string) (w : World) :
  fs (canDownload env this revision w).2 = fs w /\
  progress (canDownload env this revision w).2 = progress w /\
  (exists url, requests (canDownload env this revision w).2 =
               (requests w ++ [(HEAD, url)])%list) /\
  (isFirefoxLinux (_product this) (_platform this) = true ->
   forall (other : BrowserFetcher) (revision' : string),
     _product other = _product this ->
     _platform other = _platform this ->
     canDownload env other revision' w = canDownload env this revision w).
Proof.
  rewrite canDownload_run. cbn [snd fs progress requests].
  repeat split; [eauto|].
  intros Hpair other revision' Hproduct Hplatform.
  rewrite !canDownload_run. cbv zeta. rewrite Hproduct, Hplatform.
  destruct (_product this), (_platform this); try discriminate Hpair;
    reflexivity.
Qed.

Lemma canDownload_frame_witness :
  canDownload Scenario.env Scenario.firefoxLinux "1.0" Scenario.emptyWorld =
  canDownload Scenario.env Scenario.firefoxLinux "141.0a1" Scenario.emptyWorld.
Proof.
  apply (proj2 (proj2 (proj2
           (canDownload_frame Scenario.env Scenario.firefoxLinux "141.0a1"
              Scenario.emptyWorld)))); reflexivity.
Defined.

(** ** Construction *)

Lemma hasDownloadURL_known (product : Product) (platform : Platform) :
  hasDownloadURL product (platformName platform) = true.
Proof. now destruct product, platform. Qed.

Lemma setPlatform_ok (env : Env) (given : option Platform) (platform : Platform) :
  setPlatform env given = Ok platform ->
  match given with
  | Some p => platform = p
  | None =>
      (build_os env = "darwin" /\ platform = mac) \/
      (build_os env = "linux" /\ platform = linux) \/
      (build_os env = "windows" /\
       platform = if String.eqb (build_arch env) "x86_64" then win64 else win32)
  end.
Proof.
  unfold setPlatform. destruct given as [p|]; [now intros [= <-]|].
  destruct (String.eqb_spec (build_os env) "darwin");
    [intros [= <-]; auto|].
  destruct (String.eqb_spec (build_os env) "linux");
    [intros [= <-]; auto|].
  destruct (String.eqb_spec (build_os env) "windows");
    [intros [= <-]; auto|].
  discriminate.
Qed.

(** X11: the constructor succeeds exactly when the product option, Chrome
    if absent or empty, is one of the two product names in any letter case,
    and a platform is given or the system is one of darwin, linux and
    windows. *)
Theorem newBrowserFetcher_succeeds (env : Env) (cachedir : string)
    (options : Options.t) :
  (exists fetcher, newBrowserFetcher env cachedir options = Ok fetcher) <->
  (productOfName (toLowerCase (orElse (Options.product options) "chrome"))
     <> None /\
   (Options.platform options <> None \/
    In (build_os env) ["darwin"; "linux"; "windows"])).
Proof.
  unfold newBrowserFetcher.
  destruct (productOfName _) as [product|].
  2:{ split; [intros [? [=]]|intros [[] _]; reflexivity]. }
  unfold setPlatform.
  destruct (Options.platform options) as [platform|].
  { rewrite hasDownloadURL_known. split; [intros _|eauto].
    split; [discriminate|left; discriminate]. }
  destruct (String.eqb_spec (build_os env) "darwin") as [Hos|Hdarwin].
  { rewrite hasDownloadURL_known. split; [intros _|eauto].
    split; [discriminate|]. right. rewrite Hos. simpl. auto. }
  destruct (String.eqb_spec (build_os env) "linux") as [Hos|Hlinux].
  { rewrite hasDownloadURL_known. split; [intros _|eauto].
    split; [discriminate|]. right. rewrite Hos. simpl. auto. }
  destruct (String.eqb_spec (build_os env) "windows") as [Hos|Hwindows].
  { rewrite hasDownloadURL_known. split; [intros _|eauto].
    split; [discriminate|]. right. rewrite Hos. simpl. auto. }
  split; [intros [? [=]]|].
  intros [_ [[]|Hin]]; [reflexivity|].
  simpl in Hin. intuition congruence.
Qed.

(** X12: the constructor honours an explicit platform, and without one it
    never picks [linux-arm64], whatever architecture the runtime reports: on
    linux the platform is [linux]; an explicit, non-empty host or path
    replaces the default of the product. *)
Theorem newBrowserFetcher_fields (env : Env) (cachedir : string)
    (options : Options.t) (fetcher : BrowserFetcher) :
  newBrowserFetcher env cachedir options = Ok fetcher ->
  match Options.platform options with
  | Some platform => _platform fetcher = platform
  | None =>
      _platform fetcher <> linux_arm64 /\
      (build_os env = "linux" -> _platform fetcher = linux)
  end /\
  _downloadHost fetcher =
    orElse (Options.host options) (host (browserConfig (_product fetcher))) /\
  _downloadsFolder fetcher =
    orElse (Options.path options)
      (pathJoin [cachedir; "deno_puppeteer";
                 destination (browserConfig (_product fetcher))]).
Proof.
  unfold newBrowserFetcher.
  destruct (productOfName _) as [product|]; [|discriminate].
  destruct (setPlatform env (Options.platform options)) as [platform|e] eqn:E;
    [|discriminate].
  rewrite hasDownloadURL_known. intros [= <-].
  cbn [_platform _downloadHost _downloadsFolder _product].
  repeat split.
  apply setPlatform_ok in E.
  destruct (Options.platform options) as [p|]; [exact E|].
  destruct E as [[Hos ->]|[[Hos ->]|[Hos ->]]].
  - split; [discriminate|]. rewrite Hos. discriminate.
  - split; [discriminate|reflexivity].
  - split; [now destruct (String.eqb _ _)|]. rewrite Hos. discriminate.
Qed.

Lemma newBrowserFetcher_fields_witness :
  _platform Scenario.firefoxLinux = linux /\
  _downloadHost Scenario.firefoxLinux = host (browserConfig firefox).
Proof.
  destruct (newBrowserFetcher_fields Cases.arm64Linux "/cache"
              {| Options.platform := None;
                 Options.product := Some "FireFox";
                 Options.path := Some "/cache/firefox";
                 Options.host := None |}
              Scenario.firefoxLinux eq_refl) as ((_ & Hlinux) & Hhost & _).
  split; [now apply Hlinux|exact Hhost].
Defined.

Lemma newBrowserFetcher_succeeds_witness :
  exists fetcher,
    newBrowserFetcher Cases.arm64Linux "/cache"
      {| Options.platform := None;
         Options.product := Some "FireFox";
         Options.path := None;
         Options.host := None |} = Ok fetcher.
Proof.
  apply (proj2 (newBrowserFetcher_succeeds Cases.arm64Linux "/cache" _)).
  split; [discriminate|]. right. simpl. auto.
Defined.

(** ** The install script *)

Lemma newBrowserFetcher_script (env : Env) (cachedir : string)
    (product : Product) (platform : Platform) :
  newBrowserFetcher env cachedir
    {| Options.platform := Some platform;
       Options.product := Some (productName product);
       Options.path := None;
       Options.host := None |} =
  Ok {| _product := product;
        _downloadsFolder :=
          pathJoin [cachedir; "deno_puppeteer";
                    destination (browserConfig product)];
        _downloadHost := host (browserConfig product);
        _platform := platform |}.
Proof.
  destruct product, platform; reflexivity.
Qed.

Lemma chosenArch_arm64 (args : list string) :
  InstallScript.chosenArch args = "arm64" <-> nth_error args 1 = Some "arm64".
Proof.
  unfold InstallScript.chosenArch, orElse.
  destruct (nth_error args 1) as [arch|].
  - destruct (String.eqb_spec arch EmptyString) as [->|_].
    + split; discriminate.
    + destruct (String.eqb_spec arch "x86_64") as [->|_];
        [split; discriminate|].
      destruct (String.eqb_spec arch "arm64") as [->|Hne]; cbn [negb andb].
      * now split.
      * split; [discriminate|]. intros [= ->]. congruence.
  - split; discriminate.
Qed.

(** X13: when the script gets as far as a fetcher, the fetcher has the
    chosen product, the default host and folder of that product, and the
    platform [linux-arm64] exactly when the system is linux and the second
    argument is [arm64]; it is never a Chrome fetcher for [linux-arm64]. *)
Theorem setup_ready (env : Env) (cachedir : string) (args : list string)
    (PUPPETEER_PRODUCT : option string) (fetcher : BrowserFetcher) :
  InstallScript.setup env cachedir args PUPPETEER_PRODUCT =
  InstallScript.Ready fetcher ->
  _product fetcher = InstallScript.chosenProduct args PUPPETEER_PRODUCT /\
  ~ (_product fetcher = chrome /\ _platform fetcher = linux_arm64) /\
  (_platform fetcher = linux_arm64 <->
   build_os env = "linux" /\ nth_error args 1 = Some "arm64") /\
  _downloadHost fetcher = host (browserConfig (_product fetcher)) /\
  _downloadsFolder fetcher =
    pathJoin [cachedir; "deno_puppeteer";
              destination (browserConfig (_product fetcher))].
Proof.
  unfold InstallScript.setup.
  destruct (InstallScript.wantsHelp args); [discriminate|].
  destruct (bool_decide (InstallScript.chosenProduct args PUPPETEER_PRODUCT = chrome)
            && String.eqb (InstallScript.chosenArch args) "arm64")%bool eqn:Hrefuse;
    [discriminate|].
  destruct (InstallScript.getPlatform env (InstallScript.chosenArch args))
    as [platform|] eqn:Hplatform; [|discriminate].
  rewrite newBrowserFetcher_script. intros [= <-].
  cbn [_product _platform _downloadHost _downloadsFolder].
  assert (platform = linux_arm64 <->
          build_os env = "linux" /\ nth_error args 1 = Some "arm64") as Harm.
  { rewrite <- chosenArch_arm64. unfold InstallScript.getPlatform in Hplatform.
    destruct (String.eqb_spec (build_os env) "linux") as [Hos|Hos].
    - destruct (String.eqb_spec (InstallScript.chosenArch args) "arm64");
        injection Hplatform as <-; split; try tauto; try discriminate.
    - split; [|tauto]. intros ->.
      destruct (String.eqb (build_os env) "darwin"); [discriminate|].
      destruct (String.eqb (build_os env) "windows"); [|discriminate].
      now destruct (String.eqb (build_arch env) "x86_64"). }
  split; [reflexivity|]. split; [|split; [exact Harm|split; reflexivity]].
  intros [Hchrome Hplat]. apply Harm in Hplat as [_ Harch].
  apply chosenArch_arm64 in Harch.
  rewrite Hchrome, Harch in Hrefuse. discriminate.
Qed.

Lemma setup_ready_witness :
  _platform
    {| _product := firefox;
       _downloadsFolder := "/deno-dir/deno_puppeteer/firefox";
       _downloadHost := host (browserConfig firefox);
       _platform := linux_arm64 |} = linux_arm64 <->
  build_os Cases.arm64Linux = "linux" /\
  nth_error ["firefox"; "arm64"] 1 = Some "arm64".
Proof.
  apply (setup_ready Cases.arm64Linux "/deno-dir" ["firefox"; "arm64"] None).
  reflexivity.
Defined.

(** X14: unless help is asked for, the script fails before it has a fetcher
    exactly when the chosen product is Chrome and the second argument is
    [arm64], on every system, or the system is none of linux, darwin and
    windows. *)
Theorem setup_fails (env : Env) (cachedir : string) (args : list string)
    (PUPPETEER_PRODUCT : option string) :
  InstallScript.wantsHelp args = false ->
  ((exists message,
      InstallScript.setup env cachedir args PUPPETEER_PRODUCT =
      InstallScript.Failure message) <->
   (InstallScript.chosenProduct args PUPPETEER_PRODUCT = chrome /\
    nth_error args 1 = Some "arm64") \/
   ~ In (build_os env) ["linux"; "darwin"; "windows"]).
Proof.
  intros Hhelp. unfold InstallScript.setup. rewrite Hhelp.
  rewrite <- chosenArch_arm64.
  destruct (decide (InstallScript.chosenProduct args PUPPETEER_PRODUCT = chrome))
    as [Hchrome|Hother].
  - rewrite (bool_decide_eq_true_2 _ Hchrome). cbn [andb].
    destruct (String.eqb_spec (InstallScript.chosenArch args) "arm64")
      as [Harch|Harch].
    { split; [auto|eauto]. }
    unfold InstallScript.getPlatform.
    destruct (String.eqb_spec (build_os env) "linux") as [Hos|Hlinux].
    { rewrite newBrowserFetcher_script. split; [intros [? [=]]|].
      intros [[_ ?]|Hno]; [congruence|]. exfalso. apply Hno.
      rewrite Hos. simpl. auto. }
    destruct (String.eqb_spec (build_os env) "darwin") as [Hos|Hdarwin].
    { rewrite newBrowserFetcher_script. split; [intros [? [=]]|].
      intros [[_ ?]|Hno]; [congruence|]. exfalso. apply Hno.
      rewrite Hos. simpl. auto. }
    destruct (String.eqb_spec (build_os env) "windows") as [Hos|Hwindows].
    { rewrite newBrowserFetcher_script. split; [intros [? [=]]|].
      intros [[_ ?]|Hno]; [congruence|]. exfalso. apply Hno.
      rewrite Hos. simpl. auto. }
    split; [|eauto]. intros _. right. simpl. intuition congruence.
  - rewrite (bool_decide_eq_false_2 _ Hother). cbn [andb].
    unfold InstallScript.getPlatform.
    destruct (String.eqb_spec (build_os env) "linux") as [Hos|Hlinux].
    { rewrite newBrowserFetcher_script. split; [intros [? [=]]|].
      intros [[? _]|Hno]; [congruence|]. exfalso. apply Hno.
      rewrite Hos. simpl. auto. }
    destruct (String.eqb_spec (build_os env) "darwin") as [Hos|Hdarwin].
    { rewrite newBrowserFetcher_script. split; [intros [? [=]]|].
      intros [[? _]|Hno]; [congruence|]. exfalso. apply Hno.
      rewrite Hos. simpl. auto. }
    destruct (String.eqb_spec (build_os env) "windows") as [Hos|Hwindows].
    { rewrite newBrowserFetcher_script. split; [intros [? [=]]|].
      intros [[? _]|Hno]; [congruence|]. exfalso. apply Hno.
      rewrite Hos. simpl. auto. }
    split; [|eauto]. intros _. right. simpl. intuition congruence.
Qed.

Lemma setup_fails_witness :
  exists message,
    InstallScript.setup Scenario.env "/deno-dir" ["chrome"; "arm64"] None =
    InstallScript.Failure message.
Proof.
  apply (proj2 (setup_fails Scenario.env "/deno-dir" ["chrome"; "arm64"] None
                  eq_refl)).
  left. split; reflexivity.
Defined.

(** X15: when the revision the script asks for is already on disk, the
    script returns its revision info without calling [download]: for Chrome
    it sends no request at all, and for Firefox only the GET for the list of
    versions, so not even the HEAD request that [download] would send for
    Firefox on Linux. *)
Theorem run_installed (env : Env)
    (PUPPETEER_CHROMIUM_REVISION : option string) (bundledChromium : string)
    (firefoxNightly : Response -> option string) (fetcher : BrowserFetcher)
    (w w1 : World) (version : string) :
  InstallScript.chosenRevision env PUPPETEER_CHROMIUM_REVISION bundledChromium
    firefoxNightly (_product fetcher) w = (Ok (Some version), w1) ->
  existsSync (fs w) (_getFolderPath fetcher version) = true ->
  InstallScript.run env PUPPETEER_CHROMIUM_REVISION bundledChromium
    firefoxNightly fetcher w =
  (Ok (Some (revisionInfo env fetcher (fs w) version)), w1) /\
  fs w1 = fs w /\
  requests w1 =
    (requests w ++
     match _product fetcher with
     | chrome => []
     | firefox => [(GET, InstallScript.versionsURL)]
     end)%list.
Proof.
  intros Hchosen Hthere.
  assert (fs w1 = fs w /\
          requests w1 =
            (requests w ++
             match _product fetcher with
             | chrome => []
             | firefox => [(GET, InstallScript.versionsURL)]
             end)%list) as [Hfs Hrequests].
  { unfold InstallScript.chosenRevision in Hchosen.
    destruct (_product fetcher).
    - unfold ret in Hchosen. injection Hchosen as _ <-.
      now rewrite app_nil_r.
    - unfold bind, fetchWith in Hchosen.
      destruct (fetch env GET InstallScript.versionsURL) as [response|];
        [|discriminate].
      destruct (firefoxNightly response) as [v|];
        [destruct (String.eqb v EmptyString)|];
        unfold ret in Hchosen; try discriminate Hchosen;
        injection Hchosen as _ <-; now split. }
  split; [|now split].
  unfold InstallScript.run, bind at 1. rewrite Hchosen.
  cbv beta iota delta [bind gets ret]. cbn [local revisionInfo].
  rewrite Hfs, Hthere. reflexivity.
Qed.

Lemma run_installed_witness :
  InstallScript.run Scenario.env None "1000" (fun _ => None)
    Scenario.chromeLinux Scenario.chromeInstalled =
  (Ok (Some (revisionInfo Scenario.env Scenario.chromeLinux
               (fs Scenario.chromeInstalled) "1000")),
   Scenario.chromeInstalled).
Proof.
  apply (run_installed Scenario.env None "1000" (fun _ => None)
           Scenario.chromeLinux Scenario.chromeInstalled
           Scenario.chromeInstalled "1000"); reflexivity.
Defined.

Lemma runningTotals_positive (chunks : list bytes) :
  forall acc : Z,
    (0 <= acc)%Z ->
    Forall (fun chunk => chunk <> []) chunks ->
    Forall (fun n => (0 < n)%Z) (runningTotals acc chunks).
Proof.
  induction chunks as [|chunk rest IH]; intros acc Hacc Hchunks;
    [constructor|].
  inversion Hchunks as [|? ? Hchunk Hrest]; subst.
  cbn [runningTotals].
  assert (0 < acc + Z.of_nat (length chunk))%Z as Hpos
    by (destruct chunk; [congruence|simpl; lia]).
  constructor; [exact Hpos|]. apply IH; [lia|exact Hrest].
Qed.

(** X16: when the server sends no [content-length] header, the progress
    callback of the install script never prints that the download is
    complete, because no count is equal to the total [NaN]; and it prints
    that the download starts only if an empty chunk comes first.  It is
    called once per chunk when the destination file can be created, and
    not at all otherwise. *)
Theorem script_progress_messages (env : Env) (url destinationPath : string)
    (w : World) (response : Response) :
  fetch env GET url = Some response ->
  status response = 200%Z ->
  contentLength response = None ->
  exists calls,
    progress (downloadFile env url destinationPath w).2 =
      (progress w ++ calls)%list /\
    length calls =
      (if creatable (fs w) destinationPath then length (body response)
       else 0%nat) /\
    Forall (fun call => InstallScript.progressMessage call.1 call.2 <>
                        InstallScript.Complete) calls /\
    (Forall (fun chunk => chunk <> []) (body response) ->
     Forall (fun call => InstallScript.progressMessage call.1 call.2 <>
                         InstallScript.Starting) calls).
Proof.
  intros Hfetch Hstatus Hlength.
  destruct (creatable (fs w) destinationPath) eqn:Hdest.
  - rewrite (downloadFile_run env url destinationPath w response Hfetch Hstatus Hdest).
    rewrite Hlength. change (Js.parseInt (default EmptyString None)) with Js.NaN.
    eexists. cbn [snd progress]. split; [reflexivity|].
    split; [|split].
    + rewrite length_map. generalize 0%Z.
      induction (body response) as [|chunk rest IH]; intros acc;
        [reflexivity|]. cbn [runningTotals length]. now rewrite IH.
    + apply Forall_map. apply Forall_forall. intros n _.
      unfold InstallScript.progressMessage. cbn [fst snd InstallScript.strictEq].
      now destruct (n =? 0)%Z.
    + intros Hchunks. apply Forall_map.
      pose proof (runningTotals_positive (body response) 0%Z ltac:(lia) Hchunks)
        as Hpos.
      rewrite Forall_forall in Hpos |- *. intros n Hn%Hpos.
      unfold InstallScript.progressMessage. cbn [fst snd].
      destruct (Z.eqb_spec n 0); [lia|]. now cbn.
  - rewrite (downloadFile_uncreatable env url destinationPath w response
               Hfetch Hstatus Hdest).
    exists []. cbn [snd progress]. rewrite app_nil_r.
    split; [reflexivity|]. split; [reflexivity|]. split; [constructor|].
    intros _. constructor.
Qed.

Lemma script_progress_messages_witness :
  exists calls,
    progress (downloadFile Scenario.env "https://example.org/a.zip"
                "/cache/chromium/a.zip" Scenario.chromiumFolder).2 =
      ([] ++ calls)%list /\
    length calls = 2%nat.
Proof.
  destruct (script_progress_messages Scenario.env "https://example.org/a.zip"
              "/cache/chromium/a.zip" Scenario.chromiumFolder
              (Scenario.ok Scenario.xzPayload) eq_refl eq_refl eq_refl)
    as (calls & Hcalls & Hlength & _).
  exists calls. split; [exact Hcalls|exact Hlength].
Defined.

(** ** What a computation leaves untouched *)

Section Keeps.

Context {X : Type}.
Variable f : World -> X.

Lemma keeps_ret {A} (a : A) : keeps f (ret a).
Proof. intros w. reflexivity. Qed.

Lemma keeps_throw {A} (e : Error) : keeps f (@throw A e).
Proof. intros w. reflexivity. Qed.

Lemma keeps_gets {A} (g : World -> A) : keeps f (gets g).
Proof. intros w. reflexivity. Qed.

Lemma keeps_bind {A B} (m : M A) (k : A -> M B) :
  keeps f m -> (forall a, keeps f (k a)) -> keeps f (bind m k).
Proof.
  intros Hm Hk w. unfold bind. specialize (Hm w).
  destruct (m w) as [[a|e] w1]; [|exact Hm].
  rewrite (Hk a w1). exact Hm.
Qed.

Lemma keeps_tryFinally {A} (body : M A) (cleanup : M unit) :
  keeps f body -> keeps f cleanup -> keeps f (tryFinally body cleanup).
Proof.
  intros Hb Hc w. unfold tryFinally. specialize (Hb w).
  destruct (body w) as [r w1]. specialize (Hc w1).
  destruct (cleanup w1) as [[[]|e] w2]; cbn [snd] in *; congruence.
Qed.

Lemma keeps_tryCatch {A} (body handler : M A) :
  keeps f body -> keeps f handler -> keeps f (tryCatch body handler).
Proof.
  intros Hb Hh w. unfold tryCatch. specialize (Hb w).
  destruct (body w) as [[a|e] w1]; [exact Hb|].
  rewrite (Hh w1). exact Hb.
Qed.

Hypothesis f_ignoresFs : ignoresFs f.

Lemma keeps_setFs (g : FileSystem -> FileSystem) : keeps f (modify (setFs g)).
Proof. intros w. apply f_ignoresFs. Qed.

Ltac keeps_op :=
  intros ? w; cbv beta delta [Deno.mkdir Deno.remove Deno.create
    Deno.makeTempFile Deno.write Deno.readFile Deno.rename Deno.chmod
    Deno.readDir];
  repeat match goal with
         | |- context [match ?x with _ => _ end] => destruct x
         end;
  cbn [snd]; rewrite ?f_ignoresFs; reflexivity.

Lemma keeps_mkdir path : keeps f (Deno.mkdir path).
Proof. revert path. keeps_op. Qed.

Lemma keeps_remove path : keeps f (Deno.remove path).
Proof. revert path. keeps_op. Qed.

Lemma keeps_create path : keeps f (Deno.create path).
Proof. revert path. keeps_op. Qed.

Lemma keeps_makeTempFile path : keeps f (Deno.makeTempFile path).
Proof. revert path. keeps_op. Qed.

Lemma keeps_write path chunk : keeps f (Deno.write path chunk).
Proof. revert chunk. keeps_op. Qed.

Lemma keeps_readFile path : keeps f (Deno.readFile path).
Proof. revert path. keeps_op. Qed.

Lemma keeps_rename oldpath newpath : keeps f (Deno.rename oldpath newpath).
Proof. revert newpath. keeps_op. Qed.

Lemma keeps_chmod path : keeps f (Deno.chmod path).
Proof. revert path. keeps_op. Qed.

End Keeps.

Lemma requests_ignoresFs : ignoresFs requests.
Proof. intros g w. reflexivity. Qed.

Lemma progress_ignoresFs : ignoresFs progress.
Proof. intros g w. reflexivity. Qed.

(** One step of a syntax-directed proof of [keeps]. *)
Ltac keeps_step :=
  first
    [ apply keeps_ret
    | apply keeps_throw
    | apply keeps_gets
    | apply keeps_setFs; solve [auto using requests_ignoresFs, progress_ignoresFs]
    | apply keeps_mkdir; solve [auto using requests_ignoresFs, progress_ignoresFs]
    | apply keeps_remove; solve [auto using requests_ignoresFs, progress_ignoresFs]
    | apply keeps_create; solve [auto using requests_ignoresFs, progress_ignoresFs]
    | apply keeps_makeTempFile; solve [auto using requests_ignoresFs, progress_ignoresFs]
    | apply keeps_write; solve [auto using requests_ignoresFs, progress_ignoresFs]
    | apply keeps_readFile; solve [auto using requests_ignoresFs, progress_ignoresFs]
    | apply keeps_rename; solve [auto using requests_ignoresFs, progress_ignoresFs]
    | apply keeps_chmod; solve [auto using requests_ignoresFs, progress_ignoresFs]
    | apply keeps_bind; [|intros ?]
    | apply keeps_tryFinally
    | apply keeps_tryCatch
    | match goal with
      | |- keeps _ (if ?b then _ else _) => destruct b
      | |- keeps _ (match ?x with _ => _ end) => destruct x
      end ].

Section KeepsFetcher.

Context {X : Type}.
Variable f : World -> X.
Hypothesis f_ignoresFs : ignoresFs f.
Variable env : Env.

Lemma keeps_detectAndRenameArchive path :
  keeps f (detectAndRenameArchive env path).
Proof.
  unfold detectAndRenameArchive, renameTo.
  repeat first [ apply keeps_readFile; assumption
               | apply keeps_rename; assumption
               | keeps_step ].
Qed.

Lemma keeps_install archivePath folder :
  keeps f (install env archivePath folder).
Proof.
  unfold install, extractZip, extractTarBz2, extractTarGz, extractTarXz,
    installDMG, untar, extractInto.
  repeat first [ apply keeps_readFile; assumption
               | apply keeps_mkdir; assumption
               | apply keeps_create; assumption
               | apply keeps_makeTempFile; assumption
               | apply keeps_write; assumption
               | apply keeps_setFs; assumption
               | keeps_step ].
Qed.

End KeepsFetcher.

(** X17: sniffing and extraction stay off the network and never call the
    progress callback: [detectAndRenameArchive] and [install] leave the
    request log and the progress log as they are, whatever the archive and
    whatever the outcome. *)
Theorem install_offline (env : Env) (archivePath folder : string) (w : World) :
  requests (install env archivePath folder w).2 = requests w /\
  progress (install env archivePath folder w).2 = progress w /\
  requests (detectAndRenameArchive env archivePath w).2 = requests w /\
  progress (detectAndRenameArchive env archivePath w).2 = progress w.
Proof.
  split; [|split; [|split]].
  - apply (keeps_install requests requests_ignoresFs).
  - apply (keeps_install progress progress_ignoresFs).
  - apply (keeps_detectAndRenameArchive requests requests_ignoresFs).
  - apply (keeps_detectAndRenameArchive progress progress_ignoresFs).
Qed.

(** ** The requests of a download *)

Lemma atMostOneGet_keeps {A} (url : string) (m : M A) :
  keeps requests m -> atMostOneGet url m.
Proof. intros Hm w. left. apply Hm. Qed.

Lemma atMostOneGet_bind_l {A B} (url : string) (m : M A) (k : A -> M B) :
  keeps requests m -> (forall a, atMostOneGet url (k a)) ->
  atMostOneGet url (bind m k).
Proof.
  intros Hm Hk w. unfold bind. specialize (Hm w).
  destruct (m w) as [[a|e] w1]; cbn [snd] in *.
  - rewrite <- Hm. apply Hk.
  - now left.
Qed.

Lemma atMostOneGet_bind_r {A B} (url : string) (m : M A) (k : A -> M B) :
  atMostOneGet url m -> (forall a, keeps requests (k a)) ->
  atMostOneGet url (bind m k).
Proof.
  intros Hm Hk w. unfold bind. specialize (Hm w).
  destruct (m w) as [[a|e] w1]; cbn [snd] in *; [|exact Hm].
  now rewrite (Hk a w1).
Qed.

Lemma atMostOneGet_tryFinally {A} (url : string) (body : M A) (cleanup : M unit) :
  atMostOneGet url body -> keeps requests cleanup ->
  atMostOneGet url (tryFinally body cleanup).
Proof.
  intros Hb Hc w. unfold tryFinally. specialize (Hb w).
  destruct (body w) as [r w1]. specialize (Hc w1).
  destruct (cleanup w1) as [[[]|e] w2]; cbn [snd] in *; now rewrite Hc.
Qed.

Lemma keeps_writeChunks dest total chunks acc :
  keeps requests (writeChunks dest total chunks acc).
Proof.
  revert acc. induction chunks as [|chunk rest IH]; intros acc;
    cbn [writeChunks]; [apply keeps_ret|].
  apply keeps_bind; [intros w; reflexivity|intros _].
  apply keeps_bind; [apply keeps_write, requests_ignoresFs|intros _].
  apply IH.
Qed.

Lemma downloadFile_requests (env : Env) (url dest : string) (w : World) :
  requests (downloadFile env url dest w).2 = (requests w ++ [(GET, url)])%list.
Proof.
  unfold downloadFile, bind at 1, fetchWith.
  destruct (fetch env GET url) as [response|]; [|reflexivity].
  set (w1 := {| fs := fs w; requests := _; progress := progress w |}).
  change (requests w ++ [(GET, url)])%list with (requests w1).
  generalize w1. change (keeps requests
    (if negb (status response =? 200)%Z
     then throw (DownloadFailed (status response) url)
     else Deno.create dest ;;
          writeChunks dest
            (Js.parseInt (default EmptyString (contentLength response)))
            (body response) 0 ;;
          if bodyFails response then throw (RuntimeError "read") else ret tt)).
  destruct (negb _); [apply keeps_throw|].
  apply keeps_bind; [apply keeps_create, requests_ignoresFs|intros _].
  apply keeps_bind; [apply keeps_writeChunks|intros _].
  destruct (bodyFails response); [apply keeps_throw|apply keeps_ret].
Qed.

Lemma atMostOneGet_rest (env : Env) (this : BrowserFetcher)
    (revision url archivePath : string) :
  atMostOneGet url
    (tryFinally
       (downloadFile env url archivePath ;;
        if bool_decide (_product this = firefox /\
                        (_platform this = linux \/ _platform this = linux_arm64))
        then
          actualArchivePath <- detectAndRenameArchive env archivePath ;;
          install env actualArchivePath (_getFolderPath this revision)
        else install env archivePath (_getFolderPath this revision))
       (leftover <- exists_ archivePath ;;
        if leftover then Deno.remove archivePath else ret tt) ;;
     info <- gets (fun w => revisionInfo env this (fs w) revision) ;;
     (if negb (String.eqb (build_os env) "windows") then
        Deno.chmod (executablePath info) ;;
        if (String.eqb (build_os env) "darwin" &&
            bool_decide (_product this = chrome))%bool
        then macOSMakeChromiumHelpersExecutable (executablePath info)
        else ret tt
      else ret tt) ;;
     ret info).
Proof.
  apply atMostOneGet_bind_r.
  - apply atMostOneGet_tryFinally.
    + apply atMostOneGet_bind_r.
      * intros w. right. apply downloadFile_requests.
      * intros _. destruct (bool_decide _).
        -- apply keeps_bind;
             [apply keeps_detectAndRenameArchive, requests_ignoresFs|intros p].
           apply keeps_install, requests_ignoresFs.
        -- apply keeps_install, requests_ignoresFs.
    + unfold exists_. repeat keeps_step.
  - intros _. unfold macOSMakeChromiumHelpersExecutable. repeat keeps_step.
Qed.

Lemma atMostOneGet_afterName (env : Env) (this : BrowserFetcher)
    (revision url archivePath : string) :
  atMostOneGet url
    (installed <- exists_ (_getFolderPath this revision) ;;
     if installed
     then gets (fun w => revisionInfo env this (fs w) revision)
     else
       haveFolder <- exists_ (_downloadsFolder this) ;;
       (if negb haveFolder then Deno.mkdir (_downloadsFolder this)
        else ret tt) ;;
       if (String.eqb (build_arch env) "arm64" &&
           bool_decide (_product this = chrome))%bool
       then throw UnsupportedArchitecture
       else
     tryFinally
       (downloadFile env url archivePath ;;
        if bool_decide (_product this = firefox /\
                        (_platform this = linux \/ _platform this = linux_arm64))
        then
          actualArchivePath <- detectAndRenameArchive env archivePath ;;
          install env actualArchivePath (_getFolderPath this revision)
        else install env archivePath (_getFolderPath this revision))
       (leftover <- exists_ archivePath ;;
        if leftover then Deno.remove archivePath else ret tt) ;;
     info <- gets (fun w => revisionInfo env this (fs w) revision) ;;
     (if negb (String.eqb (build_os env) "windows") then
        Deno.chmod (executablePath info) ;;
        if (String.eqb (build_os env) "darwin" &&
            bool_decide (_product this = chrome))%bool
        then macOSMakeChromiumHelpersExecutable (executablePath info)
        else ret tt
      else ret tt) ;;
     ret info).
Proof.
  unfold exists_.
  apply atMostOneGet_bind_l; [apply keeps_gets|intros installed].
  destruct installed; [apply atMostOneGet_keeps, keeps_gets|].
  apply atMostOneGet_bind_l; [apply keeps_gets|intros haveFolder].
  apply atMostOneGet_bind_l.
  { destruct (negb haveFolder);
      [apply keeps_mkdir, requests_ignoresFs|apply keeps_ret]. }
  intros _. destruct (_ && _)%bool;
    [apply atMostOneGet_keeps, keeps_throw|].
  apply atMostOneGet_rest.
Qed.

(** The default archive name for Firefox on the two Linux platforms. *)
Lemma archiveFileName_run (env : Env) (this : BrowserFetcher)
    (url revision : string) (w : World) :
  archiveFileName env this url revision w =
  if isFirefoxLinux (_product this) (_platform this) then
    let w1 := {| fs := fs w;
                 requests := (requests w ++ [(HEAD, url)])%list;
                 progress := progress w |} in
    match fetch env HEAD url with
    | Some response =>
        (Ok (default
               ("firefox-" +:+ revision +:+ ".en-US.linux-" +:+
                (if bool_decide (_platform this = linux_arm64)
                 then "aarch64" else "x86_64") +:+ ".tar.bz2")
               (Disposition.actualFileName (contentDisposition response))),
         w1)
    | None => (Err (RuntimeError "fetch"), w1)
    end
  else (Ok (Js.lastSegment url), w).
Proof.
  unfold archiveFileName. rewrite isFirefoxLinux_decide.
  destruct (isFirefoxLinux (_product this) (_platform this)); [|reflexivity].
  unfold bind, fetchWith. destruct (fetch env HEAD url) as [response|];
    [|reflexivity].
  now destruct (Disposition.actualFileName (contentDisposition response)).
Qed.

(** X18: every request of [download] goes to the resolved download URL: a
    HEAD request first, for Firefox on [linux] and [linux-arm64] only, and
    then at most one GET; nothing else is ever sent. *)
Theorem download_requests (env : Env) (this : BrowserFetcher)
    (revision : string) (w : World) :
  let url := downloadURL (sprintf env) (_product this) (_platform this)
               (_downloadHost this) revision in
  exists gets,
    requests (download env this revision w).2 =
      (requests w ++
       (if isFirefoxLinux (_product this) (_platform this)
        then [(HEAD, url)] else []) ++ gets)%list /\
    (gets = [] \/ gets = [(GET, url)]).
Proof.
  intros url.
  pose proof (fun fileName =>
    atMostOneGet_afterName env this revision url
      (pathJoin [_downloadsFolder this; fileName])) as Hrest.
  unfold download. fold url. unfold bind at 1.
  rewrite archiveFileName_run.
  destruct (isFirefoxLinux (_product this) (_platform this)).
  - cbv zeta. destruct (fetch env HEAD url) as [response|].
    + set (w1 := {| fs := fs w; requests := _; progress := progress w |}).
      destruct (Hrest
                  (default
                     ("firefox-" +:+ revision +:+ ".en-US.linux-" +:+
                      (if bool_decide (_platform this = linux_arm64)
                       then "aarch64" else "x86_64") +:+ ".tar.bz2")
                     (Disposition.actualFileName (contentDisposition response)))
                  w1) as [H|H];
        [exists []|exists [(GET, url)]]; (split; [|auto]);
        rewrite H; subst w1; cbn [requests]; now rewrite <- ?app_assoc.
    + exists []. split; [|now left]. cbn [snd requests].
      now rewrite app_nil_r.
  - destruct (Hrest (Js.lastSegment url) w) as [H|H];
      [exists []|exists [(GET, url)]]; (split; [|auto]); rewrite H;
      cbn [app]; now rewrite ?app_nil_r.
Qed.

(** ** A download that goes ahead *)

Lemma archiveFileName_world (env : Env) (this : BrowserFetcher)
    (url revision : string) (w w1 : World) (r : Result string) :
  archiveFileName env this url revision w = (r, w1) ->
  fs w1 = fs w /\ progress w1 = progress w.
Proof.
  rewrite archiveFileName_run.
  destruct (isFirefoxLinux _ _); [|now intros [= _ <-]].
  cbv zeta. destruct (fetch env HEAD url); now intros [= _ <-].
Qed.

(** [download] past the existence check and the architecture check, in
    terms of its [try] statement. *)
Lemma download_fresh (env : Env) (this : BrowserFetcher) (revision : string)
    (w w1 : World) (fileName : string) :
  let url := downloadURL (sprintf env) (_product this) (_platform this)
               (_downloadHost this) revision in
  let archivePath := pathJoin [_downloadsFolder this; fileName] in
  let w2 := if existsSync (fs w1) (_downloadsFolder this) then w1
            else setFs (insert (_downloadsFolder this) Dir) w1 in
  let t := tryFinally (tryBlock env this url archivePath revision)
             (finallyBlock archivePath) w2 in
  archiveFileName env this url revision w = (Ok fileName, w1) ->
  existsSync (fs w1) (_getFolderPath this revision) = false ->
  (String.eqb (build_arch env) "arm64" &&
   bool_decide (_product this = chrome))%bool = false ->
  download env this revision w =
  (match t.1 with
   | Err e => Err e
   | Ok _ =>
       let info := revisionInfo env this (fs t.2) revision in
       if (negb (String.eqb (build_os env) "windows") &&
           negb (existsSync (fs t.2) (executablePath info)))%bool
       then Err (RuntimeError "chmod")
       else Ok info
   end, t.2).
Proof.
  intros url archivePath w2 t Hname Hmissing Hcond. subst t.
  unfold download. fold url. unfold bind at 1. rewrite Hname.
  fold archivePath. rewrite Hcond.
  change (tryFinally _ _)
    with (tryFinally (tryBlock env this url archivePath revision)
            (finallyBlock archivePath)).
  unfold bind at 1. unfold exists_ at 1, gets at 1. rewrite Hmissing.
  unfold bind at 1. unfold exists_ at 1, gets at 1.
  unfold bind at 1.
  assert ((if negb (existsSync (fs w1) (_downloadsFolder this))
           then Deno.mkdir (_downloadsFolder this) else ret tt) w1
          = (Ok tt, w2)) as ->.
  { subst w2. unfold existsSync, Deno.mkdir.
    destruct (fs w1 !! _downloadsFolder this) eqn:E; cbn [negb];
      now rewrite ?E. }
  unfold bind at 1.
  destruct (tryFinally _ _ w2) as [[[]|e] w3]; [|reflexivity].
  cbn [fst snd]. cbv beta iota zeta delta [bind gets ret].
  destruct (String.eqb (build_os env) "windows"); cbn [negb andb];
    [reflexivity|].
  unfold Deno.chmod.
  destruct (existsSync (fs w3) _); cbn [negb]; [|reflexivity].
  unfold macOSMakeChromiumHelpersExecutable, ret.
  destruct (String.eqb (build_os env) "darwin" &&
            bool_decide (_product this = chrome))%bool; reflexivity.
Qed.

Lemma finallyBlock_run (archivePath : string) (w : World) :
  finallyBlock archivePath w =
  (Ok tt,
   if existsSync (fs w) archivePath then setFs (removeTree archivePath) w
   else w).
Proof.
  unfold finallyBlock, bind, exists_, gets.
  destruct (existsSync (fs w) archivePath) eqn:E; [|reflexivity].
  unfold Deno.remove. unfold existsSync in E.
  now destruct (fs w !! archivePath).
Qed.

Lemma tryFinally_run {A} (body : M A) (archivePath : string) (w : World) :
  tryFinally body (finallyBlock archivePath) w =
  ((body w).1,
   if existsSync (fs (body w).2) archivePath
   then setFs (removeTree archivePath) (body w).2
   else (body w).2).
Proof.
  unfold tryFinally. destruct (body w) as [r w1].
  now rewrite finallyBlock_run.
Qed.


Lemma removeTree_gone (dir : string) (fs : FileSystem) :
  existsSync (removeTree dir fs) dir = false.
Proof.
  unfold existsSync. now rewrite lookup_removeTree, isWithin_refl.
Qed.

(** X19: once [download] is past the existence check and the architecture
    check, nothing is left at the path the archive was written to, the
    downloads folder joined with the file name, whether the transfer and
    the extraction succeeded or failed. *)
Theorem download_removes_archive (env : Env) (this : BrowserFetcher)
    (revision : string) (w w1 : World) (fileName : string) :
  archiveFileName env this
    (downloadURL (sprintf env) (_product this) (_platform this)
       (_downloadHost this) revision) revision w = (Ok fileName, w1) ->
  existsSync (fs w) (_getFolderPath this revision) = false ->
  (String.eqb (build_arch env) "arm64" &&
   bool_decide (_product this = chrome))%bool = false ->
  existsSync (fs (download env this revision w).2)
    (pathJoin [_downloadsFolder this; fileName]) = false.
Proof.
  intros Hname Hmissing Hcond.
  destruct (archiveFileName_world _ _ _ _ _ _ _ Hname) as [Hfs _].
  rewrite <- Hfs in Hmissing.
  rewrite (download_fresh env this revision w w1 fileName Hname Hmissing Hcond).
  cbn [snd]. rewrite tryFinally_run. cbn [snd].
  match goal with
  | |- context [tryBlock ?e ?t ?u ?a ?r ?w0] =>
      set (wb := (tryBlock e t u a r w0).2)
  end.
  destruct (existsSync (fs wb) (pathJoin [_downloadsFolder this; fileName]))
    eqn:E; [apply removeTree_gone|exact E].
Qed.

Lemma download_removes_archive_witness :
  existsSync
    (fs (download Scenario.env Scenario.chromeLinux "1000"
           Scenario.emptyWorld).2)
    (pathJoin [_downloadsFolder Scenario.chromeLinux; "chrome-linux.zip"]) =
  false.
Proof.
  apply (download_removes_archive Scenario.env Scenario.chromeLinux "1000"
           Scenario.emptyWorld Scenario.emptyWorld "chrome-linux.zip");
    reflexivity.
Defined.




(** ** What extraction leaves on disk *)

Section Preserves.

Variable P : World -> Prop.

Lemma preserves_ret {A} (a : A) : preserves P (ret a).
Proof. intros w H. exact H. Qed.

Lemma preserves_throw {A} (e : Error) : preserves P (@throw A e).
Proof. intros w H. exact H. Qed.

Lemma preserves_bind {A B} (m : M A) (k : A -> M B) :
  preserves P m -> (forall a, preserves P (k a)) -> preserves P (bind m k).
Proof.
  intros Hm Hk w H. unfold bind. specialize (Hm w H).
  destruct (m w) as [[a|e] w1]; [|exact Hm]. now apply Hk.
Qed.

Lemma preserves_tryFinally {A} (body : M A) (cleanup : M unit) :
  preserves P body -> preserves P cleanup ->
  preserves P (tryFinally body cleanup).
Proof.
  intros Hb Hc w H. unfold tryFinally. specialize (Hb w H).
  destruct (body w) as [r w1]. specialize (Hc w1 Hb).
  now destruct (cleanup w1) as [[[]|e] w2].
Qed.

End Preserves.

Lemma existsSync_insert (fs : FileSystem) (key path : string) (node : Node) :
  existsSync fs path = true -> existsSync (<[key := node]> fs) path = true.
Proof.
  unfold existsSync. destruct (decide (key = path)) as [->|Hne].
  - now rewrite lookup_insert_eq.
  - now rewrite lookup_insert_ne.
Qed.

Lemma existsSync_insert_eq (fs : FileSystem) (path : string) (node : Node) :
  existsSync (<[path := node]> fs) path = true.
Proof. unfold existsSync. now rewrite lookup_insert_eq. Qed.

Lemma existsSync_writeEntries (dir path : string)
    (entries : list (string * Node)) (fs : FileSystem) :
  existsSync fs path = true ->
  existsSync (writeEntries dir entries fs) path = true.
Proof.
  intros H. induction entries as [|entry rest IH]; [exact H|].
  cbn [writeEntries foldr]. now apply existsSync_insert.
Qed.

Section PreservesFolder.

Variable env : Env.
Variable folder : string.

Lemma preserves_readFile path : preserves (there folder) (Deno.readFile path).
Proof.
  intros w H. unfold Deno.readFile.
  now destruct (fs w !! path) as [[content|]|].
Qed.

Lemma preserves_create path : preserves (there folder) (Deno.create path).
Proof.
  intros w H. unfold Deno.create.
  destruct (fs w !! path) as [[content|]|]; cbn [snd setFs fs]; try exact H;
    [now apply existsSync_insert|].
  destruct (parentIsDirectory (fs w) path); cbn [snd setFs fs]; [|exact H].
  now apply existsSync_insert.
Qed.

Lemma preserves_makeTempFile path :
  preserves (there folder) (Deno.makeTempFile path).
Proof.
  intros w H. unfold Deno.makeTempFile.
  destruct (fs w !! path) as [[content|]|]; cbn [snd setFs fs]; try exact H;
    now apply existsSync_insert.
Qed.

Lemma preserves_write path chunk : preserves (there folder) (Deno.write path chunk).
Proof.
  intros w H. unfold Deno.write.
  destruct (fs w !! path) as [[content|]|]; cbn [snd setFs fs]; try exact H.
  now apply existsSync_insert.
Qed.

Lemma preserves_extractInto dir entries :
  preserves (there folder) (extractInto dir entries).
Proof. intros w H. now apply existsSync_writeEntries. Qed.

Lemma preserves_untar flags content :
  preserves (there folder) (untar env flags content folder).
Proof.
  unfold untar. destruct (tarEntries env flags content);
    [apply preserves_extractInto|apply preserves_throw].
Qed.

Lemma mkdir_there (w : World) :
  (Deno.mkdir folder w).1 = Ok tt -> there folder (Deno.mkdir folder w).2.
Proof.
  unfold there, Deno.mkdir, existsSync.
  destruct (fs w !! folder) as [[content|]|] eqn:E; cbn [fst snd setFs fs];
    try discriminate; intros _; [now rewrite E|now rewrite lookup_insert_eq].
Qed.

(** After a successful [mkdir] of the folder, whatever preserves the folder
    ends with the folder in place. *)
Lemma after_mkdir (rest : M unit) (w w' : World) (r : Result unit) :
  preserves (there folder) rest ->
  (Deno.mkdir folder ;; rest) w = (r, w') ->
  (Deno.mkdir folder w).1 = Ok tt ->
  there folder w'.
Proof.
  intros Hrest Hrun Hmkdir. pose proof (mkdir_there w Hmkdir) as Hthere.
  unfold bind in Hrun. destruct (Deno.mkdir folder w) as [[[]|e] w1];
    [|discriminate].
  cbn [snd] in Hthere. specialize (Hrest w1 Hthere).
  now rewrite Hrun in Hrest.
Qed.

Lemma preserves_tarBz2_rest tarPath :
  preserves (there folder)
    (content <- Deno.readFile tarPath ;;
     let '(success, output) := bzcat env content in
     tmp <- Deno.makeTempFile (tempFile env) ;;
     Deno.create tmp ;;
     Deno.write tmp output ;;
     if negb success then throw (AssertionFailed "failed bzcat")
     else untar env xvf output folder).
Proof.
  apply preserves_bind; [apply preserves_readFile|intros content].
  destruct (bzcat env content) as [success output].
  apply preserves_bind; [apply preserves_makeTempFile|intros tmp].
  apply preserves_bind; [apply preserves_create|intros _].
  apply preserves_bind; [apply preserves_write|intros _].
  destruct (negb success); [apply preserves_throw|apply preserves_untar].
Qed.

Lemma preserves_tar_rest flags tarPath :
  preserves (there folder)
    (content <- Deno.readFile tarPath ;; untar env flags content folder).
Proof.
  apply preserves_bind; [apply preserves_readFile|intros content].
  apply preserves_untar.
Qed.

Lemma preserves_installDMG dmgPath :
  preserves (there folder) (installDMG env dmgPath folder).
Proof.
  unfold installDMG.
  apply preserves_bind; [apply preserves_readFile|intros content].
  destruct (hdiutilAttach env content) as [stdout volume].
  destruct (matchVolumes stdout); [|apply preserves_throw].
  apply preserves_tryFinally.
  - destruct (List.find _ volume) as [[appName files]|];
      [apply preserves_extractInto|apply preserves_throw].
  - destruct (hdiutilDetach env _); [apply preserves_ret|apply preserves_throw].
Qed.

Lemma mkdir_Ok (rest : M unit) (w w' : World) :
  (Deno.mkdir folder ;; rest) w = (Ok tt, w') ->
  (Deno.mkdir folder w).1 = Ok tt.
Proof.
  unfold bind. now destruct (Deno.mkdir folder w) as [[[]|e] w1].
Qed.

(** A successful [install] ends with the destination folder in place. *)
Lemma install_creates_folder (archivePath : string) (w w' : World) :
  install env archivePath folder w = (Ok tt, w') -> there folder w'.
Proof.
  unfold install.
  destruct (Js.endsWith archivePath ".zip").
  { unfold extractZip. intros H.
    apply bind_Ok in H as (content & w1 & _ & H).
    destruct (unzipEntries env content) as [entries|]; [|discriminate].
    unfold bind, modify, extractInto, modify in H. injection H as <-.
    unfold there. cbn [setFs fs].
    apply existsSync_writeEntries, existsSync_insert_eq. }
  destruct (Js.endsWith archivePath ".tar.bz2").
  { intros H. eapply after_mkdir;
      [apply (preserves_tarBz2_rest archivePath)|exact H|].
    eapply mkdir_Ok, H. }
  destruct (Js.endsWith archivePath ".tar.gz").
  { intros H. eapply after_mkdir;
      [apply (preserves_tar_rest xzf archivePath)|exact H|].
    eapply mkdir_Ok, H. }
  destruct (Js.endsWith archivePath ".tar.xz").
  { intros H. eapply after_mkdir;
      [apply (preserves_tar_rest xJf archivePath)|exact H|].
    eapply mkdir_Ok, H. }
  destruct (Js.endsWith archivePath ".dmg"); [|discriminate].
  intros H. eapply after_mkdir;
    [apply (preserves_installDMG archivePath)|exact H|].
  eapply mkdir_Ok, H.
Qed.

End PreservesFolder.

Lemma bind_Err {A B} (m : M A) (k : A -> M B) (w w1 : World) (e : Error) :
  m w = (Err e, w1) -> bind m k w = (Err e, w1).
Proof. intros H. unfold bind. now rewrite H. Qed.

Lemma download_refused (env : Env) (this : BrowserFetcher) (revision : string)
    (w w1 : World) (fileName : string) :
  archiveFileName env this
    (downloadURL (sprintf env) (_product this) (_platform this)
       (_downloadHost this) revision) revision w = (Ok fileName, w1) ->
  existsSync (fs w1) (_getFolderPath this revision) = false ->
  (String.eqb (build_arch env) "arm64" &&
   bool_decide (_product this = chrome))%bool = true ->
  (download env this revision w).1 = Err UnsupportedArchitecture.
Proof.
  intros Hname Hmissing Hcond.
  unfold download, bind at 1. rewrite Hname, Hcond.
  unfold bind at 1. unfold exists_ at 1, gets at 1. rewrite Hmissing.
  unfold bind at 1. unfold exists_ at 1, gets at 1. unfold bind at 1.
  assert (exists w2,
            (if negb (existsSync (fs w1) (_downloadsFolder this))
             then Deno.mkdir (_downloadsFolder this) else ret tt) w1
            = (Ok tt, w2)) as [w2 ->]; [|reflexivity].
  unfold existsSync, Deno.mkdir.
  destruct (fs w1 !! _downloadsFolder this) eqn:E; cbn [negb];
    rewrite ?E; eauto.
Qed.

Lemma bind_keeps_after {A B X} (f : World -> X) (m : M A) (k : A -> M B)
    (w : World) :
  (forall a, keeps f (k a)) -> f (bind m k w).2 = f (m w).2.
Proof.
  intros Hk. unfold bind. destruct (m w) as [[a|e] w1]; [apply Hk|reflexivity].
Qed.

Lemma tryFinally_keeps_after {A X} (f : World -> X) (body : M A)
    (cleanup : M unit) (w : World) :
  keeps f cleanup -> f (tryFinally body cleanup w).2 = f (body w).2.
Proof.
  intros Hc. unfold tryFinally. destruct (body w) as [r w1].
  specialize (Hc w1). now destruct (cleanup w1) as [[[]|e] w2].
Qed.

(** The [try] statement of [download] sends exactly the GET request. *)
Lemma tryStatement_requests (env : Env) (this : BrowserFetcher)
    (url archivePath revision : string) (w : World) :
  requests (tryFinally (tryBlock env this url archivePath revision)
              (finallyBlock archivePath) w).2 =
  (requests w ++ [(GET, url)])%list.
Proof.
  rewrite tryFinally_keeps_after
    by (unfold finallyBlock, exists_; repeat keeps_step).
  unfold tryBlock. rewrite bind_keeps_after; [apply downloadFile_requests|].
  intros _. destruct (bool_decide _).
  - apply keeps_bind;
      [apply keeps_detectAndRenameArchive, requests_ignoresFs|intros actual].
    apply keeps_install, requests_ignoresFs.
  - apply keeps_install, requests_ignoresFs.
Qed.

(** C10: the refusal of Chrome is keyed on the architecture of the host
    and on the product, not on the configured platform, and it comes after
    the local-existence short-circuit; but the architecture is compared with
    the string [arm64], which is not one of the two names the runtime has
    for an architecture, [x86_64] and [aarch64].  On a host that reports
    either name, an ARM host included, [download] never raises the refusal,
    and a fresh Chrome download goes on to send its GET request. *)
Theorem download_arm64_check (env : Env) (this : BrowserFetcher)
    (revision : string) (w : World) :
  let folder := _getFolderPath this revision in
  let url := downloadURL (sprintf env) (_product this) (_platform this)
               (_downloadHost this) revision in
  ((download env this revision w).1 = Err UnsupportedArchitecture <->
   build_arch env = "arm64" /\ _product this = chrome /\
   existsSync (fs w) folder = false) /\
  (In (build_arch env) ["x86_64"; "aarch64"] ->
   (download env this revision w).1 <> Err UnsupportedArchitecture /\
   (_product this = chrome ->
    existsSync (fs w) folder = false ->
    requests (download env this revision w).2 =
    (requests w ++ [(GET, url)])%list)).
Proof.
  intros folder url. split.
  - apply (download_refusal_condition env this revision w).
  - intros Harch.
    assert (String.eqb (build_arch env) "arm64" = false) as Hcheck.
    { destruct Harch as [<-|[<-|[]]]; reflexivity. }
    split.
    + intros Hraise.
      eapply (download_raisesOnly env this revision);
        [|exact Hraise|reflexivity].
      now rewrite Hcheck.
    + intros Hproduct Hmissing.
      assert (archiveFileName env this url revision w =
              (Ok (Js.lastSegment url), w)) as Hname.
      { rewrite archiveFileName_run. now rewrite Hproduct. }
      rewrite (download_fresh env this revision w w (Js.lastSegment url)
                 Hname Hmissing) by now rewrite Hcheck.
      cbn [snd]. fold url. rewrite tryStatement_requests.
      now destruct (existsSync (fs w) (_downloadsFolder this)).
Qed.

Lemma download_arm64_check_witness :
  (download Cases.arm64Linux Scenario.chromeLinux "1000"
     Scenario.emptyWorld).1 <> Err UnsupportedArchitecture /\
  requests (download Cases.arm64Linux Scenario.chromeLinux "1000"
              Scenario.emptyWorld).2 =
  [(GET, "https://storage.googleapis.com/chromium-browser-snapshots/Linux_x64/1000/chrome-linux.zip")].
Proof.
  destruct (proj2 (download_arm64_check Cases.arm64Linux Scenario.chromeLinux
                     "1000" Scenario.emptyWorld))
    as [Hnever Hget]; [right; left; reflexivity|].
  split; [exact Hnever|]. now apply Hget.
Defined.

(** On an ARM host, as the runtime reports it, the default Chrome fetcher
    downloads and installs the x64 build: the refusal does not fire. *)
Lemma download_on_aarch64 :
  exists info,
    (download Cases.arm64Linux Scenario.chromeLinux "1000"
       Scenario.emptyWorld).1 = Ok info /\
    local info = true /\
    executablePath info = "/cache/chromium/linux-1000/chrome-linux/chrome".
Proof. eexists. split; [vm_compute; reflexivity|]. split; reflexivity. Qed.

(** X21: a [download] that returns leaves the folder of the revision on
    disk and says so in the info it returns, provided the folder does not
    lie at or below the path the archive is written to. *)
Theorem download_success_local (env : Env) (this : BrowserFetcher)
    (revision : string) (w w' : World) (info : BrowserFetcherRevisionInfo) :
  download env this revision w = (Ok info, w') ->
  (forall fileName w1,
     archiveFileName env this
       (downloadURL (sprintf env) (_product this) (_platform this)
          (_downloadHost this) revision) revision w = (Ok fileName, w1) ->
     isWithin (pathJoin [_downloadsFolder this; fileName])
       (_getFolderPath this revision) = false) ->
  existsSync (fs w') (_getFolderPath this revision) = true /\
  local info = true.
Proof.
  intros Hrun Hapart.
  assert (existsSync (fs w') (_getFolderPath this revision) = true) as Hthere.
  2:{ split; [exact Hthere|].
      apply download_result in Hrun as ->. exact Hthere. }
  destruct (existsSync (fs w) (_getFolderPath this revision)) eqn:Hbefore.
  { rewrite (download_installed env this revision w Hbefore) in Hrun.
    destruct (isFirefoxLinux _ _); cbv zeta in Hrun;
      [destruct (fetch env HEAD _); [|discriminate]|];
      injection Hrun as _ <-; exact Hbefore. }
  destruct (archiveFileName env this _ revision w) as [[fileName|e] w1]
    eqn:Hname.
  2:{ unfold download in Hrun. rewrite (bind_Err _ _ _ _ _ Hname) in Hrun.
      discriminate. }
  specialize (Hapart fileName w1 eq_refl).
  destruct (archiveFileName_world _ _ _ _ _ _ _ Hname) as [Hfs _].
  rewrite <- Hfs in Hbefore.
  destruct (String.eqb (build_arch env) "arm64" &&
            bool_decide (_product this = chrome))%bool eqn:Hcond.
  { pose proof (download_refused env this revision w w1 fileName Hname
                  Hbefore Hcond) as Hrefused.
    rewrite Hrun in Hrefused. discriminate. }
  rewrite (download_fresh env this revision w w1 fileName Hname Hbefore Hcond)
    in Hrun.
  rewrite tryFinally_run in Hrun. cbn [fst snd] in Hrun.
  match type of Hrun with
  | context [tryBlock ?e ?t ?u ?a ?r ?w0] =>
      destruct (tryBlock e t u a r w0) as [[[]|e0] wb] eqn:Hbody
  end; cbn [fst snd] in Hrun; [|discriminate].
  assert (there (_getFolderPath this revision) wb) as Hwb.
  { unfold tryBlock in Hbody.
    apply bind_Ok in Hbody as ([] & wa & _ & Hrest).
    destruct (bool_decide _).
    - apply bind_Ok in Hrest as (path & wc & _ & Hinstall).
      now apply install_creates_folder in Hinstall.
    - now apply install_creates_folder in Hrest. }
  injection Hrun as _ <-.
  destruct (existsSync (fs wb) (pathJoin [_downloadsFolder this; fileName]));
    [|exact Hwb].
  cbn [setFs fs]. unfold existsSync. rewrite lookup_removeTree, Hapart.
  exact Hwb.
Qed.

Lemma download_success_local_witness :
  existsSync
    (fs (download Scenario.env Scenario.chromeLinux "1000"
           Scenario.emptyWorld).2)
    (_getFolderPath Scenario.chromeLinux "1000") = true.
Proof.
  apply (download_success_local Scenario.env Scenario.chromeLinux "1000"
           Scenario.emptyWorld
           (download Scenario.env Scenario.chromeLinux "1000"
              Scenario.emptyWorld).2
           (revisionInfo Scenario.env Scenario.chromeLinux
              (fs (download Scenario.env Scenario.chromeLinux "1000"
                     Scenario.emptyWorld).2) "1000")).
  - vm_compute. reflexivity.
  - intros fileName w1 Hname. vm_compute in Hname.
    injection Hname as <- _. vm_compute. reflexivity.
Defined.

Lemma mkdir_run (folder : string) (w : World) :
  (forall content, fs w !! folder <> Some (File content)) ->
  Deno.mkdir folder w =
  (Ok tt, if existsSync (fs w) folder then w else setFs (insert folder Dir) w).
Proof.
  intros Hfolder. unfold Deno.mkdir, existsSync.
  destruct (fs w !! folder) as [[content|]|] eqn:E; try reflexivity.
  now destruct (Hfolder content).
Qed.

Lemma lookup_after_mkdir (folder path : string) (w : World) (content : bytes) :
  (forall c, fs w !! folder <> Some (File c)) ->
  fs w !! path = Some (File content) ->
  fs (if existsSync (fs w) folder then w else setFs (insert folder Dir) w)
    !! path = Some (File content).
Proof.
  intros Hfolder Hpath. destruct (existsSync (fs w) folder); [exact Hpath|].
  cbn [setFs fs]. rewrite lookup_insert_ne; [exact Hpath|].
  intros ->. now apply (Hfolder content).
Qed.

Lemma there_after_mkdir (folder : string) (w : World) :
  there folder (if existsSync (fs w) folder then w
                else setFs (insert folder Dir) w).
Proof.
  unfold there. destruct (existsSync (fs w) folder) eqn:E; [exact E|].
  apply existsSync_insert_eq.
Qed.

(** X22: when [tar] fails on a [.tar.gz] or [.tar.xz] archive, [install]
    raises, yet the destination folder, created before the extraction,
    stays on disk: a fetcher whose revision folder it is then reports the
    revision as local. *)
Theorem untar_failure_leaves_folder (env : Env) (archivePath folder : string)
    (flags : TarFlags) (content : bytes) (w : World) :
  (Js.endsWith archivePath ".tar.gz" = true /\ flags = xzf) \/
  (Js.endsWith archivePath ".tar.xz" = true /\ flags = xJf) ->
  fs w !! archivePath = Some (File content) ->
  (forall c, fs w !! folder <> Some (File c)) ->
  tarEntries env flags content = None ->
  (install env archivePath folder w).1 = Err (AssertionFailed "failed untar") /\
  existsSync (fs (install env archivePath folder w).2) folder = true /\
  (forall (this : BrowserFetcher) (revision : string),
     _getFolderPath this revision = folder ->
     local (revisionInfo env this (fs (install env archivePath folder w).2)
              revision) = true).
Proof.
  intros Hext Hfile Hfolder Htar.
  assert (install env archivePath folder w =
          (Err (AssertionFailed "failed untar"),
           if existsSync (fs w) folder then w
           else setFs (insert folder Dir) w)) as Hrun.
  { unfold install.
    destruct Hext as [[Hgz ->]|[Hxz ->]].
    - rewrite (endsWith_exclusive archivePath ".tar.gz" ".zip"),
        (endsWith_exclusive archivePath ".tar.gz" ".tar.bz2"), Hgz
        by (reflexivity || assumption).
      unfold extractTarGz, bind at 1. rewrite (mkdir_run _ _ Hfolder).
      unfold bind, Deno.readFile.
      rewrite (lookup_after_mkdir _ _ _ _ Hfolder Hfile).
      unfold untar. now rewrite Htar.
    - rewrite (endsWith_exclusive archivePath ".tar.xz" ".zip"),
        (endsWith_exclusive archivePath ".tar.xz" ".tar.bz2"),
        (endsWith_exclusive archivePath ".tar.xz" ".tar.gz"), Hxz
        by (reflexivity || assumption).
      unfold extractTarXz, bind at 1. rewrite (mkdir_run _ _ Hfolder).
      unfold bind, Deno.readFile.
      rewrite (lookup_after_mkdir _ _ _ _ Hfolder Hfile).
      unfold untar. now rewrite Htar. }
  rewrite Hrun. cbn [fst snd].
  split; [reflexivity|]. split; [apply there_after_mkdir|].
  intros this revision <-. cbn [local revisionInfo]. apply there_after_mkdir.
Qed.

Lemma untar_failure_leaves_folder_witness :
  (install Cases.brokenTar "/cache/firefox/nightly.tar.xz"
     "/cache/firefox/linux-141.0a1" Cases.xzNamed).1 =
  Err (AssertionFailed "failed untar") /\
  existsSync
    (fs (install Cases.brokenTar "/cache/firefox/nightly.tar.xz"
           "/cache/firefox/linux-141.0a1" Cases.xzNamed).2)
    "/cache/firefox/linux-141.0a1" = true.
Proof.
  destruct (untar_failure_leaves_folder Cases.brokenTar
              "/cache/firefox/nightly.tar.xz" "/cache/firefox/linux-141.0a1"
              xJf (concat Scenario.xzPayload) Cases.xzNamed)
    as (Hraise & Hthere & _).
  - right. split; reflexivity.
  - reflexivity.
  - intros c. vm_compute. discriminate.
  - reflexivity.
  - split; [exact Hraise|exact Hthere].
Defined.

Lemma lookup_writeEntries_outside (dir path : string)
    (entries : list (string * Node)) (fs : FileSystem) :
  isWithin dir path = false ->
  writeEntries dir entries fs !! path = fs !! path.
Proof.
  intros Hout. induction entries as [|entry rest IH]; [reflexivity|].
  cbn [writeEntries foldr]. rewrite lookup_insert_ne; [exact IH|].
  rewrite pathJoin_two. intros Heq.
  now rewrite <- Heq, isWithin_below in Hout.
Qed.

Lemma extractTarBz2_run (env : Env) (tarPath folder : string)
    (content : bytes) (w : World) :
  fs w !! tarPath = Some (File content) ->
  (forall c, fs w !! folder <> Some (File c)) ->
  fs w !! tempFile env <> Some Dir ->
  isWithin folder (tempFile env) = false ->
  extractTarBz2 env tarPath folder w =
  let w1 := if existsSync (fs w) folder then w
            else setFs (insert folder Dir) w in
  let w2 := setFs (insert (tempFile env) (File (bzcat env content).2)) w1 in
  if (bzcat env content).1 then
    match tarEntries env xvf (bzcat env content).2 with
    | Some entries => (Ok tt, setFs (writeEntries folder entries) w2)
    | None => (Err (AssertionFailed "failed untar"), w2)
    end
  else (Err (AssertionFailed "failed bzcat"), w2).
Proof.
  intros Hfile Hfolder Htmp Hout.
  unfold extractTarBz2, bind at 1. rewrite (mkdir_run _ _ Hfolder).
  pose proof (lookup_after_mkdir _ _ _ _ Hfolder Hfile) as Hread.
  set (w1 := if existsSync (fs w) folder then w
             else setFs (insert folder Dir) w) in *.
  unfold bind at 1. unfold Deno.readFile. rewrite Hread.
  destruct (bzcat env content) as [success output]. cbn [fst snd].
  assert (fs w1 !! tempFile env <> Some Dir) as Htmp1.
  { subst w1. destruct (existsSync (fs w) folder); [exact Htmp|].
    cbn [setFs fs]. rewrite lookup_insert_ne; [exact Htmp|].
    intros Heq. now rewrite <- Heq, isWithin_refl in Hout. }
  unfold bind at 1.
  assert (Deno.makeTempFile (tempFile env) w1 =
          (Ok (tempFile env), setFs (insert (tempFile env) (File [])) w1)) as ->.
  { unfold Deno.makeTempFile.
    destruct (fs w1 !! tempFile env) as [[c|]|]; congruence. }
  unfold bind at 1. unfold Deno.create at 1. cbn [setFs fs].
  rewrite lookup_insert_eq.
  unfold bind at 1. unfold Deno.write. cbn [setFs fs].
  rewrite lookup_insert_eq. unfold setFs. cbn [fs requests progress app].
  rewrite !insert_insert_eq.
  destruct success; cbn [negb]; [|reflexivity].
  unfold untar, extractInto, modify, setFs.
  now destruct (tarEntries env xvf output).
Qed.

(** ** What each extension gets *)








(** X23: [extractTarBz2] writes the output of [bzcat] to the temporary file
    and never removes it: whether [bzcat] fails, [tar] fails or both
    succeed, the temporary file is on disk afterwards with that output; a
    failing [bzcat] raises before [tar] is run, and the call succeeds
    exactly when both commands do. *)
Theorem extractTarBz2_temp_file (env : Env) (tarPath folder : string)
    (content : bytes) (w : World) :
  let result := extractTarBz2 env tarPath folder w in
  let outcome := bzcat env content in
  fs w !! tarPath = Some (File content) ->
  (forall c, fs w !! folder <> Some (File c)) ->
  fs w !! tempFile env <> Some Dir ->
  isWithin folder (tempFile env) = false ->
  fs result.2 !! tempFile env = Some (File outcome.2) /\
  (outcome.1 = false -> result.1 = Err (AssertionFailed "failed bzcat")) /\
  (result.1 = Ok tt <->
   outcome.1 = true /\ tarEntries env xvf outcome.2 <> None).
Proof.
  intros result outcome Hfile Hfolder Htmp Hout. subst result outcome.
  rewrite (extractTarBz2_run env tarPath folder content w Hfile Hfolder Htmp Hout).
  cbv zeta. destruct (bzcat env content) as [success output]. cbn [fst snd].
  destruct success.
  - destruct (tarEntries env xvf output) as [entries|]; cbn [fst snd setFs fs].
    + rewrite (lookup_writeEntries_outside _ _ _ _ Hout), lookup_insert_eq.
      split; [reflexivity|]. split; [discriminate|].
      split; [intros _; split; [reflexivity|discriminate]|reflexivity].
    + rewrite lookup_insert_eq.
      split; [reflexivity|]. split; [discriminate|].
      split; [discriminate|]. now intros [_ []].
  - cbn [fst snd setFs fs]. rewrite lookup_insert_eq.
    split; [reflexivity|]. split; [reflexivity|].
    split; [discriminate|]. intros [[=] _].
Qed.

Lemma extractTarBz2_temp_file_witness :
  fs (extractTarBz2 Scenario.env "/cache/firefox/nightly.tar.bz2"
        "/cache/firefox/linux-141.0a1" Scenario.defaultNamed).2
    !! "/tmp/archive.tar" = Some (File (concat Scenario.xzPayload)).
Proof.
  apply (extractTarBz2_temp_file Scenario.env "/cache/firefox/nightly.tar.bz2"
           "/cache/firefox/linux-141.0a1" (concat Scenario.xzPayload)
           Scenario.defaultNamed).
  - reflexivity.
  - intros c. vm_compute. discriminate.
  - vm_compute. discriminate.
  - reflexivity.
Defined.

(** ** Installed revisions, once more *)

Lemma childName_plain (dir path name : string) :
  childName dir path = Some name ->
  name <> EmptyString /\ Js.includes name "/" = false.
Proof.
  unfold childName. destruct (stripPrefix _ path) as [rest|]; [|discriminate].
  destruct (String.eqb_spec rest EmptyString) as [|Hne]; [discriminate|].
  destruct (Js.includes rest "/") eqn:E; [discriminate|].
  intros [= <-]. now split.
Qed.

Lemma listDir_spec (dir name : string) (fs : FileSystem) :
  In name (listDir dir fs) <->
  is_Some (fs !! pathJoin [dir; name]) /\
  name <> EmptyString /\ Js.includes name "/" = false.
Proof.
  split.
  - intros Hin. split; [now apply elem_of_listDir|].
    unfold listDir in Hin. apply list_elem_of_In, list_elem_of_omap in Hin
      as (path & _ & Hchild).
    now apply childName_plain in Hchild.
  - intros ([node Hnode] & Hne & Hslash).
    apply list_elem_of_In, list_elem_of_omap.
    exists (pathJoin [dir; name]). split.
    + apply list_elem_of_In, in_map_iff. exists (pathJoin [dir; name], node).
      split; [reflexivity|]. now apply list_elem_of_In, elem_of_map_to_list.
    + unfold childName. rewrite pathJoin_two.
      replace (dir +:+ String "/" name) with ((dir +:+ "/") +:+ name)
        by now rewrite append_assoc.
      rewrite stripPrefix_append, Hslash.
      now apply String.eqb_neq in Hne as ->.
Qed.

Lemma platformName_plain (platform : Platform) :
  platformName platform <> EmptyString /\
  Js.includes (platformName platform) "/" = false.
Proof. destruct platform; split; (discriminate || reflexivity). Qed.

Lemma folderName_slash (platform : Platform) (revision : string) :
  Js.includes (platformName platform +:+ "-" +:+ revision) "/" =
  Js.includes revision "/".
Proof.
  rewrite includes_append, (proj2 (platformName_plain platform)).
  change ("-" +:+ revision) with (String "-" revision).
  now rewrite includes_cons.
Qed.

(** X24: when the downloads folder is a directory, [localRevisions] changes
    nothing and returns exactly the revisions without hyphen and without
    slash whose folder [{platform}-{revision}] exists under it; folders of
    other platforms and entries that do not parse are left out. *)
Theorem localRevisions_spec (this : BrowserFetcher) (w : World) :
  fs w !! _downloadsFolder this = Some Dir ->
  exists revisions,
    localRevisions this w = (Ok revisions, w) /\
    forall revision,
      In revision revisions <->
      existsSync (fs w) (_getFolderPath this revision) = true /\
      Js.includes revision "-" = false /\
      Js.includes revision "/" = false.
Proof.
  intros Hroot. unfold localRevisions, bind, exists_, gets, existsSync.
  rewrite Hroot. cbn [negb]. unfold Deno.readDir. rewrite Hroot.
  eexists. split; [reflexivity|]. intros revision. split.
  - intros Hin.
    apply in_map_iff in Hin as ([parsed|] & Hrev & Hin);
      apply filter_In in Hin as [Hin Hplatform]; [|discriminate].
    apply String.eqb_eq in Hplatform.
    apply in_map_iff in Hin as (name & Hparse & Hname).
    pose proof (parseName_revision _ _ _ Hparse) as Hhyphen.
    apply parseName_inv in Hparse as (-> & _ & _).
    apply listDir_spec in Hname as ([node Hnode] & _ & Hslash).
    subst revision. rewrite Hplatform in Hnode, Hslash.
    rewrite folderName_slash in Hslash.
    unfold _getFolderPath. now rewrite Hnode.
  - intros (Hthere & Hhyphen & Hslash).
    apply in_map_iff.
    exists (Some {| parsedProduct := _product this;
                    parsedPlatform := platformName (_platform this);
                    parsedRevision := revision |}).
    split; [reflexivity|]. apply filter_In. split.
    + apply in_map_iff.
      exists (platformName (_platform this) +:+ "-" +:+ revision).
      split; [now apply parseName_folder|].
      apply listDir_spec. split; [|split].
      * unfold _getFolderPath in Hthere.
        now destruct (fs w !! pathJoin _).
      * destruct (_platform this); discriminate.
      * now rewrite folderName_slash.
    + cbn [parsedPlatform]. apply String.eqb_refl.
Qed.

Lemma localRevisions_spec_witness :
  exists revisions,
    localRevisions Scenario.chromeLinux Scenario.chromeInstalled =
      (Ok revisions, Scenario.chromeInstalled) /\
    In "1000" revisions.
Proof.
  destruct (localRevisions_spec Scenario.chromeLinux Scenario.chromeInstalled
              eq_refl) as (revisions & Hrun & Hin).
  exists revisions. split; [exact Hrun|].
  apply Hin. repeat split; reflexivity.
Defined.

Lemma remove_run (this : BrowserFetcher) (revision : string) (w : World) :
  remove this revision w =
  if existsSync (fs w) (_getFolderPath this revision)
  then (Ok tt, setFs (removeTree (_getFolderPath this revision)) w)
  else (Err (NotDownloaded revision), w).
Proof.
  unfold remove, bind, exists_, gets.
  destruct (existsSync (fs w) (_getFolderPath this revision)) eqn:E;
    [|reflexivity].
  cbn [negb]. unfold Deno.remove. unfold existsSync in E.
  now destruct (fs w !! _getFolderPath this revision).
Qed.

Lemma folder_base (this : BrowserFetcher) :
  exists base, forall revision, _getFolderPath this revision = base +:+ revision.
Proof.
  exists (_downloadsFolder this +:+
          String "/" (platformName (_platform this) +:+ "-")).
  intros revision. unfold _getFolderPath. rewrite pathJoin_two.
  change (String "/" (platformName (_platform this) +:+ "-" +:+ revision))
    with ("/" +:+ platformName (_platform this) +:+ "-" +:+ revision).
  change (String "/" (platformName (_platform this) +:+ "-"))
    with ("/" +:+ platformName (_platform this) +:+ "-").
  now rewrite !append_assoc.
Qed.

Lemma folders_apart (this : BrowserFetcher) (revision other : string) :
  other <> revision ->
  Js.includes other "/" = false ->
  isWithin (_getFolderPath this revision) (_getFolderPath this other) = false.
Proof.
  intros Hne Hslash. unfold isWithin.
  destruct (folder_base this) as [base Hbase]. rewrite !Hbase.
  apply orb_false_intro.
  - apply String.eqb_neq. intros Heq. now apply append_inv_l in Heq.
  - destruct (String.prefix _ _) eqn:E; [|reflexivity].
    apply prefix_inv in E as [rest Hrest].
    rewrite !append_assoc in Hrest. apply append_inv_l in Hrest.
    rewrite Hrest, includes_append in Hslash.
    apply orb_false_elim in Hslash as [_ Hslash].
    change ("/" +:+ rest) with (String "/" rest) in Hslash.
    now rewrite includes_cons in Hslash.
Qed.

Lemma plainSegment_slash (s : string) :
  plainSegment s = true -> Js.includes s "/" = false.
Proof.
  unfold plainSegment. intros [H _]%andb_true_iff. now apply negb_true_iff.
Qed.

(** A folder does not lie at or below the folder of another platform or
    revision of the same downloads folder. *)
Lemma folders_disjoint (this other : BrowserFetcher)
    (revision revision' : string) :
  _downloadsFolder this = _downloadsFolder other ->
  Js.includes revision' "/" = false ->
  _getFolderPath this revision <> _getFolderPath other revision' ->
  isWithin (_getFolderPath this revision) (_getFolderPath other revision') =
  false.
Proof.
  intros Hroot Hslash Hne. unfold isWithin. apply orb_false_intro.
  - apply String.eqb_neq. congruence.
  - destruct (String.prefix _ _) eqn:E; [exfalso|reflexivity].
    apply prefix_inv in E as [rest Hrest].
    unfold _getFolderPath in Hrest. rewrite !pathJoin_two, Hroot in Hrest.
    rewrite !append_assoc in Hrest. apply append_inv_l in Hrest.
    change (String "/" (platformName (_platform this) +:+ "-" +:+ revision)
            +:+ "/" +:+ rest)
      with (String "/" ((platformName (_platform this) +:+ "-" +:+ revision)
                        +:+ "/" +:+ rest)) in Hrest.
    injection Hrest as Hrest.
    pose proof (folderName_slash (_platform other) revision') as Hplain.
    rewrite Hslash, Hrest in Hplain.
    rewrite (includes_append _ ("/" +:+ rest)) in Hplain.
    change ("/" +:+ rest) with (String "/" rest) in Hplain.
    rewrite includes_cons in Hplain. cbn [Ascii.eqb Bool.eqb] in Hplain.
    rewrite orb_true_r in Hplain. discriminate Hplain.
Qed.

(** X2: under one downloads folder, for revisions without a hyphen and
    without a separator, the folders of two revisions are different, and
    neither lies below the other, as soon as the platforms or the revisions
    differ; so installed revisions of different platforms or versions never
    share a folder. *)
Theorem getFolderPath_injective (this other : BrowserFetcher)
    (revision revision' : string) :
  _downloadsFolder this = _downloadsFolder other ->
  Js.includes revision "-" = false ->
  Js.includes revision' "-" = false ->
  plainSegment revision = true ->
  plainSegment revision' = true ->
  _platform this <> _platform other \/ revision <> revision' ->
  _getFolderPath this revision <> _getFolderPath other revision' /\
  isWithin (_getFolderPath this revision) (_getFolderPath other revision') =
    false /\
  isWithin (_getFolderPath other revision') (_getFolderPath this revision) =
    false.
Proof.
  intros Hroot Hr Hr' Hplain Hplain' Hdiffer.
  assert (_getFolderPath this revision <> _getFolderPath other revision')
    as Hne.
  { unfold _getFolderPath. rewrite !pathJoin_two, Hroot. intros Heq.
    apply append_inv_l in Heq. injection Heq as Heq.
    pose proof (parseName_folder chrome (_platform this) revision Hr) as Hp.
    pose proof (parseName_folder chrome (_platform other) revision' Hr') as Hp'.
    rewrite Heq, Hp' in Hp. injection Hp as Hplatform Hrevision.
    apply platformName_inj in Hplatform.
    destruct Hdiffer as [Hd|Hd]; congruence. }
  split; [exact Hne|]. split.
  - now apply folders_disjoint; [|apply plainSegment_slash|].
  - apply folders_disjoint; [now symmetry|now apply plainSegment_slash|].
    congruence.
Qed.

Lemma getFolderPath_injective_witness :
  _getFolderPath Scenario.chromeLinux "1000" <>
  _getFolderPath
    {| _product := chrome;
       _downloadsFolder := "/cache/chromium";
       _downloadHost := host (browserConfig chrome);
       _platform := linux_arm64 |} "1000".
Proof.
  apply (getFolderPath_injective Scenario.chromeLinux
           {| _product := chrome;
              _downloadsFolder := "/cache/chromium";
              _downloadHost := host (browserConfig chrome);
              _platform := linux_arm64 |} "1000" "1000");
    try reflexivity.
  left. discriminate.
Defined.

(** X25: for a revision without a separator, [remove] touches nothing
    outside the folder of the revision: every path that is not at or below
    it is as before, so every other revision without a separator stays as
    it was, installed or not; no request is sent; and removing the same
    revision again raises the not-installed exception. *)
Theorem remove_frame (this : BrowserFetcher) (revision : string) (w : World) :
  plainSegment revision = true ->
  existsSync (fs w) (_getFolderPath this revision) = true ->
  let w' := (remove this revision w).2 in
  (forall path,
     isWithin (_getFolderPath this revision) path = false ->
     fs w' !! path = fs w !! path) /\
  (forall other,
     other <> revision -> plainSegment other = true ->
     existsSync (fs w') (_getFolderPath this other) =
     existsSync (fs w) (_getFolderPath this other)) /\
  (remove this revision w').1 = Err (NotDownloaded revision) /\
  requests w' = requests w.
Proof.
  intros Hplain Hthere w'. subst w'. rewrite remove_run, Hthere.
  cbn [snd setFs fs].
  assert (forall path,
            isWithin (_getFolderPath this revision) path = false ->
            removeTree (_getFolderPath this revision) (fs w) !! path =
            fs w !! path) as Hframe
    by (intros path Hout; now rewrite lookup_removeTree, Hout).
  split; [exact Hframe|]. split; [|split; [|reflexivity]].
  - intros other Hne Hother%plainSegment_slash. unfold existsSync.
    now rewrite (Hframe _ (folders_apart this revision other Hne Hother)).
  - rewrite remove_run. cbn [setFs fs]. now rewrite removeTree_gone.
Qed.

Lemma remove_frame_witness :
  (remove Scenario.chromeLinux "1000"
     (remove Scenario.chromeLinux "1000" Scenario.chromeInstalled).2).1 =
  Err (NotDownloaded "1000") /\
  existsSync (fs (remove Scenario.chromeLinux "1000" Scenario.chromeInstalled).2)
    "/cache/chromium" = true.
Proof.
  destruct (remove_frame Scenario.chromeLinux "1000" Scenario.chromeInstalled
              eq_refl eq_refl) as (Hframe & _ & Hagain & _).
  split; [exact Hagain|].
  unfold existsSync. now rewrite (Hframe "/cache/chromium" eq_refl).
Defined.

(** X26: after [remove], the revision info of the revision says it is not
    local, and nothing exists any more at its executable path. *)
Theorem remove_clears_executable (env : Env) (this : BrowserFetcher)
    (revision : string) (w : World) :
  existsSync (fs w) (_getFolderPath this revision) = true ->
  let info := revisionInfo env this (fs (remove this revision w).2) revision in
  local info = false /\
  existsSync (fs (remove this revision w).2) (executablePath info) = false.
Proof.
  intros Hthere info. subst info. rewrite remove_run, Hthere.
  cbn [snd setFs fs local revisionInfo]. split; [apply removeTree_gone|].
  destruct (executablePath_below env this
              (removeTree (_getFolderPath this revision) (fs w)) revision)
    as [rest ->].
  unfold existsSync. now rewrite lookup_removeTree, isWithin_below.
Qed.

Lemma remove_clears_executable_witness :
  existsSync
    (fs (remove Scenario.chromeLinux "1000" Scenario.chromeInstalled).2)
    "/cache/chromium/linux-1000/chrome-linux/chrome" = false.
Proof.
  apply (remove_clears_executable Scenario.env Scenario.chromeLinux "1000"
           Scenario.chromeInstalled).
  reflexivity.
Defined.

(** ** Sniffing, then installing *)

(** For a name that ends in [.tar.bz2], the path a format is renamed to
    makes [install] pick the extractor of that format. *)
Lemma install_renamedPath (env : Env) (stem folder : string) (content : bytes) :
  let archivePath := stem +:+ ".tar.bz2" in
  let format := Sniffer.classify env archivePath content in
  install env (renamedPath archivePath format) folder =
  match format with
  | tar_xz => extractTarXz env (stem +:+ ".tar.xz") folder
  | tar_gzip => extractTarGz env (stem +:+ ".tar.gz") folder
  | zip => extractZip env (stem +:+ ".zip") folder
  | tar_bzip2 | unknown => extractTarBz2 env (stem +:+ ".tar.bz2") folder
  end.
Proof.
  intros archivePath format. subst archivePath.
  assert (forall a b, Js.endsWith a b = false -> Js.endsWith b a = false ->
            Js.endsWith (stem +:+ a) b = false) as Hx.
  { intros a b Hab Hba.
    apply (endsWith_exclusive _ a b Hab Hba), endsWith_append. }
  destruct format; cbn [renamedPath]; rewrite ?replaceSuffix_append;
    unfold install.
  - now rewrite (Hx ".tar.xz" ".zip"), (Hx ".tar.xz" ".tar.bz2"),
      (Hx ".tar.xz" ".tar.gz"), endsWith_append.
  - now rewrite (Hx ".tar.gz" ".zip"), (Hx ".tar.gz" ".tar.bz2"),
      endsWith_append.
  - now rewrite (Hx ".tar.bz2" ".zip"), endsWith_append.
  - now rewrite endsWith_append.
  - now rewrite (Hx ".tar.bz2" ".zip"), endsWith_append.
Qed.

(** What the sniffer returns and does to the disk, for a file that is there
    and a target name that is no directory. *)
Lemma detectAndRenameArchive_run (env : Env) (archivePath : string)
    (content : bytes) (w : World) :
  let newPath := renamedPath archivePath (Sniffer.classify env archivePath content) in
  fs w !! archivePath = Some (File content) ->
  fs w !! newPath <> Some Dir ->
  detectAndRenameArchive env archivePath w =
  (Ok newPath,
   if String.eqb archivePath newPath then w
   else moved archivePath newPath (File content) w).
Proof.
  intros newPath Hfile Hnew.
  unfold detectAndRenameArchive, bind at 1, Deno.readFile. rewrite Hfile.
  subst newPath. unfold Sniffer.classify, Sniffer.classifyMagic in *.
  destruct (magic_tests _ (readHeader_length content))
    as (-> & -> & -> & ->).
  destruct (Sniffer.startsWith _ (readHeader content));
    [now apply renameTo_run|].
  destruct (Sniffer.startsWith _ (readHeader content));
    [now apply renameTo_run|].
  destruct (Sniffer.startsWith _ (readHeader content)).
  { unfold ret. now rewrite String.eqb_refl. }
  destruct (Sniffer.startsWith _ (readHeader content));
    [now apply renameTo_run|].
  unfold bind, tryCatch, Sniffer.classifyOutput in *.
  destruct (fileCommand env archivePath content) as [output|].
  - destruct (Js.includes output "gzip").
    { rewrite (renameTo_run _ _ _ _ Hfile Hnew). reflexivity. }
    destruct (Js.includes output "bzip2").
    { unfold ret. cbn [default renamedPath]. now rewrite String.eqb_refl. }
    destruct (Js.includes output "Zip").
    { rewrite (renameTo_run _ _ _ _ Hfile Hnew). reflexivity. }
    unfold ret. cbn [default renamedPath]. now rewrite String.eqb_refl.
  - unfold throw, ret. cbn [default renamedPath].
    now rewrite String.eqb_refl.
Qed.

Lemma append_differs (stem a b : string) :
  a <> b -> String.eqb (stem +:+ a) (stem +:+ b) = false.
Proof. intros Hne. apply String.eqb_neq. now intros H%append_inv_l. Qed.

(** X27: the two steps [download] takes after the transfer for Firefox on
    Linux, [detectAndRenameArchive] and then [install] on the path it
    returns, applied to an archive whose name ends in [.tar.bz2]: the
    extractor is the one of the sniffed content, run on the renamed file:
    tar with xz for XZ content, tar with gzip for gzip content, zip for ZIP
    content, each after the rename to the matching extension, and bzip2
    with tar on the file as it is for bzip2 or unrecognised content. *)
Theorem install_by_content (env : Env) (stem folder : string)
    (content : bytes) (w : World) :
  let archivePath := stem +:+ ".tar.bz2" in
  let format := Sniffer.classify env archivePath content in
  fs w !! archivePath = Some (File content) ->
  fs w !! renamedPath archivePath format <> Some Dir ->
  (actualArchivePath <- detectAndRenameArchive env archivePath ;;
   install env actualArchivePath folder) w =
  match format with
  | tar_xz =>
      extractTarXz env (stem +:+ ".tar.xz") folder
        (moved archivePath (stem +:+ ".tar.xz") (File content) w)
  | tar_gzip =>
      extractTarGz env (stem +:+ ".tar.gz") folder
        (moved archivePath (stem +:+ ".tar.gz") (File content) w)
  | zip =>
      extractZip env (stem +:+ ".zip") folder
        (moved archivePath (stem +:+ ".zip") (File content) w)
  | tar_bzip2 | unknown => extractTarBz2 env archivePath folder w
  end.
Proof.
  intros archivePath format Hfile Hnew.
  unfold bind.
  rewrite (detectAndRenameArchive_run env archivePath content w Hfile Hnew).
  subst format archivePath.
  rewrite (install_renamedPath env stem folder content).
  destruct (Sniffer.classify env (stem +:+ ".tar.bz2") content);
    cbn [renamedPath]; rewrite ?replaceSuffix_append;
    rewrite ?String.eqb_refl, ?append_differs by discriminate; reflexivity.
Qed.

Lemma install_by_content_witness :
  (actualArchivePath <-
     detectAndRenameArchive Scenario.env "/cache/firefox/nightly.tar.bz2" ;;
   install Scenario.env actualArchivePath "/cache/firefox/linux-141.0a1")
    Scenario.defaultNamed =
  extractTarXz Scenario.env "/cache/firefox/nightly.tar.xz"
    "/cache/firefox/linux-141.0a1"
    (moved "/cache/firefox/nightly.tar.bz2" "/cache/firefox/nightly.tar.xz"
       (File (concat Scenario.xzPayload)) Scenario.defaultNamed).
Proof.
  apply (install_by_content Scenario.env "/cache/firefox/nightly"
           "/cache/firefox/linux-141.0a1" (concat Scenario.xzPayload)
           Scenario.defaultNamed eq_refl).
  vm_compute. discriminate.
Defined.
